(** * Book-the-slot: the slot routes and the Slot schema

    A shallow embedding of [backend/routes/slots.js] (the handlers that
    write: create, update, delete, book and cancel, with their two
    helpers [convertTo12Hour] and [normalizeDate]) and of the Mongoose
    schema of a slot ([models/Slot]), followed by the properties of the
    specification that concern them, and by further properties of the
    code. The three handlers that only read are given as the answer
    that they send for a store.

    Conventions of the embedding.
    - A JavaScript string is a [string]; each character stands for one
      UTF-16 code unit below 256.
    - A JavaScript number that the code only uses as an integer is a
      [jsnum]: [NaN], an infinity, or a finite integer. Negative zero is
      identified with zero: nothing in these files tells them apart.
    - A [Date] is its time value: [Some t] with [t] milliseconds since the
      epoch, or [None] for an Invalid Date. The arithmetic on time values
      is that of ECMAScript, written out on integers.
    - The body of a request is a map from field names to strings; a field
      that is absent is [undefined].
    - The document store is explicit state, threaded through a small
      monad with exceptions; the calls to the store client are recorded.
      What Mongoose does with the declared schema is written out: the
      [trim] setters run when a path is set, and [save] validates the
      document ([required], [match]) before it writes.
    - What lies outside the two files is a parameter: the Event
      documents, the cast of a string to an ObjectId and the parsing of a
      date string (the class [Collaborators]). *)

From stdpp Require Import gmap strings.
From Stdlib Require Import ZArith Lia Ascii.

Local Open Scope Z_scope.

(** ** JavaScript strings *)

Module Js.

Definition code (c : ascii) : N := Ascii.N_of_ascii c.

Definition is_digit (c : ascii) : bool :=
  ((48 <=? code c) && (code c <=? 57))%N.

Definition digit_val (c : ascii) : Z := Z.of_N (code c) - 48.

Definition digit_char (d : Z) : ascii := Ascii.ascii_of_N (48 + Z.to_N d).

(** [StrWhiteSpaceChar] below 256: TAB, LF, VT, FF, CR, SP and NBSP. It is
    the set skipped by [parseInt] and removed by [String.prototype.trim]. *)
Definition is_white (c : ascii) : bool :=
  match code c with
  | 9 | 10 | 11 | 12 | 13 | 32 | 160 => true
  | _ => false
  end%N.

Definition colon : ascii := ":"%char.

(** [s.split(sep)] for a one-character separator: the first segment and
    the segments after it. *)
Fixpoint split_aux (sep : ascii) (s : string) : string * list string :=
  match s with
  | EmptyString => (EmptyString, [])
  | String c s' =>
      let '(seg, rest) := split_aux sep s' in
      if Ascii.eqb c sep then (EmptyString, seg :: rest)
      else (String c seg, rest)
  end.

Definition split (sep : ascii) (s : string) : list string :=
  let '(seg, rest) := split_aux sep s in seg :: rest.

Fixpoint contains (c : ascii) (s : string) : bool :=
  match s with
  | EmptyString => false
  | String a s' => Ascii.eqb a c || contains c s'
  end.

Fixpoint drop_white (s : string) : string :=
  match s with
  | String c s' => if is_white c then drop_white s' else s
  | EmptyString => EmptyString
  end.

Fixpoint rev_string (s acc : string) : string :=
  match s with
  | EmptyString => acc
  | String c s' => rev_string s' (String c acc)
  end.

(** [s.trim()] *)
Definition trim (s : string) : string :=
  rev_string (drop_white (rev_string (drop_white s) "")) "".

(** ** JavaScript numbers holding integers *)

Inductive jsnum : Type :=
  | NaN
  | Inf (negative : bool)
  | Fin (z : Z).

(** The Number nearest to an integer: exact below [2^53], otherwise
    rounded to 53 significant bits, ties to even, and infinite from
    [2^1024] on. *)
Definition to_double (z : Z) : jsnum :=
  let a := Z.abs z in
  if a <? 2 ^ 53 then Fin z
  else
    let shift := Z.log2 a - 52 in
    let q := Z.shiftr a shift in
    let r := a - Z.shiftl q shift in
    let half := Z.shiftl 1 (shift - 1) in
    let q' := if (half <? r) || ((r =? half) && Z.odd q) then q + 1 else q in
    let m := Z.shiftl q' shift in
    if 2 ^ 1024 <=? m then Inf (z <? 0) else Fin (Z.sgn z * m).

(** The value of a run of decimal digits, most significant first, and
    what follows it. *)
Fixpoint digits_value (s : string) (acc : Z) : Z :=
  match s with
  | String c s' => if is_digit c then digits_value s' (10 * acc + digit_val c) else acc
  | EmptyString => acc
  end.

Definition starts_with_digit (s : string) : bool :=
  match s with
  | String c _ => is_digit c
  | EmptyString => false
  end.

(** [parseInt(s, 10)]: leading white space is skipped, one sign is read,
    then the longest run of digits; no digit gives [NaN]. *)
Definition parseInt (s : string) : jsnum :=
  let s1 := drop_white s in
  let '(neg, s2) :=
    match s1 with
    | String "-" r => (true, r)
    | String "+" r => (false, r)
    | _ => (false, s1)
    end in
  if starts_with_digit s2 then
    let v := digits_value s2 0 in
    to_double (if neg then - v else v)
  else NaN.

(** [x >= 12] *)
Definition ge12 (x : jsnum) : bool :=
  match x with
  | NaN => false
  | Inf neg => negb neg
  | Fin z => 12 <=? z
  end.

(** [x % 12]: the remainder has the sign of the dividend. *)
Definition rem12 (x : jsnum) : jsnum :=
  match x with
  | Fin z => Fin (Z.rem z 12)
  | _ => NaN
  end.

(** [x || 12] *)
Definition or12 (x : jsnum) : jsnum :=
  match x with
  | NaN => Fin 12
  | Fin 0 => Fin 12
  | _ => x
  end.

(** Decimal digits of a natural number. *)
Fixpoint show_digits (fuel : nat) (n : Z) (acc : string) : string :=
  match fuel with
  | O => acc
  | S fuel' =>
      let acc' := String (digit_char (n mod 10)) acc in
      if n <? 10 then acc' else show_digits fuel' (n / 10) acc'
  end.

Definition show_nat (n : Z) : string :=
  show_digits (S (Z.to_nat (Z.log2 n))) n "".

Definition show_int (z : Z) : string :=
  if z <? 0 then String "-" (show_nat (- z)) else show_nat z.

(** [String(x)], as a template literal does it. Integers are printed in
    plain decimal, which is what JavaScript does below [10^21]. *)
Definition Number_toString (x : jsnum) : string :=
  match x with
  | NaN => "NaN"
  | Inf false => "Infinity"
  | Inf true => "-Infinity"
  | Fin z => show_int z
  end.

(** [String(v)] of a string that may be [undefined]. *)
Definition opt_toString (v : option string) : string :=
  match v with
  | Some s => s
  | None => "undefined"
  end.

End Js.

(** ** The helpers of [routes/slots.js] *)

(** [convertTo12Hour]: the array pattern [[hours, minutes]] takes the
    first two segments; a missing second segment is [undefined]. (A
    split has a first segment always.) *)
Definition convertTo12Hour (time24 : string) : string :=
  let parts := Js.split Js.colon time24 in
  let hours := default "" (parts !! 0%nat) in
  let minutes := parts !! 1%nat in
  let hourNum := Js.parseInt hours in
  let period := if Js.ge12 hourNum then "PM" else "AM" in
  let hour12 := Js.or12 (Js.rem12 hourNum) in
  Js.Number_toString hour12 +:+ ":" +:+ Js.opt_toString minutes +:+ " " +:+ period.

(** ** Dates: the time-value arithmetic of ECMAScript *)

Module JsDate.

Definition msPerDay : Z := 86400000.
Definition msPerHour : Z := 3600000.
Definition msPerMinute : Z := 60000.
Definition msPerSecond : Z := 1000.

Definition Day (t : Z) : Z := t / msPerDay.
Definition TimeWithinDay (t : Z) : Z := t mod msPerDay.

Definition DaysInYear (y : Z) : Z :=
  if negb (y mod 4 =? 0) then 365
  else if negb (y mod 100 =? 0) then 366
  else if negb (y mod 400 =? 0) then 365
  else 366.

Definition DayFromYear (y : Z) : Z :=
  365 * (y - 1970) + (y - 1969) / 4 - (y - 1901) / 100 + (y - 1601) / 400.

(** The year of a day number: the largest [y] with [DayFromYear y <= d].
    The quotient by the mean length of a year is off by one at most. *)
Definition YearFromDay (d : Z) : Z :=
  let y := 1970 + (400 * d) / 146097 in
  if DayFromYear (y + 1) <=? d then y + 1
  else if DayFromYear y <=? d then y
  else y - 1.

Definition YearFromTime (t : Z) : Z := YearFromDay (Day t).

Definition InLeapYear (t : Z) : Z :=
  if DaysInYear (YearFromTime t) =? 366 then 1 else 0.

Definition DayWithinYear (t : Z) : Z := Day t - DayFromYear (YearFromTime t).

(** The day of the year on which month [m] (0 to 11) starts. *)
Definition month_start (m leap : Z) : Z :=
  match m with
  | 0 => 0
  | 1 => 31
  | 2 => 59 + leap
  | 3 => 90 + leap
  | 4 => 120 + leap
  | 5 => 151 + leap
  | 6 => 181 + leap
  | 7 => 212 + leap
  | 8 => 243 + leap
  | 9 => 273 + leap
  | 10 => 304 + leap
  | _ => 334 + leap
  end.

Definition MonthFromTime (t : Z) : Z :=
  let d := DayWithinYear t in
  let leap := InLeapYear t in
  if d <? 31 then 0
  else if d <? 59 + leap then 1
  else if d <? 90 + leap then 2
  else if d <? 120 + leap then 3
  else if d <? 151 + leap then 4
  else if d <? 181 + leap then 5
  else if d <? 212 + leap then 6
  else if d <? 243 + leap then 7
  else if d <? 273 + leap then 8
  else if d <? 304 + leap then 9
  else if d <? 334 + leap then 10
  else 11.

Definition DateFromTime (t : Z) : Z :=
  DayWithinYear t - month_start (MonthFromTime t) (InLeapYear t) + 1.

Definition HourFromTime (t : Z) : Z := (t / msPerHour) mod 24.
Definition MinFromTime (t : Z) : Z := (t / msPerMinute) mod 60.
Definition SecFromTime (t : Z) : Z := (t / msPerSecond) mod 60.
Definition msFromTime (t : Z) : Z := t mod msPerSecond.

Definition MakeTime (h m s ms : Z) : Z :=
  h * msPerHour + m * msPerMinute + s * msPerSecond + ms.

(** [MakeDay]: the day number of the first of the month, plus the date.
    (For arguments out of the range of time values ECMAScript gives
    [NaN]; [TimeClip] rejects what comes of those.) *)
Definition MakeDay (year month date : Z) : Z :=
  let ym := year + month / 12 in
  let mn := month mod 12 in
  let leap := if DaysInYear ym =? 366 then 1 else 0 in
  DayFromYear ym + month_start mn leap + date - 1.

Definition MakeDate (day time : Z) : Z := day * msPerDay + time.

(** [TimeClip]: a time value lies within 100,000,000 days of the epoch. *)
Definition TimeClip (t : Z) : option Z :=
  if 8640000000000000 <? Z.abs t then None else Some t.

(** [MakeFullYear]: a year from 0 to 99 means a year of the 1900s. *)
Definition MakeFullYear (y : Z) : Z :=
  if (0 <=? y) && (y <=? 99) then 1900 + y else y.

(** [Date.UTC(year, month, date)] on numbers that may be [NaN]. *)
Definition UTC (year month date : option Z) : option Z :=
  match year, month, date with
  | Some y, Some m, Some dt =>
      TimeClip (MakeDate (MakeDay (MakeFullYear y) m dt) (MakeTime 0 0 0 0))
  | _, _, _ => None
  end.

Definition getUTCFullYear (d : option Z) : option Z := YearFromTime <$> d.
Definition getUTCMonth (d : option Z) : option Z := MonthFromTime <$> d.
Definition getUTCDate (d : option Z) : option Z := DateFromTime <$> d.

(** [new Date(value)] for a number that may be [NaN]. *)
Definition of_number (v : option Z) : option Z := v ≫= TimeClip.

(** Decimal digits of [n], padded with zeros on the left to [width]. *)
Definition pad (width : nat) (n : Z) : string :=
  let s := Js.show_nat n in
  String.string_of_list_ascii (replicate (width - String.length s) "0"%char) +:+ s.

(** The year of the ISO format: four digits from 0 to 9999, otherwise a
    sign and six digits. *)
Definition iso_year (y : Z) : string :=
  if (0 <=? y) && (y <=? 9999) then pad 4 y
  else if y <? 0 then String "-" (pad 6 (- y))
  else String "+" (pad 6 y).

(** [toISOString] of a valid time value. *)
Definition iso_string (t : Z) : string :=
  iso_year (YearFromTime t) +:+ "-" +:+ pad 2 (MonthFromTime t + 1) +:+ "-" +:+
  pad 2 (DateFromTime t) +:+ "T" +:+ pad 2 (HourFromTime t) +:+ ":" +:+
  pad 2 (MinFromTime t) +:+ ":" +:+ pad 2 (SecFromTime t) +:+ "." +:+
  pad 3 (msFromTime t) +:+ "Z".

(** The date of the ISO string: what stands before the letter T. *)
Definition iso_date (t : Z) : string :=
  iso_year (YearFromTime t) +:+ "-" +:+ pad 2 (MonthFromTime t + 1) +:+ "-" +:+
  pad 2 (DateFromTime t).

(** [d.toISOString()]: an Invalid Date raises a [RangeError]. *)
Definition toISOString (d : option Z) : option string := iso_string <$> d.

End JsDate.

(** [normalizeDate], after the constructor [new Date(dateStr)] has given
    the time value [date]. *)
Definition normalize (date : option Z) : option Z :=
  JsDate.of_number
    (JsDate.UTC (JsDate.getUTCFullYear date) (JsDate.getUTCMonth date)
       (JsDate.getUTCDate date)).

(** ** Regular expressions, as far as the schema uses them *)

Inductive regex : Type :=
  | Chr (c : ascii)
  | Range (lo hi : ascii)
  | Seq (r1 r2 : regex)
  | Alt (r1 r2 : regex)
  | Opt (r : regex)
  | Eps
  | Void.

Fixpoint nullable (r : regex) : bool :=
  match r with
  | Chr _ | Range _ _ | Void => false
  | Seq r1 r2 => nullable r1 && nullable r2
  | Alt r1 r2 => nullable r1 || nullable r2
  | Opt _ | Eps => true
  end.

(** The derivative of [r] by the character [c]. *)
Fixpoint deriv (c : ascii) (r : regex) : regex :=
  match r with
  | Chr a => if Ascii.eqb a c then Eps else Void
  | Range lo hi =>
      if ((Js.code lo <=? Js.code c) && (Js.code c <=? Js.code hi))%N
      then Eps else Void
  | Seq r1 r2 =>
      if nullable r1 then Alt (Seq (deriv c r1) r2) (deriv c r2)
      else Seq (deriv c r1) r2
  | Alt r1 r2 => Alt (deriv c r1) (deriv c r2)
  | Opt r1 => deriv c r1
  | Eps | Void => Void
  end.

(** [/^r$/.test(s)] *)
Fixpoint regex_test (r : regex) (s : string) : bool :=
  match s with
  | EmptyString => nullable r
  | String c s' => regex_test (deriv c r) s'
  end.

(** The pattern of the schema:
    [/^((1[0-2]|0?[1-9]):([0-5][0-9]) ?([AP]M))$/] *)
Definition time_pattern : regex :=
  Seq (Alt (Seq (Chr "1") (Range "0" "2")) (Seq (Opt (Chr "0")) (Range "1" "9")))
   (Seq (Chr ":")
    (Seq (Seq (Range "0" "5") (Range "0" "9"))
     (Seq (Opt (Chr " "))
      (Seq (Alt (Chr "A") (Chr "P")) (Chr "M"))))).

(** ** The Slot schema *)

Inductive Status : Type := available | booked.

Record BookedBy : Type := {
  name : string;
  enrollment : string;
  email : string;
  bookedAt : Z
}.

(** The paths of a slot document. A path that may be unset is an
    [option]; [createdAt] and [updatedAt], which the store manages and no
    handler reads, are left out. A [bookedBy] that is absent and one
    that is [null] are both [None]. *)
Record Slot : Type := {
  eventId : option N;
  date : option Z;
  startTime : string;
  endTime : string;
  purpose : string;
  status : Status;
  bookedBy : option BookedBy;
  createdBy : option N
}.

(** The [match] validator lets the empty string through; [required]
    rejects it. *)
Definition match_validator (r : regex) (v : string) : bool :=
  if String.eqb v "" then true else regex_test r v.

Definition required_string (v : string) : bool := negb (String.eqb v "").

(** The validation that [save] runs on a document. *)
Definition validate (s : Slot) : bool :=
  bool_decide (is_Some (eventId s)) &&
  bool_decide (is_Some (date s)) &&
  (required_string (startTime s) && match_validator time_pattern (startTime s)) &&
  (required_string (endTime s) && match_validator time_pattern (endTime s)) &&
  required_string (purpose s).

(** ** The store and the route handlers *)

(** The calls a handler makes to the store client, in order. *)
Inductive Access : Type :=
  | Event_find (id : string)
  | Slot_find (id : string)
  | Slot_reload (id : N)
  | Slot_save (id : N)
  | Slot_delete (id : N).

(** What a store call can throw. Only the cast error of an identifier has
    [kind === 'ObjectId']. *)
Inductive Exn : Type :=
  | CastError_ObjectId
  | ValidationError
  | DuplicateKey
  | TypeError.

(** What the environment supplies to a request: the clock read by
    [Date.now()] and the identifier that [new Slot] generates. *)
Record Env : Type := {
  now : Z;
  new_id : N
}.

(** A request: the [:id] of the path, the parsed body, whose fields are
    strings when present, and the administrator that [adminAuth] has put
    in [req.user.id]. *)
Record Request : Type := {
  params_id : string;
  body : gmap string string;
  user_id : N
}.

(** The string behind a value that passes a truthiness test: a field that
    is absent or empty does not. *)
Definition truthy (v : option string) : option string :=
  match v with
  | Some s => if String.eqb s "" then None else Some s
  | None => None
  end.

(** The collaborators outside these files: the Event documents, the cast
    of a string to an ObjectId (here a number) and the parsing of a date
    string by [new Date]. *)
Class Collaborators : Type := {
  Event : Type;
  castObjectId : string -> option N;
  Date_parse : string -> option Z
}.

Section Routes.

Context `{Collaborators}.

(** What a slot looks like outside: [toJSON] replaces [date] by the part
    of its ISO string before the letter T; [populate] has replaced
    [eventId] by the event, or by [null]. *)
Record SlotJSON : Type := {
  json_id : N;
  json_eventId : option Event;
  json_date : string;
  json_startTime : string;
  json_endTime : string;
  json_purpose : string;
  json_status : Status;
  json_bookedBy : option BookedBy;
  json_createdBy : option N
}.

Record Store : Type := {
  slots : gmap N Slot;
  events : gmap N Event;
  log : list Access
}.

Inductive Payload : Type :=
  | Message (message : string)
  | Failure (message : string) (error : Exn)
  | Json (slot : option SlotJSON).

Record Response : Type := {
  code : Z;
  payload : Payload
}.

(** A Mongoose document in memory. *)
Record Doc : Type := {
  doc_id : N;
  isNew : bool;
  doc : Slot
}.

(** Computations on the store that may throw. *)
Definition M (A : Type) : Type := Store -> (Exn + A) * Store.

Definition ret {A} (a : A) : M A := fun st => (inr a, st).

Definition throw {A} (e : Exn) : M A := fun st => (inl e, st).

Definition bind {A B} (m : M A) (k : A -> M B) : M B :=
  fun st =>
    match m st with
    | (inr a, st') => k a st'
    | (inl e, st') => (inl e, st')
    end.

Definition record (a : Access) : M unit :=
  fun st => (inr tt, {| slots := slots st; events := events st; log := log st ++ [a] |}).

Definition get_slots : M (gmap N Slot) := fun st => (inr (slots st), st).

Definition get_events : M (gmap N Event) := fun st => (inr (events st), st).

Definition put_slots (m : gmap N Slot) : M unit :=
  fun st => (inr tt, {| slots := m; events := events st; log := log st |}).

Notation "x <- m ;; k" := (bind m (fun x => k))
  (at level 100, m at next level, right associativity).
Notation "m ;;; k" := (bind m (fun _ => k))
  (at level 100, right associativity).

(** A handler: the body of its [try], and its [catch]. *)
Definition handle (body : M Response) (catch : Exn -> Response)
  : Store -> Response * Store :=
  fun st =>
    match body st with
    | (inr r, st') => (r, st')
    | (inl e, st') => (catch e, st')
    end.

Definition respond (c : Z) (p : Payload) : Store -> Response * Store :=
  fun st => ({| code := c; payload := p |}, st).

(** *** The store client *)

(** [Event.findById(id)] *)
Definition Event_findById (id : string) : M (option Event) :=
  record (Event_find id) ;;;
  match castObjectId id with
  | None => throw CastError_ObjectId
  | Some i => es <- get_events ;; ret (es !! i)
  end.

(** [Slot.findById(id)] with the identifier of the path *)
Definition Slot_findById (id : string) : M (option Doc) :=
  record (Slot_find id) ;;;
  match castObjectId id with
  | None => throw CastError_ObjectId
  | Some i =>
      ss <- get_slots ;;
      ret ((fun s => {| doc_id := i; isNew := false; doc := s |}) <$> ss !! i)
  end.

(** [Slot.findById(slot._id).populate('eventId')] *)
Definition Slot_findById_populate (id : N) : M (option (Doc * option Event)) :=
  record (Slot_reload id) ;;;
  ss <- get_slots ;;
  es <- get_events ;;
  ret ((fun s => ({| doc_id := id; isNew := false; doc := s |},
                  eventId s ≫= (es !!.))) <$> ss !! id).

(** [slot.save()]: the document is validated, then inserted when it is
    new and written back otherwise. *)
Definition save (d : Doc) : M unit :=
  record (Slot_save (doc_id d)) ;;;
  if validate (doc d) then
    ss <- get_slots ;;
    if isNew d && bool_decide (is_Some (ss !! doc_id d))
    then throw DuplicateKey
    else put_slots (<[doc_id d := doc d]> ss)
  else throw ValidationError.

(** [slot.deleteOne()] *)
Definition deleteOne (d : Doc) : M unit :=
  record (Slot_delete (doc_id d)) ;;;
  ss <- get_slots ;;
  put_slots (delete (doc_id d) ss).

(** [new Slot({...})]: the setters of the schema run on the values; the
    one that changes a value here is [trim] on [purpose]. *)
Definition Slot_new (env : Env) (eventId : string) (date : option Z)
    (startTime endTime purpose : string) (createdBy : N) : Doc :=
  {| doc_id := new_id env;
     isNew := true;
     doc := {| eventId := castObjectId eventId;
               date := date;
               startTime := startTime;
               endTime := endTime;
               purpose := Js.trim purpose;
               status := available;
               bookedBy := None;
               createdBy := Some createdBy |} |}.

Definition set_date (v : option Z) (d : Doc) : Doc :=
  {| doc_id := doc_id d; isNew := isNew d;
     doc := {| eventId := eventId (doc d); date := v;
               startTime := startTime (doc d); endTime := endTime (doc d);
               purpose := purpose (doc d); status := status (doc d);
               bookedBy := bookedBy (doc d); createdBy := createdBy (doc d) |} |}.

Definition set_startTime (v : string) (d : Doc) : Doc :=
  {| doc_id := doc_id d; isNew := isNew d;
     doc := {| eventId := eventId (doc d); date := date (doc d);
               startTime := v; endTime := endTime (doc d);
               purpose := purpose (doc d); status := status (doc d);
               bookedBy := bookedBy (doc d); createdBy := createdBy (doc d) |} |}.

Definition set_endTime (v : string) (d : Doc) : Doc :=
  {| doc_id := doc_id d; isNew := isNew d;
     doc := {| eventId := eventId (doc d); date := date (doc d);
               startTime := startTime (doc d); endTime := v;
               purpose := purpose (doc d); status := status (doc d);
               bookedBy := bookedBy (doc d); createdBy := createdBy (doc d) |} |}.

(** The setter of [purpose] trims. *)
Definition set_purpose (v : string) (d : Doc) : Doc :=
  {| doc_id := doc_id d; isNew := isNew d;
     doc := {| eventId := eventId (doc d); date := date (doc d);
               startTime := startTime (doc d); endTime := endTime (doc d);
               purpose := Js.trim v; status := status (doc d);
               bookedBy := bookedBy (doc d); createdBy := createdBy (doc d) |} |}.

Definition set_status (v : Status) (d : Doc) : Doc :=
  {| doc_id := doc_id d; isNew := isNew d;
     doc := {| eventId := eventId (doc d); date := date (doc d);
               startTime := startTime (doc d); endTime := endTime (doc d);
               purpose := purpose (doc d); status := v;
               bookedBy := bookedBy (doc d); createdBy := createdBy (doc d) |} |}.

(** The setters of [bookedBy.name], [.enrollment] and [.email] trim;
    assigning [null] clears the whole sub-record. *)
Definition set_bookedBy (v : option BookedBy) (d : Doc) : Doc :=
  {| doc_id := doc_id d; isNew := isNew d;
     doc := {| eventId := eventId (doc d); date := date (doc d);
               startTime := startTime (doc d); endTime := endTime (doc d);
               purpose := purpose (doc d); status := status (doc d);
               bookedBy :=
                 (fun b => {| name := Js.trim (name b);
                              enrollment := Js.trim (enrollment b);
                              email := Js.trim (email b);
                              bookedAt := bookedAt b |}) <$> v;
               createdBy := createdBy (doc d) |} |}.

(** *** The helpers and the serialization hook *)

(** [new Date(dateStr)]: the parsed value goes through [TimeClip]. *)
Definition new_Date (dateStr : string) : option Z :=
  JsDate.of_number (Date_parse dateStr).

Definition normalizeDate (dateStr : string) : option Z :=
  normalize (new_Date dateStr).

(** [slotSchema.methods.toJSON] on a populated document. Without a
    [date] the call of [toISOString] throws. *)
Definition toJSON (p : Doc * option Event) : Exn + SlotJSON :=
  let '(d, ev) := p in
  match JsDate.toISOString (date (doc d)) with
  | None => inl TypeError
  | Some iso =>
      inr {| json_id := doc_id d;
             json_eventId := ev;
             json_date := default "" (Js.split "T" iso !! 0%nat);
             json_startTime := startTime (doc d);
             json_endTime := endTime (doc d);
             json_purpose := purpose (doc d);
             json_status := status (doc d);
             json_bookedBy := bookedBy (doc d);
             json_createdBy := createdBy (doc d) |}
  end.

(** [res.status(c).json(slot)]; [null] is sent as it is. *)
Definition send_slot (c : Z) (p : option (Doc * option Event)) : M Response :=
  match p with
  | None => ret {| code := c; payload := Json None |}
  | Some p =>
      match toJSON p with
      | inl e => throw e
      | inr j => ret {| code := c; payload := Json (Some j) |}
      end
  end.

Definition server_error (err : Exn) : Response :=
  {| code := 500; payload := Failure "Server error" err |}.

(** [res.status(404).json({ message: 'Slot not found' })] *)
Definition not_found : Response :=
  {| code := 404; payload := Message "Slot not found" |}.

(** The [catch] of the handlers that take an identifier from the path. *)
Definition catch_by_id (err : Exn) : Response :=
  match err with
  | CastError_ObjectId => not_found
  | _ => server_error err
  end.

(** *** The handlers *)

(** [router.post('/')] *)
Definition create (env : Env) (req : Request) : Store -> Response * Store :=
  match truthy (body req !! "eventId"), truthy (body req !! "date"),
        truthy (body req !! "startTime"), truthy (body req !! "endTime"),
        truthy (body req !! "purpose") with
  | Some eventId, Some date, Some startTime, Some endTime, Some purpose =>
      handle
        (event <- Event_findById eventId ;;
         match event with
         | None => ret {| code := 404; payload := Message "Event not found" |}
         | Some _ =>
             let date := normalizeDate date in
             let startTime := convertTo12Hour startTime in
             let endTime := convertTo12Hour endTime in
             let slot :=
               Slot_new env eventId date startTime endTime purpose (user_id req) in
             save slot ;;;
             populatedSlot <- Slot_findById_populate (doc_id slot) ;;
             send_slot 201 populatedSlot
         end)
        server_error
  | _, _, _, _, _ => respond 400 (Message "All fields are required")
  end.

Definition when_truthy {A} (v : option string) (f : string -> A -> A) (a : A) : A :=
  match truthy v with
  | Some s => f s a
  | None => a
  end.

(** [router.put('/:id')] *)
Definition update (req : Request) : Store -> Response * Store :=
  handle
    (slot <- Slot_findById (params_id req) ;;
     match slot with
     | None => ret not_found
     | Some slot =>
         let slot := when_truthy (body req !! "date")
                       (fun date => set_date (normalizeDate date)) slot in
         let slot := when_truthy (body req !! "startTime")
                       (fun startTime => set_startTime (convertTo12Hour startTime)) slot in
         let slot := when_truthy (body req !! "endTime")
                       (fun endTime => set_endTime (convertTo12Hour endTime)) slot in
         let slot := when_truthy (body req !! "purpose") set_purpose slot in
         save slot ;;;
         updatedSlot <- Slot_findById_populate (doc_id slot) ;;
         send_slot 200 updatedSlot
     end)
    catch_by_id.

(** [router.delete('/:id')] *)
Definition remove (req : Request) : Store -> Response * Store :=
  handle
    (slot <- Slot_findById (params_id req) ;;
     match slot with
     | None => ret not_found
     | Some slot =>
         deleteOne slot ;;;
         ret {| code := 200; payload := Message "Slot removed successfully" |}
     end)
    catch_by_id.

(** [router.post('/:id/book')] *)
Definition book (env : Env) (req : Request) : Store -> Response * Store :=
  match truthy (body req !! "name"), truthy (body req !! "email"),
        truthy (body req !! "enrollment") with
  | Some name, Some email, Some enrollment =>
      handle
        (slot <- Slot_findById (params_id req) ;;
         match slot with
         | None => ret not_found
         | Some slot =>
             match status (doc slot) with
             | booked => ret {| code := 400; payload := Message "Slot is not available" |}
             | available =>
                 let slot := set_status booked slot in
                 let slot :=
                   set_bookedBy
                     (Some {| name := name; email := email;
                              enrollment := enrollment; bookedAt := now env |})
                     slot in
                 save slot ;;;
                 updatedSlot <- Slot_findById_populate (doc_id slot) ;;
                 send_slot 200 updatedSlot
             end
         end)
        catch_by_id
  | _, _, _ => respond 400 (Message "All fields are required")
  end.

(** [router.put('/:id/cancel')] *)
Definition cancel (req : Request) : Store -> Response * Store :=
  handle
    (slot <- Slot_findById (params_id req) ;;
     match slot with
     | None => ret not_found
     | Some slot =>
         match status (doc slot) with
         | available => ret {| code := 400; payload := Message "Slot is not booked" |}
         | booked =>
             let slot := set_status available slot in
             let slot := set_bookedBy None slot in
             save slot ;;;
             updatedSlot <- Slot_findById_populate (doc_id slot) ;;
             send_slot 200 updatedSlot
         end
     end)
    catch_by_id.

(** *** What the writes make of a stored slot *)

(** The document after the four conditional assignments of the update
    handler. *)
Definition updated (req : Request) (s : Slot) : Slot :=
  {| eventId := eventId s;
     date := match truthy (body req !! "date") with
             | Some d => normalizeDate d
             | None => date s
             end;
     startTime := match truthy (body req !! "startTime") with
                  | Some a => convertTo12Hour a
                  | None => startTime s
                  end;
     endTime := match truthy (body req !! "endTime") with
                | Some b => convertTo12Hour b
                | None => endTime s
                end;
     purpose := match truthy (body req !! "purpose") with
                | Some p => Js.trim p
                | None => purpose s
                end;
     status := status s;
     bookedBy := bookedBy s;
     createdBy := createdBy s |}.

(** The document after the two assignments of the book and of the cancel
    handler. *)
Definition with_booking (s : Slot) (st : Status) (b : option BookedBy) : Slot :=
  {| eventId := eventId s; date := date s; startTime := startTime s;
     endTime := endTime s; purpose := purpose s; status := st; bookedBy := b;
     createdBy := createdBy s |}.

(** *** The states the handlers reach *)

Inductive Operation : Type :=
  | Create (env : Env) (req : Request)
  | Update (req : Request)
  | Remove (req : Request)
  | Book (env : Env) (req : Request)
  | Cancel (req : Request).

Definition perform (op : Operation) : Store -> Response * Store :=
  match op with
  | Create env req => create env req
  | Update req => update req
  | Remove req => remove req
  | Book env req => book env req
  | Cancel req => cancel req
  end.

(** The stores reached from a store without slots. *)
Inductive reachable : Store -> Prop :=
  | reachable_empty es :
      reachable {| slots := ∅; events := es; log := [] |}
  | reachable_perform op st :
      reachable st -> reachable (perform op st).2.

End Routes.

(** ** The conversion as the specification words it *)

Module Spec.

(** "classify AM/PM by [hour >= 12]" *)
Definition period (hour : Z) : string := if 12 <=? hour then "PM" else "AM".

(** "map hour-of-day to 12-hour range via [hour % 12], substituting 12
    for a computed 0" *)
Definition hour12 (hour : Z) : Z :=
  if hour mod 12 =? 0 then 12 else hour mod 12.

(** "Minutes are passed through unchanged." *)
Definition convertTo12Hour (hour : Z) (minutes : string) : string :=
  Js.show_nat (hour12 hour) +:+ ":" +:+ minutes +:+ " " +:+ period hour.

End Spec.

(** ** The properties of a slot that the specification names *)

(** Both times match the pattern of the schema. *)
Definition times_match (s : Slot) : Prop :=
  regex_test time_pattern (startTime s) = true /\
  regex_test time_pattern (endTime s) = true.

(** [bookedBy] is populated if and only if the status is [booked]. *)
Definition booking_consistent (s : Slot) : Prop :=
  is_Some (bookedBy s) <-> status s = booked.


(** ** The handlers that only read *)

(** The three GET handlers read the store and write nothing: each is
    given as the answer it sends for a store. *)
Section Reads.

Context `{Collaborators}.

(** What the two listing handlers send: an array of slots, or the body
    that their [catch] builds. *)
Inductive ListPayload : Type :=
  | Slots (items : list SlotJSON)
  | ListFailure (message : string) (error : Exn).

Record ListResponse : Type := {
  list_code : Z;
  list_payload : ListPayload
}.

(** [populate('eventId')] on a stored slot: the event of the slot, or
    [null] when there is none with that identifier. *)
Definition populate (es : gmap N Event) (p : N * Slot) : Doc * option Event :=
  ({| doc_id := p.1; isNew := false; doc := p.2 |}, eventId p.2 ≫= (es !!.)).

(** [res.json(slots)] serializes the documents in order, each by its
    [toJSON]; the first that throws ends it. *)
Fixpoint toJSON_all (ps : list (Doc * option Event)) : Exn + list SlotJSON :=
  match ps with
  | [] => inr []
  | p :: ps' =>
      match toJSON p with
      | inl e => inl e
      | inr j =>
          match toJSON_all ps' with
          | inl e => inl e
          | inr js => inr (j :: js)
          end
      end
  end.

Definition send_slots (ps : list (Doc * option Event)) : ListResponse :=
  match toJSON_all ps with
  | inr js => {| list_code := 200; list_payload := Slots js |}
  | inl e => {| list_code := 500; list_payload := ListFailure "Server error" e |}
  end.

(** [router.get('/')]: [Slot.find()] gives the documents in the order of
    the store. *)
Definition get_all (st : Store) : ListResponse :=
  send_slots (populate (events st) <$> map_to_list (slots st)).

(** [router.get('/event/:eventId')]: the filter casts the identifier of
    the path, and a string that is no ObjectId makes the query throw. *)
Definition get_by_event (event_id : string) (st : Store) : ListResponse :=
  match castObjectId event_id with
  | None =>
      {| list_code := 500; list_payload := ListFailure "Server error" CastError_ObjectId |}
  | Some e =>
      send_slots
        (populate (events st) <$>
         map_to_list (filter (fun p => eventId p.2 = Some e) (slots st)))
  end.

(** [router.get('/:id')] *)
Definition get_by_id (req : Request) (st : Store) : Response :=
  match castObjectId (params_id req) with
  | None => catch_by_id CastError_ObjectId
  | Some i =>
      match slots st !! i with
      | None => not_found
      | Some s =>
          match toJSON (populate (events st) (i, s)) with
          | inl e => catch_by_id e
          | inr j => {| code := 200; payload := Json (Some j) |}
          end
      end
  end.

(** The slot that an operation is aimed at: the one that a create makes,
    and the one that the path names otherwise. *)
Definition target (op : Operation) : option N :=
  match op with
  | Create env _ => Some (new_id env)
  | Update req | Remove req | Cancel req => castObjectId (params_id req)
  | Book _ req => castObjectId (params_id req)
  end.

(** What a write that succeeds has stored under [i], in terms of what
    was there and of the request. *)
Definition written (op : Operation) (st : Store) (i : N) (s' : Slot) : Prop :=
  match op with
  | Create env req =>
      slots st !! i = None /\
      exists e d a b p eid ev t,
        truthy (body req !! "eventId") = Some e /\
        truthy (body req !! "date") = Some d /\
        truthy (body req !! "startTime") = Some a /\
        truthy (body req !! "endTime") = Some b /\
        truthy (body req !! "purpose") = Some p /\
        castObjectId e = Some eid /\
        events st !! eid = Some ev /\
        normalizeDate d = Some t /\
        s' = {| eventId := Some eid; date := Some t;
                startTime := convertTo12Hour a; endTime := convertTo12Hour b;
                purpose := Js.trim p; status := available; bookedBy := None;
                createdBy := Some (user_id req) |}
  | Update req =>
      exists s, slots st !! i = Some s /\ s' = updated req s
  | Remove _ => False
  | Book env req =>
      exists s n e en,
        slots st !! i = Some s /\ status s = available /\
        truthy (body req !! "name") = Some n /\
        truthy (body req !! "email") = Some e /\
        truthy (body req !! "enrollment") = Some en /\
        s' = with_booking s booked
               (Some {| name := Js.trim n; email := Js.trim e;
                        enrollment := Js.trim en; bookedAt := now env |})
  | Cancel req =>
      exists s, slots st !! i = Some s /\ status s = booked /\
        s' = with_booking s available None
  end.

(** The statuses that an operation answers with. *)
Definition allowed_codes (op : Operation) : list Z :=
  match op with
  | Create _ _ => [201; 400; 404; 500]
  | Update _ => [200; 404; 500]
  | Remove _ => [200; 404]
  | Book _ _ | Cancel _ => [200; 400; 404; 500]
  end.

(** The status that a write answers with when it succeeds. *)
Definition success_code (op : Operation) : Z :=
  match op with
  | Create _ _ => 201
  | _ => 200
  end.

End Reads.

(** ** What [normalizeDate] computes *)

(** The time value that [normalize] builds from the year, the month and
    the date of a valid instant, before the range checks of [Date.UTC]
    and of [new Date]. *)
Definition normalized (t : Z) : Z :=
  JsDate.MakeDay (JsDate.MakeFullYear (JsDate.YearFromTime t))
    (JsDate.MonthFromTime t) (JsDate.DateFromTime t) * JsDate.msPerDay.

(** ** The strings that the pattern of the schema accepts *)

(** The longest string that a regular expression matches; [None] when it
    matches no string at all. *)
Fixpoint max_len (r : regex) : option nat :=
  match r with
  | Chr _ | Range _ _ => Some 1%nat
  | Seq r1 r2 =>
      match max_len r1, max_len r2 with
      | Some a, Some b => Some (a + b)%nat
      | _, _ => None
      end
  | Alt r1 r2 =>
      match max_len r1, max_len r2 with
      | Some a, Some b => Some (a `max` b)%nat
      | Some a, None => Some a
      | None, b => b
      end
  | Opt r1 => Some (default 0%nat (max_len r1))
  | Eps => Some 0%nat
  | Void => None
  end.

(** The strings that a regular expression matches, listed. *)
Fixpoint language (r : regex) : list string :=
  match r with
  | Chr c => [String c ""]
  | Range lo hi =>
      (fun n => String (Ascii.ascii_of_nat n) "") <$>
      seq (Ascii.nat_of_ascii lo) (S (Ascii.nat_of_ascii hi) - Ascii.nat_of_ascii lo)
  | Seq r1 r2 => x ← language r1; (fun y => x +:+ y) <$> language r2
  | Alt r1 r2 => language r1 ++ language r2
  | Opt r1 => "" :: language r1
  | Eps => [""]
  | Void => []
  end.

(** The derivative by a string. *)
Fixpoint string_deriv (s : string) (r : regex) : regex :=
  match s with
  | EmptyString => r
  | String c s' => string_deriv s' (deriv c r)
  end.

(** Minutes as the pattern wants them: two digits, from 00 to 59. *)
Definition two_digit_minutes (m : string) : bool :=
  match m with
  | String a (String b EmptyString) =>
      ((Js.code "0" <=? Js.code a) && (Js.code a <=? Js.code "5"))%N &&
      ((Js.code "0" <=? Js.code b) && (Js.code b <=? Js.code "9"))%N
  | _ => false
  end.

(** The hours that [convertTo12Hour] turns into a number from 1 to 12:
    all but the negative ones that are no multiple of 12. What is not a
    number counts as 12. *)
Definition hour_accepted (x : Js.jsnum) : bool :=
  match x with
  | Js.Fin z => 0 <=? Z.rem z 12
  | _ => true
  end.

(** A string without white space at either end. *)
Definition trimmed (s : string) : Prop := Js.trim s = s.

(** The first character, if there is one, is no white space. *)
Definition starts_black (s : string) : Prop :=
  match s with
  | String c _ => Js.is_white c = false
  | EmptyString => True
  end.

(** What holds of every slot that the handlers store, besides the shape
    of its times and the agreement of [status] and [bookedBy]: its event
    exists, its date is a UTC midnight, it has a creator, its purpose is
    not empty, and what the schema trims is trimmed. *)
Definition well_formed `{Collaborators} (es : gmap N Event) (s : Slot) : Prop :=
  (exists e, eventId s = Some e /\ is_Some (es !! e)) /\
  (exists t, date s = Some t /\ JsDate.TimeWithinDay t = 0) /\
  is_Some (createdBy s) /\
  purpose s <> "" /\ trimmed (purpose s) /\
  (forall b, bookedBy s = Some b ->
     trimmed (name b) /\ trimmed (enrollment b) /\ trimmed (email b)).

(** ** A concrete setting for the examples *)

Module Sample.

Fixpoint all_digits (s : string) : bool :=
  match s with
  | EmptyString => true
  | String c s' => Js.is_digit c && all_digits s'
  end.

(** Identifiers written in decimal stand for ObjectIds. *)
Definition decimal_id (s : string) : option N :=
  if Js.starts_with_digit s && all_digits s
  then Some (Z.to_N (Js.digits_value s 0))
  else None.

(** The date-only form [YYYY-MM-DD], which is read as UTC midnight. The
    month and the day are not held against the calendar, as [new Date]
    does; the examples use dates that exist. *)
Definition parse_date_only (s : string) : option Z :=
  let y := String.substring 0 4 s in
  let m := String.substring 5 2 s in
  let d := String.substring 8 2 s in
  if (String.length s =? 10)%nat && all_digits y && all_digits m && all_digits d
     && String.eqb (String.substring 4 1 s) "-"
     && String.eqb (String.substring 7 1 s) "-"
  then Some (JsDate.MakeDate
               (JsDate.MakeDay (Js.digits_value y 0) (Js.digits_value m 0 - 1)
                  (Js.digits_value d 0)) 0)
  else None.

(** Events are their titles. *)
#[export] Instance collaborators : Collaborators :=
  {| Event := string; castObjectId := decimal_id; Date_parse := parse_date_only |}.

Definition store0 : Store :=
  {| slots := ∅; events := {[ 1%N := "Orientation" ]}; log := [] |}.

Definition env1 : Env := {| now := 1709300000000; new_id := 7 |}.

Definition create_req : Request :=
  {| params_id := "";
     body := list_to_map
       [("eventId", "1"); ("date", "2024-03-01"); ("startTime", "14:30");
        ("endTime", "15:00"); ("purpose", "Advising")];
     user_id := 42 |}.

Definition book_req : Request :=
  {| params_id := "7";
     body := list_to_map
       [("name", " Ann "); ("email", "ann@example.org"); ("enrollment", "E-17")];
     user_id := 0 |}.

Definition cancel_req : Request :=
  {| params_id := "7"; body := ∅; user_id := 42 |}.

Definition create_req_no_purpose : Request :=
  {| params_id := "";
     body := list_to_map
       [("eventId", "1"); ("date", "2024-03-01"); ("startTime", "14:30");
        ("endTime", "15:00")];
     user_id := 42 |}.


Definition update_req_minutes : Request :=
  {| params_id := "7"; body := {[ "startTime" := "9:75" ]}; user_id := 42 |}.

Definition update_req_12h : Request :=
  {| params_id := "7"; body := {[ "startTime" := "2:30 PM" ]}; user_id := 42 |}.

Definition update_req_empty : Request :=
  {| params_id := "7";
     body := list_to_map [("startTime", ""); ("purpose", "Office hours")];
     user_id := 42 |}.

(** The store after the create of the specification's example, and after
    a booking of the slot it made. *)
Definition store1 : Store := (create env1 create_req store0).2.
Definition store2 : Store := (book env1 book_req store1).2.

(** The slot that the create stores, and what the booking makes of it. *)
Definition slot7 : Slot :=
  {| eventId := Some 1%N; date := Some 1709251200000;
     startTime := "2:30 PM"; endTime := "3:00 PM"; purpose := "Advising";
     status := available; bookedBy := None; createdBy := Some 42%N |}.

Definition slot7_booked : Slot :=
  with_booking slot7 booked
    (Some {| name := "Ann"; enrollment := "E-17"; email := "ann@example.org";
             bookedAt := 1709300000000 |}).

End Sample.

(** ** More requests and stores for the examples *)

Module Cases.
Import Sample.

(** A request that carries nothing but the identifier of slot 7. *)
Definition slot7_req : Request := {| params_id := "7"; body := ∅; user_id := 42 |}.

Definition create_req_no_event : Request :=
  {| params_id := "";
     body := list_to_map
       [("eventId", "2"); ("date", "2024-03-01"); ("startTime", "14:30");
        ("endTime", "15:00"); ("purpose", "Advising")];
     user_id := 42 |}.

Definition create_req_minutes : Request :=
  {| params_id := "";
     body := list_to_map
       [("eventId", "1"); ("date", "2024-03-01"); ("startTime", "9:75");
        ("endTime", "15:00"); ("purpose", "Advising")];
     user_id := 42 |}.

Definition env2 : Env := {| now := 1709300060000; new_id := 8 |}.

(** The store with the slots 7 and 8. *)
Definition store_two : Store := (create env2 create_req store1).2.

(** The document of slot 7 with its event. *)
Definition doc7 : Doc * option Event :=
  ({| doc_id := 7; isNew := false; doc := slot7 |}, Some "Orientation").

End Cases.

(** * Properties *)

(** ** Strings *)

Lemma append_assoc (a b c : string) : (a +:+ b) +:+ c = a +:+ (b +:+ c).
Proof.
  induction a as [|x a IH]; [done|].
  change (String x ((a +:+ b) +:+ c) = String x (a +:+ (b +:+ c))). by rewrite IH.
Qed.

Lemma contains_append c (a b : string) :
  Js.contains c (a +:+ b) = Js.contains c a || Js.contains c b.
Proof.
  induction a as [|x a IH]; [done|].
  change (Ascii.eqb x c || Js.contains c (a +:+ b)
          = Ascii.eqb x c || Js.contains c a || Js.contains c b).
  rewrite IH. by rewrite orb_assoc.
Qed.

Lemma split_aux_no_sep sep s :
  Js.contains sep s = false -> Js.split_aux sep s = (s, []).
Proof.
  induction s as [|c s IH]; simpl; [done|].
  intros [Hc Hs]%orb_false_iff. rewrite (IH Hs). by rewrite Hc.
Qed.

Lemma split_aux_app sep a b :
  Js.contains sep a = false ->
  Js.split_aux sep (a +:+ String sep b) = (a, Js.split sep b).
Proof.
  induction a as [|c a IH].
  - intros _. change (Js.split_aux sep (String sep b) = ("", Js.split sep b)).
    simpl. rewrite Ascii.eqb_refl. unfold Js.split.
    by destruct (Js.split_aux sep b).
  - simpl. intros [Hc Hs]%orb_false_iff.
    change (String c a +:+ String sep b) with (String c (a +:+ String sep b)).
    simpl. rewrite (IH Hs). by rewrite Hc.
Qed.

(** A separator-free prefix is the first segment. *)
Lemma split_first sep a b :
  Js.contains sep a = false ->
  Js.split sep (a +:+ String sep b) !! 0%nat = Some a.
Proof. intros Ha. unfold Js.split. by rewrite split_aux_app. Qed.

Lemma split_two sep a b :
  Js.contains sep a = false -> Js.contains sep b = false ->
  Js.split sep (a +:+ String sep b) = [a; b].
Proof.
  intros Ha Hb. unfold Js.split at 1. rewrite split_aux_app by done.
  unfold Js.split. by rewrite split_aux_no_sep.
Qed.

Lemma digit_char_is_digit d : 0 <= d < 10 -> Js.is_digit (Js.digit_char d) = true.
Proof.
  intros Hd. assert (Hin : d ∈ seqZ 0 10) by (apply elem_of_seqZ; lia).
  cbv in Hin.
  repeat (apply elem_of_cons in Hin as [-> | Hin]; [done|]).
  by apply elem_of_nil in Hin.
Qed.

Lemma digit_char_not c n :
  Js.is_digit c = false -> Ascii.eqb (Js.digit_char (n mod 10)) c = false.
Proof.
  intros Hc. apply Ascii.eqb_neq. intros <-.
  rewrite digit_char_is_digit in Hc; [done|]. apply Z.mod_pos_bound. lia.
Qed.

(** The decimal digits of a number hold nothing but digits. *)
Lemma show_digits_contains c fuel n acc :
  Js.is_digit c = false -> Js.contains c acc = false ->
  Js.contains c (Js.show_digits fuel n acc) = false.
Proof.
  intros Hc. revert n acc. induction fuel as [|fuel IH]; intros n acc Hacc; [done|].
  simpl. assert (Js.contains c (String (Js.digit_char (n mod 10)) acc) = false)
    by (simpl; by rewrite digit_char_not, Hacc).
  case_match; auto.
Qed.

Lemma length_append (a b : string) :
  String.length (a +:+ b) = (String.length a + String.length b)%nat.
Proof.
  induction a as [|x a IH]; [done|].
  change (S (String.length (a +:+ b)) = S (String.length a + String.length b)).
  by rewrite IH.
Qed.

(** The first segment of a split holds no separator. *)
Lemma split_aux_first sep s : Js.contains sep (Js.split_aux sep s).1 = false.
Proof.
  induction s as [|c s IH]; [done|]. simpl.
  destruct (Js.split_aux sep s) as [seg rest]. simpl in IH.
  destruct (Ascii.eqb c sep) eqn:Hc; simpl; [done|]. by rewrite Hc.
Qed.

Lemma show_int_contains c z :
  Js.is_digit c = false -> c <> "-"%char -> Js.contains c (Js.show_int z) = false.
Proof.
  intros Hc Hm. unfold Js.show_int, Js.show_nat.
  case_match; cbn [Js.contains]; rewrite show_digits_contains by done; [|done].
  rewrite orb_false_r. by apply Ascii.eqb_neq.
Qed.

(** ** [convertTo12Hour] *)

(** On [hours:minutes] the function reads the hour from [hours] and
    copies [minutes]. *)
Lemma convertTo12Hour_parts hours minutes :
  Js.contains Js.colon hours = false ->
  Js.contains Js.colon minutes = false ->
  convertTo12Hour (hours +:+ ":" +:+ minutes) =
  Js.Number_toString (Js.or12 (Js.rem12 (Js.parseInt hours))) +:+ ":" +:+
  minutes +:+ " " +:+ (if Js.ge12 (Js.parseInt hours) then "PM" else "AM").
Proof.
  intros Hh Hm. unfold convertTo12Hour.
  change (hours +:+ ":" +:+ minutes) with (hours +:+ String Js.colon minutes).
  by rewrite split_two.
Qed.

(** C1. For an hour [h] from 0 to 23, written in decimal with or without
    a leading zero, and minutes [minutes] that hold no colon,
    [convertTo12Hour] of [h:minutes] is what the specification describes:
    the hour [h % 12], or 12 when that is 0, a colon, the minutes
    unchanged, a space, and PM when [h >= 12], AM otherwise. In
    particular "14:30" gives "2:30 PM" and "15:00" gives "3:00 PM". *)
Theorem convertTo12Hour_spec (h : Z) (minutes : string) :
  0 <= h < 24 ->
  Js.contains Js.colon minutes = false ->
  convertTo12Hour (Js.show_nat h +:+ ":" +:+ minutes) = Spec.convertTo12Hour h minutes
  /\ convertTo12Hour (JsDate.pad 2 h +:+ ":" +:+ minutes) = Spec.convertTo12Hour h minutes
  /\ convertTo12Hour "14:30" = "2:30 PM"
  /\ convertTo12Hour "15:00" = "3:00 PM".
Proof.
  intros Hh Hm.
  assert (Hin : h ∈ seqZ 0 24) by (apply elem_of_seqZ; lia).
  cbv in Hin.
  repeat split; [| |done..];
    repeat (apply elem_of_cons in Hin as [-> | Hin]);
    try (by apply elem_of_nil in Hin);
    (rewrite convertTo12Hour_parts by done); reflexivity.
Qed.

Lemma hour12_contains x :
  Js.contains Js.colon (Js.Number_toString (Js.or12 (Js.rem12 x))) = false.
Proof.
  assert (exists z, Js.or12 (Js.rem12 x) = Js.Fin z) as [z ->].
  { destruct x as [| |z]; simpl; eauto. destruct (Z.rem z 12); eauto. }
  by apply show_int_contains.
Qed.

(** No string is its own conversion: the text after the first colon gets
    longer. So the conversion is idempotent on no input at all. *)
Lemma convertTo12Hour_no_fixed_point t : convertTo12Hour t <> t.
Proof.
  intros Heq. pose proof (f_equal (Js.split_aux Js.colon) Heq) as Hsplit.
  unfold convertTo12Hour, Js.split in Hsplit.
  destruct (Js.split_aux Js.colon t) as [hours rest] eqn:Ht.
  cbn [lookup list_lookup default from_option] in Hsplit.
  set (P := if Js.ge12 (Js.parseInt hours) then "PM" else "AM") in Hsplit.
  assert (HP : Js.contains Js.colon (" " +:+ P) = false /\ String.length P = 2%nat)
    by (unfold P; destruct (Js.ge12 _); split; reflexivity).
  change (?n +:+ ":" +:+ ?x) with (n +:+ String Js.colon x) in Hsplit.
  rewrite split_aux_app in Hsplit by apply hour12_contains.
  injection Hsplit as _ Hrest. unfold Js.split in Hrest.
  pose proof (split_aux_first Js.colon (Js.opt_toString (rest !! 0%nat) +:+ " " +:+ P))
    as Hfirst.
  destruct (Js.split_aux Js.colon _) as [seg more] eqn:HX in Hrest, Hfirst.
  subst rest. simpl in *.
  rewrite split_aux_no_sep in HX
    by (rewrite contains_append, Hfirst; apply HP).
  injection HX as Hseg _. apply (f_equal String.length) in Hseg.
  rewrite !length_append in Hseg.
  destruct (Js.ge12 _); simpl in Hseg; lia.
Qed.

(** C2. The conversion is not idempotent. No string at all is left as it
    is; and a time that already is in 12-hour format is garbled: "2:30
    PM" matches the pattern of the schema and is turned into "2:30 PM
    AM", which does not, so that converting the result of "14:30" once
    more changes it. *)
Theorem convertTo12Hour_garbles_12_hour_input :
  (forall t, convertTo12Hour t <> t)
  /\ regex_test time_pattern "2:30 PM" = true
  /\ convertTo12Hour "2:30 PM" = "2:30 PM AM"
  /\ regex_test time_pattern (convertTo12Hour "2:30 PM") = false
  /\ convertTo12Hour "14:30" = "2:30 PM"
  /\ convertTo12Hour (convertTo12Hour "14:30") <> convertTo12Hour "14:30".
Proof. split; [exact convertTo12Hour_no_fixed_point|by vm_compute]. Qed.

Lemma times_24h_match_all :
  forallb (fun h => forallb (fun m =>
      regex_test time_pattern (convertTo12Hour (JsDate.pad 2 h +:+ ":" +:+ JsDate.pad 2 m))
      && regex_test time_pattern (convertTo12Hour (Js.show_nat h +:+ ":" +:+ JsDate.pad 2 m)))
    (seqZ 0 60)) (seqZ 0 24) = true.
Proof. vm_compute. reflexivity. Qed.

(** Every time of day in 24-hour format is turned into a string that
    matches the pattern of the schema. *)
Lemma convertTo12Hour_24h_matches h m :
  0 <= h < 24 -> 0 <= m < 60 ->
  regex_test time_pattern (convertTo12Hour (JsDate.pad 2 h +:+ ":" +:+ JsDate.pad 2 m)) = true /\
  regex_test time_pattern (convertTo12Hour (Js.show_nat h +:+ ":" +:+ JsDate.pad 2 m)) = true.
Proof.
  intros Hh Hm. pose proof times_24h_match_all as Hall.
  rewrite forallb_forall in Hall.
  specialize (Hall h). rewrite <- list_elem_of_In, elem_of_seqZ in Hall.
  specialize (Hall ltac:(lia)). rewrite forallb_forall in Hall.
  specialize (Hall m). rewrite <- list_elem_of_In, elem_of_seqZ in Hall.
  specialize (Hall ltac:(lia)). by apply andb_true_iff in Hall.
Qed.

(** ** Dates *)

Module DateFacts.
Import JsDate.

(** [YearFromDay] is the year of the ECMAScript definition: the days of
    that year contain the day, and no other year does. *)
Lemma YearFromDay_spec d :
  DayFromYear (YearFromDay d) <= d < DayFromYear (YearFromDay d + 1).
Proof.
  unfold YearFromDay, DayFromYear.
  repeat case_match; rewrite ?Z.leb_le, ?Z.leb_gt in *;
  Z.div_mod_to_equations; lia.
Qed.

Lemma DayFromYear_mono y1 y2 : y1 <= y2 -> DayFromYear y1 <= DayFromYear y2.
Proof. unfold DayFromYear. intros. Z.div_mod_to_equations. lia. Qed.

Lemma YearFromDay_unique d y :
  DayFromYear y <= d < DayFromYear (y + 1) -> YearFromDay d = y.
Proof.
  intros Hy. pose proof (YearFromDay_spec d) as Hs.
  destruct (Z.lt_trichotomy (YearFromDay d) y) as [Hlt|[Heq|Hgt]]; [|done|].
  - pose proof (DayFromYear_mono (YearFromDay d + 1) y ltac:(lia)). lia.
  - pose proof (DayFromYear_mono (y + 1) (YearFromDay d) ltac:(lia)). lia.
Qed.

Lemma DaysInYear_spec y : DayFromYear (y + 1) - DayFromYear y = DaysInYear y.
Proof.
  unfold DayFromYear, DaysInYear.
  repeat case_match; rewrite ?negb_true_iff, ?negb_false_iff, ?Z.eqb_eq, ?Z.eqb_neq in *;
  Z.div_mod_to_equations; lia.
Qed.

Lemma Day_midnight d : Day (d * msPerDay) = d.
Proof. unfold Day, msPerDay. by rewrite Z.div_mul. Qed.

Lemma MonthFromTime_range t : 0 <= MonthFromTime t <= 11.
Proof. unfold MonthFromTime. repeat case_match; lia. Qed.

(** The year, month and date of an instant make its day number again. *)
Lemma MakeDay_of_fields t :
  MakeDay (YearFromTime t) (MonthFromTime t) (DateFromTime t) = Day t.
Proof.
  pose proof (MonthFromTime_range t) as Hm.
  unfold MakeDay, DateFromTime, DayWithinYear.
  rewrite (Z.div_small (MonthFromTime t) 12), (Z.mod_small (MonthFromTime t) 12) by lia.
  rewrite Z.add_0_r. fold (InLeapYear t). lia.
Qed.

Lemma TimeClip_Some x t : TimeClip x = Some t -> x = t.
Proof. unfold TimeClip. by case_match; intros [=]. Qed.

(** Outside the years 0 to 99, [normalize] gives the midnight that
    starts the day of the instant. *)
Lemma normalize_midnight t :
  TimeClip t = Some t ->
  ~ (0 <= YearFromTime t <= 99) ->
  normalize (Some t) = Some (Day t * msPerDay).
Proof.
  intros Hclip Hy. unfold normalize, getUTCFullYear, getUTCMonth, getUTCDate.
  cbn [fmap option_fmap option_map UTC].
  unfold MakeFullYear.
  replace ((0 <=? YearFromTime t) && (YearFromTime t <=? 99)) with false
    by (symmetry; apply andb_false_iff; rewrite Z.leb_gt, Z.leb_gt; lia).
  rewrite MakeDay_of_fields. unfold MakeDate, MakeTime. rewrite !Z.mul_0_l, !Z.add_0_r.
  assert (Hc : TimeClip (Day t * msPerDay) = Some (Day t * msPerDay)).
  { unfold TimeClip, Day, msPerDay in *. case_match; [done|].
    case_match; [|done]. rewrite Z.ltb_lt, Z.ltb_ge in *.
    Z.div_mod_to_equations. lia. }
  rewrite Hc. cbn. exact Hc.
Qed.



Lemma pad_contains c w n : Js.is_digit c = false -> Js.contains c (pad w n) = false.
Proof.
  intros Hc. unfold pad. rewrite contains_append.
  apply orb_false_iff. split.
  - induction (w - String.length (Js.show_nat n))%nat as [|k IH]; [done|].
    cbn [replicate String.string_of_list_ascii Js.contains].
    rewrite IH, orb_false_r. apply Ascii.eqb_neq. by intros <-.
  - by apply show_digits_contains.
Qed.

Lemma iso_year_contains c y :
  Js.is_digit c = false -> c <> "-"%char -> c <> "+"%char ->
  Js.contains c (iso_year y) = false.
Proof.
  intros Hc Hm Hp. unfold iso_year.
  repeat case_match; cbn [Js.contains];
    rewrite ?pad_contains by done; rewrite ?orb_false_r; try done;
    by apply Ascii.eqb_neq.
Qed.

(** What [toJSON] keeps of the ISO string is [iso_date]. *)
Lemma iso_string_date t :
  Js.split "T" (iso_string t) !! 0%nat = Some (iso_date t).
Proof.
  assert (Hsplit : exists rest, iso_string t = iso_date t +:+ String "T" rest).
  { eexists. unfold iso_string, iso_date. rewrite !append_assoc. reflexivity. }
  destruct Hsplit as [rest ->]. apply split_first.
  unfold iso_date. rewrite !contains_append.
  rewrite iso_year_contains, !pad_contains by done. reflexivity.
Qed.

(** The padded numbers of a date have the width asked for, and read back
    as the number. *)
Lemma pad_width_all :
  forallb (fun n => (String.length (pad 4 n) =? 4)%nat
                    && (Js.digits_value (pad 4 n) 0 =? n)) (seqZ 0 10000) &&
  forallb (fun n => (String.length (pad 2 n) =? 2)%nat
                    && (Js.digits_value (pad 2 n) 0 =? n)) (seqZ 0 100) = true.
Proof. vm_compute. reflexivity. Qed.

End DateFacts.

(** ** The schema *)

Lemma validate_times s : validate s = true -> times_match s.
Proof.
  unfold validate, required_string, match_validator, times_match.
  intros Hv. repeat (apply andb_true_iff in Hv as [Hv ?]).
  destruct (String.eqb (startTime s) ""), (String.eqb (endTime s) ""); naive_solver.
Qed.

Lemma validate_date s : validate s = true -> is_Some (date s).
Proof.
  unfold validate. intros Hv. repeat (apply andb_true_iff in Hv as [Hv ?]).
  by eapply bool_decide_eq_true_1.
Qed.

Lemma validate_with_booking s st b : validate (with_booking s st b) = validate s.
Proof. done. Qed.

Lemma insert_entry (m : gmap N Slot) k x i s :
  <[k := x]> m !! i = Some s -> validate x = true ->
  m !! i = Some s \/ validate s = true.
Proof.
  intros Hl Hv. destruct (decide (k = i)) as [->|Hne].
  - rewrite lookup_insert_eq in Hl. simplify_eq. by right.
  - rewrite lookup_insert_ne in Hl by done. by left.
Qed.

Lemma truthy_delete_empty (b : gmap string string) f g :
  b !! f = Some "" -> truthy (delete f b !! g) = truthy (b !! g).
Proof.
  intros Hf. destruct (decide (f = g)) as [<-|Hne].
  - by rewrite lookup_delete_eq, Hf.
  - by rewrite lookup_delete_ne.
Qed.

(** ** The handlers *)

Section Handlers.
Context `{Collaborators}.

Ltac run :=
  unfold perform, create, update, remove, book, cancel, handle, respond,
    send_slot, when_truthy, Event_findById, Slot_findById, Slot_findById_populate,
    save, deleteOne, bind, ret, throw, record, get_slots, get_events, put_slots in *;
  simpl in *.

(** What a create does: nothing to the slots unless it answers 201. *)
Lemma create_cases env req (st : Store) :
  events (create env req st).2 = events st /\
  ((code (create env req st).1 <> 201 /\ code (create env req st).1 <> 200 /\
    slots (create env req st).2 = slots st)
   \/
   (exists eventId d a b p eid ev t,
      truthy (body req !! "eventId") = Some eventId /\
      truthy (body req !! "date") = Some d /\
      truthy (body req !! "startTime") = Some a /\
      truthy (body req !! "endTime") = Some b /\
      truthy (body req !! "purpose") = Some p /\
      castObjectId eventId = Some eid /\
      events st !! eid = Some ev /\
      normalizeDate d = Some t /\
      slots st !! new_id env = None /\
      let s := {| eventId := Some eid; date := Some t;
                  startTime := convertTo12Hour a; endTime := convertTo12Hour b;
                  purpose := Js.trim p; status := available; bookedBy := None;
                  createdBy := Some (user_id req) |} in
      validate s = true /\
      slots (create env req st).2 = <[new_id env := s]> (slots st) /\
      exists j,
        toJSON ({| doc_id := new_id env; isNew := false; doc := s |}, Some ev) = inr j /\
        (create env req st).1 = {| code := 201; payload := Json (Some j) |})).
Proof.
  unfold create.
  destruct (truthy (body req !! "eventId")) as [e|]; [|by split; [|left]].
  destruct (truthy (body req !! "date")) as [d|]; [|by split; [|left]].
  destruct (truthy (body req !! "startTime")) as [a|]; [|by split; [|left]].
  destruct (truthy (body req !! "endTime")) as [b|]; [|by split; [|left]].
  destruct (truthy (body req !! "purpose")) as [p|]; [|by split; [|left]].
  run.
  destruct (castObjectId e) as [eid|] eqn:Hcast; simpl; [|by split; [|left]].
  destruct (events st !! eid) as [ev|] eqn:Hev; simpl; [|by split; [|left]].
  match goal with |- context [validate ?x] => destruct (validate x) eqn:Hv end;
    simpl; [|by split; [|left]].
  destruct (slots st !! new_id env) as [old|] eqn:Hold; simpl; [by split; [|left]|].
  rewrite lookup_insert_eq; simpl.
  pose proof (validate_date _ Hv) as [t Ht]; simpl in Ht. rewrite Ht in *; simpl.
  split; [done|]. right. rewrite Hev.
  exists e, d, a, b, p, eid, ev, t. repeat split; eauto.
Qed.

Lemma update_cases req (st : Store) :
  events (update req st).2 = events st /\
  match castObjectId (params_id req) with
  | None => (update req st).1 = not_found /\ slots (update req st).2 = slots st
  | Some i =>
      match slots st !! i with
      | None => (update req st).1 = not_found /\ slots (update req st).2 = slots st
      | Some s =>
          if validate (updated req s) then
            slots (update req st).2 = <[i := updated req s]> (slots st) /\
            exists j,
              toJSON ({| doc_id := i; isNew := false; doc := updated req s |},
                      eventId s ≫= (events st !!.)) = inr j /\
              (update req st).1 = {| code := 200; payload := Json (Some j) |}
          else
            (update req st).1 = server_error ValidationError /\
            slots (update req st).2 = slots st
      end
  end.
Proof.
  unfold updated, not_found. run.
  destruct (castObjectId (params_id req)) as [i|]; simpl; [|done].
  destruct (slots st !! i) as [[eid dt a b p stat bk cb]|] eqn:Hs; simpl; [|done].
  destruct (truthy (body req !! "date")), (truthy (body req !! "startTime")),
    (truthy (body req !! "endTime")), (truthy (body req !! "purpose")); simpl.
  all: match goal with |- context [validate ?x] => destruct (validate x) eqn:Hv end; simpl.
  all: rewrite ?lookup_insert_eq; simpl.
  all: try (apply validate_date in Hv as [t Ht]; simpl in Ht; rewrite ?Ht; simpl; by eauto).
  all: done.
Qed.

Lemma book_cases env req (st : Store) :
  events (book env req st).2 = events st /\
  match truthy (body req !! "name"), truthy (body req !! "email"),
        truthy (body req !! "enrollment") with
  | Some n, Some e, Some en =>
      match castObjectId (params_id req) with
      | None => (book env req st).1 = not_found /\ slots (book env req st).2 = slots st
      | Some i =>
          match slots st !! i with
          | None => (book env req st).1 = not_found /\ slots (book env req st).2 = slots st
          | Some s =>
              match status s with
              | booked =>
                  (book env req st).1
                  = {| code := 400; payload := Message "Slot is not available" |} /\
                  slots (book env req st).2 = slots st
              | available =>
                  let s' := with_booking s booked
                              (Some {| name := Js.trim n; email := Js.trim e;
                                       enrollment := Js.trim en; bookedAt := now env |}) in
                  if validate s then
                    slots (book env req st).2 = <[i := s']> (slots st) /\
                    exists j,
                      toJSON ({| doc_id := i; isNew := false; doc := s' |},
                              eventId s ≫= (events st !!.)) = inr j /\
                      (book env req st).1 = {| code := 200; payload := Json (Some j) |}
                  else
                    (book env req st).1 = server_error ValidationError /\
                    slots (book env req st).2 = slots st
              end
          end
      end
  | _, _, _ =>
      book env req st =
        ({| code := 400; payload := Message "All fields are required" |}, st)
  end.
Proof.
  unfold book, not_found, with_booking.
  destruct (truthy (body req !! "name")) as [n|]; [|done].
  destruct (truthy (body req !! "email")) as [e|]; [|done].
  destruct (truthy (body req !! "enrollment")) as [en|]; [|done].
  run.
  destruct (castObjectId (params_id req)) as [i|]; simpl; [|done].
  destruct (slots st !! i) as [[eid dt a b p stat bk cb]|] eqn:Hs; simpl; [|done].
  destruct stat; simpl; [|done].
  unfold validate; simpl.
  lazymatch goal with |- _ /\ (if ?b then _ else _) => destruct b eqn:Hv end;
    simpl; [|done].
  rewrite lookup_insert_eq; simpl.
  assert (is_Some dt) as [t ->]; [|simpl; by eauto].
  repeat (apply andb_true_iff in Hv as [Hv ?]). by eapply bool_decide_eq_true_1.
Qed.

Lemma cancel_cases req (st : Store) :
  events (cancel req st).2 = events st /\
  match castObjectId (params_id req) with
  | None => (cancel req st).1 = not_found /\ slots (cancel req st).2 = slots st
  | Some i =>
      match slots st !! i with
      | None => (cancel req st).1 = not_found /\ slots (cancel req st).2 = slots st
      | Some s =>
          match status s with
          | available =>
              (cancel req st).1
              = {| code := 400; payload := Message "Slot is not booked" |} /\
              slots (cancel req st).2 = slots st
          | booked =>
              let s' := with_booking s available None in
              if validate s then
                slots (cancel req st).2 = <[i := s']> (slots st) /\
                exists j,
                  toJSON ({| doc_id := i; isNew := false; doc := s' |},
                          eventId s ≫= (events st !!.)) = inr j /\
                  (cancel req st).1 = {| code := 200; payload := Json (Some j) |}
              else
                (cancel req st).1 = server_error ValidationError /\
                slots (cancel req st).2 = slots st
          end
      end
  end.
Proof.
  unfold cancel, not_found, with_booking. run.
  destruct (castObjectId (params_id req)) as [i|]; simpl; [|done].
  destruct (slots st !! i) as [[eid dt a b p stat bk cb]|] eqn:Hs; simpl; [|done].
  destruct stat; simpl; [done|].
  unfold validate; simpl.
  lazymatch goal with |- _ /\ (if ?b then _ else _) => destruct b eqn:Hv end;
    simpl; [|done].
  rewrite lookup_insert_eq; simpl.
  assert (is_Some dt) as [t ->]; [|simpl; by eauto].
  repeat (apply andb_true_iff in Hv as [Hv ?]). by eapply bool_decide_eq_true_1.
Qed.

Lemma remove_cases req (st : Store) :
  events (remove req st).2 = events st /\
  (slots (remove req st).2 = slots st \/
   exists i, slots (remove req st).2 = delete i (slots st)).
Proof.
  unfold remove. run.
  destruct (castObjectId (params_id req)) as [i|]; simpl; [|by auto].
  destruct (slots st !! i) as [s|] eqn:Hs; simpl; eauto.
Qed.

(** No handler touches the events. *)
Lemma perform_events op (st : Store) : events (perform op st).2 = events st.
Proof.
  destruct op; simpl.
  - apply create_cases.
  - apply update_cases.
  - apply remove_cases.
  - apply book_cases.
  - apply cancel_cases.
Qed.

(** A slot found in the store after an operation was there before, or
    has passed the validation of [save]. *)
Lemma perform_entry op (st : Store) i s :
  slots (perform op st).2 !! i = Some s ->
  slots st !! i = Some s \/ validate s = true.
Proof.
  destruct op as [env req|req|req|env req|req]; simpl; intros Hl.
  - destruct (create_cases env req st) as [_ [(_ & _ & Hsl)|Hok]];
      [rewrite Hsl in Hl; by left|].
    destruct Hok as (e & d & a & b & p & eid & ev & t & _ & _ & _ & _ & _ & _ & _ & _ & _ & Hok).
    simpl in Hok. destruct Hok as (Hv & Hsl & _). rewrite Hsl in Hl.
    by eapply insert_entry.
  - destruct (update_cases req st) as [_ Hcases].
    destruct (castObjectId (params_id req)) as [k|];
      [|destruct Hcases as [_ Hsl]; rewrite Hsl in Hl; by left].
    destruct (slots st !! k) as [s0|];
      [|destruct Hcases as [_ Hsl]; rewrite Hsl in Hl; by left].
    destruct (validate (updated req s0)) eqn:Hv;
      [|destruct Hcases as [_ Hsl]; rewrite Hsl in Hl; by left].
    destruct Hcases as [Hsl _]. rewrite Hsl in Hl. by eapply insert_entry.
  - destruct (remove_cases req st) as [_ [Hsl|[k Hsl]]]; rewrite Hsl in Hl; [by left|].
    apply lookup_delete_Some in Hl as [_ Hl]. by left.
  - destruct (book_cases env req st) as [_ Hcases].
    destruct (truthy (body req !! "name")) as [n|];
      [|rewrite Hcases in Hl; by left].
    destruct (truthy (body req !! "email")) as [e|];
      [|rewrite Hcases in Hl; by left].
    destruct (truthy (body req !! "enrollment")) as [en|];
      [|rewrite Hcases in Hl; by left].
    destruct (castObjectId (params_id req)) as [k|];
      [|destruct Hcases as [_ Hsl]; rewrite Hsl in Hl; by left].
    destruct (slots st !! k) as [s0|];
      [|destruct Hcases as [_ Hsl]; rewrite Hsl in Hl; by left].
    destruct (status s0); [|destruct Hcases as [_ Hsl]; rewrite Hsl in Hl; by left].
    simpl in Hcases. destruct (validate s0) eqn:Hv;
      [|destruct Hcases as [_ Hsl]; rewrite Hsl in Hl; by left].
    destruct Hcases as [Hsl _]. rewrite Hsl in Hl. by eapply insert_entry.
  - destruct (cancel_cases req st) as [_ Hcases].
    destruct (castObjectId (params_id req)) as [k|];
      [|destruct Hcases as [_ Hsl]; rewrite Hsl in Hl; by left].
    destruct (slots st !! k) as [s0|];
      [|destruct Hcases as [_ Hsl]; rewrite Hsl in Hl; by left].
    destruct (status s0); [destruct Hcases as [_ Hsl]; rewrite Hsl in Hl; by left|].
    simpl in Hcases. destruct (validate s0) eqn:Hv;
      [|destruct Hcases as [_ Hsl]; rewrite Hsl in Hl; by left].
    destruct Hcases as [Hsl _]. rewrite Hsl in Hl. by eapply insert_entry.
Qed.

(** Every slot of a reachable store satisfies the schema. *)
Lemma reachable_valid (st : Store) :
  reachable st -> forall i s, slots st !! i = Some s -> validate s = true.
Proof.
  induction 1 as [es|op st Hst IH]; intros i s Hs.
  - cbn in Hs. by rewrite lookup_empty in Hs.
  - apply perform_entry in Hs as [Hs|Hs]; eauto.
Qed.

(** *** The times of a stored slot *)

(** C3. Whatever an operation leaves in the store that was not there
    before has a start and an end time that match the pattern of the
    schema, so no write that would store another string succeeds; and
    when a create answers 201, or an update 200, the slot it wrote is in
    the store with both times matching. The caller's format plays no
    part: the strings are checked after the conversion. *)
Theorem write_leaves_matching_times (op : Operation) (st : Store) :
  (forall i s, slots (perform op st).2 !! i = Some s -> slots st !! i <> Some s ->
     times_match s) /\
  match op with
  | Create env req =>
      code (create env req st).1 = 201 ->
      exists s, slots (create env req st).2 !! new_id env = Some s /\ times_match s
  | Update req =>
      code (update req st).1 = 200 ->
      exists i s, castObjectId (params_id req) = Some i /\
        slots (update req st).2 !! i = Some s /\ times_match s
  | _ => True
  end.
Proof.
  split.
  - intros i s Hs Hne. apply perform_entry in Hs as [Hs|Hs]; [done|].
    by apply validate_times.
  - destruct op as [env req|req| | |]; [| |done..].
    + intros Hcode. destruct (create_cases env req st) as [_ [(Hc & _)|Hok]]; [done|].
      destruct Hok as (e & d & a & b & p & eid & ev & t & _ & _ & _ & _ & _ & _ & _ & _ & _ & Hok).
      simpl in Hok. destruct Hok as (Hv & -> & _).
      eexists. rewrite lookup_insert_eq. split; [done|]. by apply validate_times.
    + intros Hcode. destruct (update_cases req st) as [_ Hcases].
      destruct (castObjectId (params_id req)) as [i|];
        [|by destruct Hcases as [Hr _]; rewrite Hr in Hcode].
      destruct (slots st !! i) as [s|];
        [|by destruct Hcases as [Hr _]; rewrite Hr in Hcode].
      destruct (validate (updated req s)) eqn:Hv;
        [|by destruct Hcases as [Hr _]; rewrite Hr in Hcode].
      destruct Hcases as [-> _]. exists i, (updated req s).
      rewrite lookup_insert_eq. split_and!; [done..|]. by apply validate_times.
Qed.

(** *** Booked slots *)

Lemma perform_booking op (st : Store) :
  map_Forall (fun _ s => booking_consistent s) (slots st) ->
  map_Forall (fun _ s => booking_consistent s) (slots (perform op st).2).
Proof.
  intros Hinv. destruct op as [env req|req|req|env req|req]; simpl.
  - destruct (create_cases env req st) as [_ [(_ & _ & ->)|Hok]]; [done|].
    destruct Hok as (e & d & a & b & p & eid & ev & t & _ & _ & _ & _ & _ & _ & _ & _ & _ & Hok).
    simpl in Hok. destruct Hok as (_ & -> & _).
    apply map_Forall_insert_2; [|done]. split; [by intros []|done].
  - destruct (update_cases req st) as [_ Hcases].
    destruct (castObjectId (params_id req)) as [i|]; [|by destruct Hcases as [_ ->]].
    destruct (slots st !! i) as [s|] eqn:Hs; [|by destruct Hcases as [_ ->]].
    destruct (validate (updated req s)); [|by destruct Hcases as [_ ->]].
    destruct Hcases as [-> _]. apply map_Forall_insert_2; [|done].
    exact (Hinv i s Hs).
  - destruct (remove_cases req st) as [_ [->|[i ->]]]; [done|].
    by apply map_Forall_delete.
  - destruct (book_cases env req st) as [_ Hcases].
    destruct (truthy (body req !! "name")) as [n|]; [|by rewrite Hcases].
    destruct (truthy (body req !! "email")) as [e|]; [|by rewrite Hcases].
    destruct (truthy (body req !! "enrollment")) as [en|]; [|by rewrite Hcases].
    destruct (castObjectId (params_id req)) as [i|]; [|by destruct Hcases as [_ ->]].
    destruct (slots st !! i) as [s|] eqn:Hs; [|by destruct Hcases as [_ ->]].
    destruct (status s); [|by destruct Hcases as [_ ->]].
    simpl in Hcases. destruct (validate s); [|by destruct Hcases as [_ ->]].
    destruct Hcases as [-> _]. apply map_Forall_insert_2; [|done].
    split; [done|by eexists].
  - destruct (cancel_cases req st) as [_ Hcases].
    destruct (castObjectId (params_id req)) as [i|]; [|by destruct Hcases as [_ ->]].
    destruct (slots st !! i) as [s|] eqn:Hs; [|by destruct Hcases as [_ ->]].
    destruct (status s); [by destruct Hcases as [_ ->]|].
    simpl in Hcases. destruct (validate s); [|by destruct Hcases as [_ ->]].
    destruct Hcases as [-> _]. apply map_Forall_insert_2; [|done].
    split; [by intros []|done].
Qed.

Lemma reachable_booking (st : Store) :
  reachable st -> map_Forall (fun _ s => booking_consistent s) (slots st).
Proof.
  induction 1 as [es|op st Hst IH].
  - apply map_Forall_empty.
  - by apply perform_booking.
Qed.

(** A time that the pattern accepts is not the empty string. *)
Lemma accepted_time_nonempty v :
  regex_test time_pattern v = true -> String.eqb v "" = false.
Proof. intros Hv. apply String.eqb_neq. by intros ->. Qed.

(** A create that has all it needs stores its slot and answers 201. *)
Lemma create_succeeds env req (st : Store) e d a b p eid ev t :
  truthy (body req !! "eventId") = Some e ->
  truthy (body req !! "date") = Some d ->
  truthy (body req !! "startTime") = Some a ->
  truthy (body req !! "endTime") = Some b ->
  truthy (body req !! "purpose") = Some p ->
  castObjectId e = Some eid ->
  events st !! eid = Some ev ->
  normalizeDate d = Some t ->
  regex_test time_pattern (convertTo12Hour a) = true ->
  regex_test time_pattern (convertTo12Hour b) = true ->
  Js.trim p <> "" ->
  slots st !! new_id env = None ->
  code (create env req st).1 = 201 /\
  slots (create env req st).2
  = <[new_id env :=
        {| eventId := Some eid; date := Some t;
           startTime := convertTo12Hour a; endTime := convertTo12Hour b;
           purpose := Js.trim p; status := available; bookedBy := None;
           createdBy := Some (user_id req) |}]> (slots st).
Proof.
  intros He Hd Ha Hb Hp Hcast Hev Hn Hta Htb Htrim Hfresh.
  unfold create. rewrite He, Hd, Ha, Hb, Hp. run.
  rewrite Hcast. simpl. rewrite Hev. simpl.
  match goal with |- context [validate ?x] => assert (validate x = true) as -> end.
  { unfold validate, required_string, match_validator. simpl.
    rewrite Hn, Hta, Htb, !accepted_time_nonempty by done. simpl.
    apply String.eqb_neq in Htrim. by rewrite Htrim. }
  simpl. rewrite Hfresh. simpl. rewrite lookup_insert_eq. simpl.
  rewrite Hn. simpl. done.
Qed.

(** C4. In every store that the operations reach, a slot has [bookedBy]
    if and only if its status is [booked]. From such a store, a create
    that answers 201 stores its slot without [bookedBy] and with status
    [available]; a book that answers 200 leaves the slot with [bookedBy]
    and status [booked]; a cancel that answers 200 leaves it without
    [bookedBy], the whole sub-record gone, and with status [available].
    And these answers are given: a create with its five fields, an
    event that exists, a date that parses, times that the pattern
    accepts after the conversion, a purpose that is not white space
    only and a fresh identifier answers 201 and stores such a slot; a
    book of an available slot that carries its three fields answers 200
    and stores the slot with status [booked] and with the booking; a
    cancel of a booked slot answers 200 and stores the slot with status
    [available] and without [bookedBy]. *)
Theorem bookedBy_iff_booked (st : Store) :
  reachable st ->
  (forall i s, slots st !! i = Some s -> (is_Some (bookedBy s) <-> status s = booked)) /\
  (forall env req, code (create env req st).1 = 201 ->
     exists s, slots (create env req st).2 !! new_id env = Some s /\
       bookedBy s = None /\ status s = available) /\
  (forall env req, code (book env req st).1 = 200 ->
     exists i s b, castObjectId (params_id req) = Some i /\
       slots (book env req st).2 !! i = Some s /\
       bookedBy s = Some b /\ status s = booked) /\
  (forall req, code (cancel req st).1 = 200 ->
     exists i s, castObjectId (params_id req) = Some i /\
       slots (cancel req st).2 !! i = Some s /\
       bookedBy s = None /\ status s = available) /\
  (forall env req e d a b p eid ev t,
     truthy (body req !! "eventId") = Some e ->
     truthy (body req !! "date") = Some d ->
     truthy (body req !! "startTime") = Some a ->
     truthy (body req !! "endTime") = Some b ->
     truthy (body req !! "purpose") = Some p ->
     castObjectId e = Some eid ->
     events st !! eid = Some ev ->
     normalizeDate d = Some t ->
     regex_test time_pattern (convertTo12Hour a) = true ->
     regex_test time_pattern (convertTo12Hour b) = true ->
     Js.trim p <> "" ->
     slots st !! new_id env = None ->
     code (create env req st).1 = 201 /\
     exists s, slots (create env req st).2 !! new_id env = Some s /\
       bookedBy s = None /\ status s = available) /\
  (forall env req i s n e en,
     castObjectId (params_id req) = Some i ->
     slots st !! i = Some s ->
     status s = available ->
     truthy (body req !! "name") = Some n ->
     truthy (body req !! "email") = Some e ->
     truthy (body req !! "enrollment") = Some en ->
     code (book env req st).1 = 200 /\
     exists s', slots (book env req st).2 !! i = Some s' /\
       bookedBy s' = Some {| name := Js.trim n; email := Js.trim e;
                             enrollment := Js.trim en; bookedAt := now env |} /\
       status s' = booked) /\
  (forall req i s,
     castObjectId (params_id req) = Some i ->
     slots st !! i = Some s ->
     status s = booked ->
     code (cancel req st).1 = 200 /\
     exists s', slots (cancel req st).2 !! i = Some s' /\
       bookedBy s' = None /\ status s' = available).
Proof.
  intros Hreach. split_and!.
  - intros i s Hs. exact (reachable_booking st Hreach i s Hs).
  - intros env req Hcode.
    destruct (create_cases env req st) as [_ [(Hc & _)|Hok]]; [done|].
    destruct Hok as (e & d & a & b & p & eid & ev & t & _ & _ & _ & _ & _ & _ & _ & _ & _ & Hok).
    simpl in Hok. destruct Hok as (_ & -> & _).
    eexists. by rewrite lookup_insert_eq.
  - intros env req Hcode. destruct (book_cases env req st) as [_ Hcases].
    destruct (truthy (body req !! "name")) as [n|]; [|by rewrite Hcases in Hcode].
    destruct (truthy (body req !! "email")) as [e|]; [|by rewrite Hcases in Hcode].
    destruct (truthy (body req !! "enrollment")) as [en|]; [|by rewrite Hcases in Hcode].
    destruct (castObjectId (params_id req)) as [i|];
      [|by destruct Hcases as [Hr _]; rewrite Hr in Hcode].
    destruct (slots st !! i) as [s|] eqn:Hs;
      [|by destruct Hcases as [Hr _]; rewrite Hr in Hcode].
    destruct (status s); [|by destruct Hcases as [Hr _]; rewrite Hr in Hcode].
    simpl in Hcases.
    destruct (validate s); [|by destruct Hcases as [Hr _]; rewrite Hr in Hcode].
    destruct Hcases as [-> _]. do 3 eexists. by rewrite lookup_insert_eq.
  - intros req Hcode. destruct (cancel_cases req st) as [_ Hcases].
    destruct (castObjectId (params_id req)) as [i|];
      [|by destruct Hcases as [Hr _]; rewrite Hr in Hcode].
    destruct (slots st !! i) as [s|] eqn:Hs;
      [|by destruct Hcases as [Hr _]; rewrite Hr in Hcode].
    destruct (status s); [by destruct Hcases as [Hr _]; rewrite Hr in Hcode|].
    simpl in Hcases.
    destruct (validate s); [|by destruct Hcases as [Hr _]; rewrite Hr in Hcode].
    destruct Hcases as [-> _]. do 2 eexists. by rewrite lookup_insert_eq.
  - intros env req e d a b p eid ev t He Hd Ha Hb Hp Hcast Hev Hn Hta Htb Htrim Hfresh.
    destruct (create_succeeds env req st e d a b p eid ev t) as [Hcode Hsl]; try done.
    split; [exact Hcode|]. rewrite Hsl. eexists. by rewrite lookup_insert_eq.
  - intros env req i s n e en Hcast Hs Hst Hn He Hen.
    destruct (book_cases env req st) as [_ Hcases].
    rewrite Hn, He, Hen, Hcast, Hs, Hst in Hcases. simpl in Hcases.
    rewrite (reachable_valid st Hreach i s Hs) in Hcases.
    destruct Hcases as (Hsl & j & _ & Hr). rewrite Hr, Hsl. split; [done|].
    eexists. by rewrite lookup_insert_eq.
  - intros req i s Hcast Hs Hst.
    destruct (cancel_cases req st) as [_ Hcases].
    rewrite Hcast, Hs, Hst in Hcases. simpl in Hcases.
    rewrite (reachable_valid st Hreach i s Hs) in Hcases.
    destruct Hcases as (Hsl & j & _ & Hr). rewrite Hr, Hsl. split; [done|].
    eexists. by rewrite lookup_insert_eq.
Qed.



(** *** Creating *)

(** C7. A create request in which [eventId], [date], [startTime],
    [endTime] or [purpose] is missing (or empty) is answered with 400,
    and the store after it is the store before it, the record of the
    calls to the store client included: no event was looked up and no
    slot written. *)
Theorem create_missing_field env req (st : Store) :
  truthy (body req !! "eventId") = None \/ truthy (body req !! "date") = None \/
  truthy (body req !! "startTime") = None \/ truthy (body req !! "endTime") = None \/
  truthy (body req !! "purpose") = None ->
  create env req st =
    ({| code := 400; payload := Message "All fields are required" |}, st).
Proof.
  unfold create. intros [Hm|[Hm|[Hm|[Hm|Hm]]]]; rewrite Hm; by repeat case_match.
Qed.

(** *** Dates *)


Lemma toJSON_date i s ev j t :
  toJSON ({| doc_id := i; isNew := false; doc := s |}, ev) = inr j ->
  date s = Some t ->
  json_date j = JsDate.iso_date t.
Proof.
  unfold toJSON. simpl. intros Hj Ht. rewrite Ht in Hj. simpl in Hj.
  injection Hj as <-. simpl. by rewrite DateFacts.iso_string_date.
Qed.



(** *** Updating *)


(** With no value for any of the four fields, the update assigns
    nothing. *)
Lemma updated_nothing req s :
  truthy (body req !! "date") = None ->
  truthy (body req !! "startTime") = None ->
  truthy (body req !! "endTime") = None ->
  truthy (body req !! "purpose") = None ->
  updated req s = s.
Proof. intros Hd Ha Hb Hp. unfold updated. rewrite Hd, Ha, Hb, Hp. by destruct s. Qed.

(** The fields of the slot that a handler sends. *)
Lemma toJSON_fields i s ev j :
  toJSON ({| doc_id := i; isNew := false; doc := s |}, ev) = inr j ->
  json_id j = i /\ json_startTime j = startTime s /\ json_endTime j = endTime s /\
  json_purpose j = purpose s /\ json_status j = status s /\
  json_bookedBy j = bookedBy s.
Proof.
  unfold toJSON. simpl. destruct (JsDate.toISOString (date s)); [|done].
  by intros [= <-].
Qed.

(** C10. An update that carries the empty string for [date],
    [startTime], [endTime] or [purpose] does what the same request
    without that field does, answer and store alike; the field of the
    stored slot is not changed by it; and no update can store a slot in
    which one of these fields is empty. The update succeeds as it would
    without the field: when the slot exists and what the other fields
    of the request make of it passes the validation of the schema, the
    answer is 200 with the slot, which is stored and returned with the
    field as it was; and on a store that the operations reach, a request
    that carries no value but empty ones is answered with 200 and the
    slot as it is. *)
Theorem update_empty_string_is_omitted req (st : Store) f :
  f = "date" \/ f = "startTime" \/ f = "endTime" \/ f = "purpose" ->
  body req !! f = Some "" ->
  update req st
  = update {| params_id := params_id req; body := delete f (body req);
              user_id := user_id req |} st /\
  (forall i s s', slots st !! i = Some s -> slots (update req st).2 !! i = Some s' ->
     (f = "date" -> date s' = date s) /\
     (f = "startTime" -> startTime s' = startTime s) /\
     (f = "endTime" -> endTime s' = endTime s) /\
     (f = "purpose" -> purpose s' = purpose s)) /\
  (forall i s', slots (update req st).2 !! i = Some s' -> slots st !! i <> Some s' ->
     is_Some (date s') /\ startTime s' <> "" /\ endTime s' <> "" /\ purpose s' <> "") /\
  (forall i s,
     castObjectId (params_id req) = Some i ->
     slots st !! i = Some s ->
     validate (updated req s) = true ->
     exists j t,
       (update req st).1 = {| code := 200; payload := Json (Some j) |} /\
       slots (update req st).2 !! i = Some (updated req s) /\
       date (updated req s) = Some t /\
       json_id j = i /\ json_date j = JsDate.iso_date t /\
       json_startTime j = startTime (updated req s) /\
       json_endTime j = endTime (updated req s) /\
       json_purpose j = purpose (updated req s) /\
       (f = "date" -> date (updated req s) = date s) /\
       (f = "startTime" -> startTime (updated req s) = startTime s) /\
       (f = "endTime" -> endTime (updated req s) = endTime s) /\
       (f = "purpose" -> purpose (updated req s) = purpose s)) /\
  (forall i s,
     reachable st ->
     castObjectId (params_id req) = Some i ->
     slots st !! i = Some s ->
     truthy (body req !! "date") = None ->
     truthy (body req !! "startTime") = None ->
     truthy (body req !! "endTime") = None ->
     truthy (body req !! "purpose") = None ->
     exists j t,
       (update req st).1 = {| code := 200; payload := Json (Some j) |} /\
       slots (update req st).2 !! i = Some s /\
       date s = Some t /\
       json_id j = i /\ json_date j = JsDate.iso_date t /\
       json_startTime j = startTime s /\ json_endTime j = endTime s /\
       json_purpose j = purpose s).
Proof.
  intros Hf Hempty.
  assert (Hsucceeds : forall i s,
     castObjectId (params_id req) = Some i ->
     slots st !! i = Some s ->
     validate (updated req s) = true ->
     exists j t,
       (update req st).1 = {| code := 200; payload := Json (Some j) |} /\
       slots (update req st).2 !! i = Some (updated req s) /\
       date (updated req s) = Some t /\
       json_id j = i /\ json_date j = JsDate.iso_date t /\
       json_startTime j = startTime (updated req s) /\
       json_endTime j = endTime (updated req s) /\
       json_purpose j = purpose (updated req s)).
  { intros i s Hcast Hs Hv. destruct (update_cases req st) as [_ Hcases].
    rewrite Hcast, Hs, Hv in Hcases. destruct Hcases as (Hsl & j & Hj & Hr).
    destruct (validate_date _ Hv) as [t Ht]. exists j, t.
    destruct (toJSON_fields _ _ _ _ Hj) as (Hid & Ha & Hb & Hp & _).
    split_and!; try done.
    - by rewrite Hsl, lookup_insert_eq.
    - by eapply toJSON_date. }
  split_and!.
  - unfold update, when_truthy. simpl. by rewrite !truthy_delete_empty.
  - intros i s s' Hs Hs'. destruct (update_cases req st) as [_ Hcases].
    destruct (castObjectId (params_id req)) as [k|];
      [|destruct Hcases as [_ Hsl]; rewrite Hsl in Hs'; by simplify_eq].
    destruct (slots st !! k) as [s0|] eqn:Hs0;
      [|destruct Hcases as [_ Hsl]; rewrite Hsl in Hs'; by simplify_eq].
    destruct (validate (updated req s0));
      [|destruct Hcases as [_ Hsl]; rewrite Hsl in Hs'; by simplify_eq].
    destruct Hcases as [Hsl _]. rewrite Hsl in Hs'.
    destruct (decide (k = i)) as [->|Hne];
      [|rewrite lookup_insert_ne in Hs' by done; by simplify_eq].
    rewrite lookup_insert_eq in Hs'. simplify_eq. unfold updated; simpl.
    split_and!; intros ->; by rewrite Hempty.
  - intros i s' Hs' Hne. apply (perform_entry (Update req)) in Hs' as [Hs'|Hv]; [done|].
    unfold validate, required_string in Hv.
    repeat (apply andb_true_iff in Hv as [Hv ?]).
    split_and!; [by eapply bool_decide_eq_true_1|..];
      intros Heq; rewrite Heq in *; done.
  - intros i s Hcast Hs Hv.
    destruct (Hsucceeds i s Hcast Hs Hv) as (j & t & Hr & Hsl & Ht & Hid & Hjd & Hja & Hjb & Hjp).
    exists j, t. split_and!; try done.
    all: unfold updated; simpl; intros ->; by rewrite Hempty.
  - intros i s Hreach Hcast Hs Hd Ha Hb Hp.
    pose proof (updated_nothing req s Hd Ha Hb Hp) as Hsame.
    assert (Hv : validate (updated req s) = true)
      by (rewrite Hsame; exact (reachable_valid st Hreach i s Hs)).
    destruct (Hsucceeds i s Hcast Hs Hv) as (j & t & Hr & Hsl & Ht & Hid & Hjd & Hja & Hjb & Hjp).
    rewrite Hsame in *. exists j, t. by split_and!.
Qed.

End Handlers.

(** ** The properties at work on the example of the specification *)

Module SampleFacts.
Import Sample.

Lemma store1_reachable : reachable store1.
Proof.
  change (reachable (perform (Create env1 create_req) store0).2).
  apply reachable_perform. unfold store0. apply reachable_empty.
Qed.

Lemma store2_reachable : reachable store2.
Proof.
  change (reachable (perform (Book env1 book_req) store1).2).
  apply reachable_perform. apply store1_reachable.
Qed.

Lemma store1_slot7 : slots store1 !! 7%N = Some slot7.
Proof. vm_compute. reflexivity. Qed.

Lemma store2_slot7 : slots store2 !! 7%N = Some slot7_booked.
Proof. vm_compute. reflexivity. Qed.

(** The create of the specification's example. *)
Lemma create_example :
  code (create env1 create_req store0).1 = 201 /\
  match payload (create env1 create_req store0).1 with
  | Json (Some j) =>
      json_date j = "2024-03-01" /\ json_startTime j = "2:30 PM" /\
      json_endTime j = "3:00 PM" /\ json_status j = available
  | _ => False
  end.
Proof. split; vm_compute; [reflexivity|done]. Qed.

(** An update that carries a time in 12-hour format is refused. *)
Lemma update_12_hour_refused :
  code (update update_req_12h store1).1 = 500 /\
  slots (update update_req_12h store1).2 = slots store1.
Proof. split; vm_compute; reflexivity. Qed.

End SampleFacts.

Lemma convertTo12Hour_spec_witness :
  0 <= 14 < 24 /\ Js.contains Js.colon "30" = false /\
  convertTo12Hour "14:30" = Spec.convertTo12Hour 14 "30".
Proof.
  split; [lia|]. split; [reflexivity|].
  exact (proj1 (convertTo12Hour_spec 14 "30" ltac:(lia) eq_refl)).
Defined.

Lemma write_leaves_matching_times_witness :
  slots Sample.store1 !! 7%N = Some Sample.slot7 /\
  slots Sample.store0 !! 7%N <> Some Sample.slot7 /\
  times_match Sample.slot7.
Proof.
  split; [exact SampleFacts.store1_slot7|]. split; [done|].
  apply (proj1 (write_leaves_matching_times (Create Sample.env1 Sample.create_req)
                  Sample.store0) 7%N Sample.slot7); [|done].
  change (slots Sample.store1 !! 7%N = Some Sample.slot7).
  exact SampleFacts.store1_slot7.
Defined.

Lemma bookedBy_iff_booked_witness :
  reachable Sample.store2 /\
  slots Sample.store2 !! 7%N = Some Sample.slot7_booked /\
  (is_Some (bookedBy Sample.slot7_booked) <-> status Sample.slot7_booked = booked) /\
  (code (cancel Sample.cancel_req Sample.store2).1 = 200 /\
   exists s', slots (cancel Sample.cancel_req Sample.store2).2 !! 7%N = Some s' /\
     bookedBy s' = None /\ status s' = available) /\
  (code (book Sample.env1 Sample.book_req Sample.store1).1 = 200 /\
   exists s', slots (book Sample.env1 Sample.book_req Sample.store1).2 !! 7%N = Some s' /\
     bookedBy s' = Some {| name := "Ann"; email := "ann@example.org";
                           enrollment := "E-17"; bookedAt := 1709300000000 |} /\
     status s' = booked) /\
  (code (create Sample.env1 Sample.create_req Sample.store0).1 = 201 /\
   exists s, slots (create Sample.env1 Sample.create_req Sample.store0).2 !! 7%N = Some s /\
     bookedBy s = None /\ status s = available).
Proof.
  assert (Hr0 : reachable Sample.store0)
    by (unfold Sample.store0; apply reachable_empty).
  assert (Hid : @castObjectId Sample.collaborators (params_id Sample.cancel_req) = Some 7%N)
    by (vm_compute; reflexivity).
  assert (Hid' : @castObjectId Sample.collaborators (params_id Sample.book_req) = Some 7%N)
    by (vm_compute; reflexivity).
  split; [exact SampleFacts.store2_reachable|].
  split; [exact SampleFacts.store2_slot7|].
  destruct (bookedBy_iff_booked Sample.store2 SampleFacts.store2_reachable)
    as (Hinv & _ & _ & _ & _ & _ & Hcancel).
  destruct (bookedBy_iff_booked Sample.store1 SampleFacts.store1_reachable)
    as (_ & _ & _ & _ & _ & Hbook & _).
  destruct (bookedBy_iff_booked Sample.store0 Hr0)
    as (_ & _ & _ & _ & Hcreate & _).
  split; [exact (Hinv 7%N Sample.slot7_booked SampleFacts.store2_slot7)|].
  split; [exact (Hcancel Sample.cancel_req 7%N Sample.slot7_booked Hid
                   SampleFacts.store2_slot7 eq_refl)|].
  split.
  - exact (Hbook Sample.env1 Sample.book_req 7%N Sample.slot7
             " Ann " "ann@example.org" "E-17" Hid' SampleFacts.store1_slot7 eq_refl
             ltac:(vm_compute; reflexivity) ltac:(vm_compute; reflexivity)
             ltac:(vm_compute; reflexivity)).
  - exact (Hcreate Sample.env1 Sample.create_req
             "1" "2024-03-01" "14:30" "15:00" "Advising" 1%N "Orientation" 1709251200000
             ltac:(vm_compute; reflexivity) ltac:(vm_compute; reflexivity)
             ltac:(vm_compute; reflexivity) ltac:(vm_compute; reflexivity)
             ltac:(vm_compute; reflexivity) ltac:(vm_compute; reflexivity)
             ltac:(vm_compute; reflexivity) ltac:(vm_compute; reflexivity)
             ltac:(vm_compute; reflexivity) ltac:(vm_compute; reflexivity)
             ltac:(vm_compute; discriminate) ltac:(vm_compute; reflexivity)).
Defined.




Lemma create_missing_field_witness :
  truthy (body Sample.create_req_no_purpose !! "purpose") = None /\
  create Sample.env1 Sample.create_req_no_purpose Sample.store0 =
    ({| code := 400; payload := Message "All fields are required" |}, Sample.store0).
Proof.
  split; [vm_compute; reflexivity|].
  apply create_missing_field. do 4 right. vm_compute; reflexivity.
Defined.




Lemma update_empty_string_is_omitted_witness :
  body Sample.update_req_empty !! "startTime" = Some "" /\
  update Sample.update_req_empty Sample.store1
  = update {| params_id := params_id Sample.update_req_empty;
              body := delete "startTime" (body Sample.update_req_empty);
              user_id := user_id Sample.update_req_empty |} Sample.store1 /\
  startTime <$> slots (update Sample.update_req_empty Sample.store1).2 !! 7%N
  = Some "2:30 PM" /\
  code (update Sample.update_req_empty Sample.store1).1 = 200 /\
  match payload (update Sample.update_req_empty Sample.store1).1 with
  | Json (Some j) => json_startTime j = "2:30 PM" /\ json_purpose j = "Office hours"
  | _ => False
  end.
Proof.
  assert (He : body Sample.update_req_empty !! "startTime" = Some "")
    by (vm_compute; reflexivity).
  split; [exact He|].
  destruct (update_empty_string_is_omitted Sample.update_req_empty Sample.store1
              "startTime" (or_intror (or_introl eq_refl)) He)
    as (Heq & _ & _ & Hsucceeds & _).
  split; [exact Heq|]. split; [vm_compute; reflexivity|].
  destruct (Hsucceeds 7%N Sample.slot7 ltac:(vm_compute; reflexivity)
              SampleFacts.store1_slot7 ltac:(vm_compute; reflexivity))
    as (j & t & Hr & _ & _ & _ & _ & Hja & _ & Hjp & _).
  rewrite Hr. cbn [code payload]. split; [reflexivity|].
  split; [rewrite Hja|rewrite Hjp]; vm_compute; reflexivity.
Defined.

(** * Further properties of the helpers *)

(** ** What the pattern accepts *)

Lemma nullable_max_len r : nullable r = true -> is_Some (max_len r).
Proof.
  induction r as [| |r1 IH1 r2 IH2|r1 IH1 r2 IH2|r IH| |]; simpl; try done.
  - intros [H1 H2]%andb_true_iff.
    destruct (IH1 H1) as [a ->], (IH2 H2) as [b ->]. by eexists.
  - intros [H1|H2]%orb_true_iff.
    + destruct (IH1 H1) as [a ->]. destruct (max_len r2); by eexists.
    + destruct (IH2 H2) as [b ->]. destruct (max_len r1); by eexists.
Qed.

(** A derivative matches shorter strings only. *)
Lemma max_len_deriv c r n :
  max_len (deriv c r) = Some n -> exists m, max_len r = Some m /\ (n < m)%nat.
Proof.
  revert n. induction r as [a|lo hi|r1 IH1 r2 IH2|r1 IH1 r2 IH2|r IH| |]; intros n; simpl.
  - case_match; simpl; intros [=]; subst. exists 1%nat. split; [done|lia].
  - case_match; simpl; intros [=]; subst. exists 1%nat. split; [done|lia].
  - destruct (nullable r1) eqn:Hn1; simpl.
    + destruct (nullable_max_len _ Hn1) as [m1 Hm1]. rewrite Hm1.
      destruct (max_len (deriv c r1)) as [x|] eqn:Hx;
        [destruct (IH1 _ eq_refl) as (k1 & Hk1 & ?)|];
        (destruct (max_len (deriv c r2)) as [z|] eqn:Hz;
          [destruct (IH2 _ eq_refl) as (k2 & Hk2 & ?)|]);
        destruct (max_len r2) as [y|] eqn:Hy; intros [=]; simplify_eq;
        eexists; (split; [done|lia]).
    + destruct (max_len (deriv c r1)) as [x|] eqn:Hx; [|done].
      destruct (IH1 _ eq_refl) as (k1 & -> & ?).
      destruct (max_len r2) as [y|]; [|done]. intros [= <-].
      eexists. split; [done|lia].
  - destruct (max_len (deriv c r1)) as [x|] eqn:Hx;
      [destruct (IH1 _ eq_refl) as (k1 & Hk1 & ?)|];
      (destruct (max_len (deriv c r2)) as [z|] eqn:Hz;
        [destruct (IH2 _ eq_refl) as (k2 & Hk2 & ?)|]);
      intros [=]; simplify_eq;
      try destruct (max_len r1); try destruct (max_len r2); simplify_eq;
      eexists; (split; [done|lia]).
  - intros Hn. destruct (IH _ Hn) as (m & -> & ?). eexists. split; [done|]. simpl. lia.
  - done.
  - done.
Qed.

(** A string that matches is no longer than the longest match. *)
Lemma regex_test_length r s :
  regex_test r s = true -> exists m, max_len r = Some m /\ (String.length s <= m)%nat.
Proof.
  revert r. induction s as [|c s IH]; intros r; simpl.
  - intros Hn. destruct (nullable_max_len _ Hn) as [m ->]. exists m. split; [done|lia].
  - intros Ht. destruct (IH _ Ht) as (n & Hn & Hlen).
    destruct (max_len_deriv _ _ _ Hn) as (m & -> & ?). exists m. split; [done|lia].
Qed.

Lemma regex_test_void r s : max_len r = None -> regex_test r s = false.
Proof.
  intros Hv. destruct (regex_test r s) eqn:Ht; [|done].
  apply regex_test_length in Ht as (m & Hm & _). congruence.
Qed.

Lemma regex_test_app r a b :
  regex_test r (a +:+ b) = regex_test (string_deriv a r) b.
Proof.
  revert r. induction a as [|c a IH]; intros r; [done|].
  change (regex_test (deriv c r) (a +:+ b) = regex_test (string_deriv a (deriv c r)) b).
  apply IH.
Qed.

(** One step of the matcher on a character that is not known: the tests
    that the derivative makes on it are decided either way. *)
Ltac deriv_by a :=
  lazymatch goal with
  | |- context [deriv a ?R] =>
      let d := eval cbn [deriv nullable andb orb] in (deriv a R) in
      change (deriv a R) with d
  end;
  repeat match goal with
         | |- context [if ?b then _ else _] => destruct b eqn:?
         end;
  cbv beta iota.

(** The pattern on a string that the conversion builds: the hour [k],
    the minutes [m] and a period. *)
Lemma pattern_on_converted k (pm : bool) m :
  -11 <= k <= 12 -> k <> 0 ->
  regex_test time_pattern
    (Js.show_int k +:+ ":" +:+ m +:+ " " +:+ (if pm then "PM" else "AM"))
  = (0 <? k) && two_digit_minutes m.
Proof.
  intros Hk Hk0. assert (Hin : k ∈ seqZ (-11) 24) by (apply elem_of_seqZ; lia).
  cbv in Hin.
  repeat (apply elem_of_cons in Hin as [-> | Hin]); try done;
    try (by apply elem_of_nil in Hin).
  all: rewrite regex_test_app.
  all: change (":" +:+ ?y) with (String ":"%char y); cbn [regex_test].
  all: match goal with
       | |- regex_test ?R _ = _ =>
           let v := eval vm_compute in R in change R with v
       end.
  all: destruct m as [|a [|b [|c m3]]];
    [ destruct pm; vm_compute; reflexivity
    | destruct pm; cbv beta iota zeta delta [String.append];
      cbn [two_digit_minutes];
      lazymatch goal with
      | |- regex_test ?R (String a ?s) = _ =>
          change (regex_test R (String a s)) with (regex_test (deriv a R) s)
      end;
      deriv_by a; vm_compute; reflexivity
    | destruct pm; cbv beta iota zeta delta [String.append];
      cbn [two_digit_minutes];
      lazymatch goal with
      | |- regex_test ?R (String a (String b ?s)) = _ =>
          change (regex_test R (String a (String b s)))
            with (regex_test (deriv b (deriv a R)) s)
      end;
      deriv_by a; deriv_by b; vm_compute; reflexivity
    | cbn [two_digit_minutes]; rewrite andb_false_r;
      match goal with |- ?t = false => destruct t eqn:Ht; [exfalso|done] end;
      apply regex_test_length in Ht as (n & Hn & Hlen); vm_compute in Hn;
      [done || (injection Hn as <-; rewrite !length_append in Hlen;
                destruct pm; simpl in Hlen; lia)] ].
Qed.

(** The pattern on what the conversion makes of an hour [x] and of
    minutes [m]. *)
Lemma pattern_on_conversion (x : Js.jsnum) (m : string) :
  regex_test time_pattern
    (Js.Number_toString (Js.or12 (Js.rem12 x)) +:+ ":" +:+ m +:+ " " +:+
     (if Js.ge12 x then "PM" else "AM"))
  = hour_accepted x && two_digit_minutes m.
Proof.
  destruct x as [|neg|z]; cbn [Js.rem12 Js.or12 Js.ge12 hour_accepted].
  - apply (pattern_on_converted 12 false); lia.
  - apply (pattern_on_converted 12 (negb neg)); lia.
  - pose proof (Z.rem_bound_abs z 12 ltac:(lia)) as Hb.
    destruct (Z.rem z 12) as [|p|p] eqn:Hr.
    + apply (pattern_on_converted 12 (12 <=? z)); lia.
    + rewrite (pattern_on_converted (Z.pos p) (12 <=? z)) by lia. done.
    + rewrite (pattern_on_converted (Z.neg p) (12 <=? z)) by lia. done.
Qed.

(** X1. Which times a write accepts. For [hours:minutes] the converted
    string matches the pattern of the schema exactly when the minutes
    are two digits from 00 to 59 and the hour is not a negative number
    off the multiples of 12. The hour is not checked against 0 to 23,
    nor for being a number: "99:30" and "abc:30" pass. *)
Theorem converted_time_accepted (hours minutes : string) :
  Js.contains Js.colon hours = false ->
  Js.contains Js.colon minutes = false ->
  regex_test time_pattern (convertTo12Hour (hours +:+ ":" +:+ minutes))
  = hour_accepted (Js.parseInt hours) && two_digit_minutes minutes.
Proof.
  intros Hh Hm. rewrite convertTo12Hour_parts by done. apply pattern_on_conversion.
Qed.

(** X2. A time without a colon has no minutes: the conversion writes
    "undefined" in their place, and the pattern of the schema refuses
    the result, whatever the hour. *)
Theorem convertTo12Hour_without_colon (time24 : string) :
  Js.contains Js.colon time24 = false ->
  convertTo12Hour time24
  = Js.Number_toString (Js.or12 (Js.rem12 (Js.parseInt time24))) +:+
    ":undefined " +:+ (if Js.ge12 (Js.parseInt time24) then "PM" else "AM") /\
  regex_test time_pattern (convertTo12Hour time24) = false.
Proof.
  intros Hc.
  assert (Heq : convertTo12Hour time24
                = Js.Number_toString (Js.or12 (Js.rem12 (Js.parseInt time24))) +:+
                  ":" +:+ "undefined" +:+ " " +:+
                  (if Js.ge12 (Js.parseInt time24) then "PM" else "AM")).
  { unfold convertTo12Hour, Js.split. by rewrite split_aux_no_sep. }
  split; [exact Heq|]. rewrite Heq, pattern_on_conversion. apply andb_false_r.
Qed.

(** X3. Segments after the second are dropped: seconds, or anything
    else that follows a second colon, leave no trace. *)
Theorem convertTo12Hour_drops_third_segment (hours minutes rest : string) :
  Js.contains Js.colon hours = false ->
  Js.contains Js.colon minutes = false ->
  convertTo12Hour (hours +:+ ":" +:+ minutes +:+ ":" +:+ rest)
  = convertTo12Hour (hours +:+ ":" +:+ minutes).
Proof.
  intros Hh Hm. rewrite (convertTo12Hour_parts hours minutes) by done.
  unfold convertTo12Hour, Js.split.
  change (hours +:+ ":" +:+ minutes +:+ ":" +:+ rest)
    with (hours +:+ String Js.colon (minutes +:+ String Js.colon rest)).
  rewrite split_aux_app by done. unfold Js.split.
  rewrite split_aux_app by done. reflexivity.
Qed.

(** ** Hours of any size *)

Lemma digit_val_char d : 0 <= d < 10 -> Js.digit_val (Js.digit_char d) = d.
Proof.
  intros Hd. assert (Hin : d ∈ seqZ 0 10) by (apply elem_of_seqZ; lia).
  cbv in Hin.
  repeat (apply elem_of_cons in Hin as [-> | Hin]; [done|]).
  by apply elem_of_nil in Hin.
Qed.

(** Reading back the digits that [show_digits] writes. *)
Lemma digits_value_show fuel n acc :
  0 <= n < 10 ^ Z.of_nat fuel ->
  Js.digits_value (Js.show_digits fuel n acc) 0 = Js.digits_value acc n.
Proof.
  revert n acc. induction fuel as [|fuel IH]; intros n acc Hn.
  - simpl in *. by replace n with 0 by lia.
  - cbn [Js.show_digits].
    assert (Hd : 0 <= n mod 10 < 10) by (apply Z.mod_pos_bound; lia).
    destruct (n <? 10) eqn:Hlt.
    + apply Z.ltb_lt in Hlt. cbn [Js.digits_value].
      rewrite digit_char_is_digit, digit_val_char by done.
      rewrite Z.mod_small by lia. done.
    + apply Z.ltb_ge in Hlt. rewrite IH.
      * cbn [Js.digits_value]. rewrite digit_char_is_digit, digit_val_char by done.
        f_equal. pose proof (Z.div_mod n 10 ltac:(lia)). lia.
      * rewrite Nat2Z.inj_succ, Z.pow_succ_r in Hn by lia.
        split; [apply Z.div_pos; lia|]. apply Z.div_lt_upper_bound; lia.
Qed.

Lemma show_digits_starts fuel n c acc :
  Js.is_digit c = true ->
  Js.starts_with_digit (Js.show_digits fuel n (String c acc)) = true.
Proof.
  revert n c acc. induction fuel as [|fuel IH]; intros n c acc Hc; [done|].
  cbn [Js.show_digits].
  assert (Hd : Js.is_digit (Js.digit_char (n mod 10)) = true)
    by (apply digit_char_is_digit, Z.mod_pos_bound; lia).
  case_match; [done|]. by apply IH.
Qed.

Lemma show_nat_starts n : Js.starts_with_digit (Js.show_nat n) = true.
Proof.
  unfold Js.show_nat. cbn [Js.show_digits].
  assert (Hd : Js.is_digit (Js.digit_char (n mod 10)) = true)
    by (apply digit_char_is_digit, Z.mod_pos_bound; lia).
  case_match; [done|]. by apply show_digits_starts.
Qed.

(** [parseInt] on a string that starts with a digit: no white space to
    skip and no sign. *)
Lemma parseInt_digits c s :
  Js.is_digit c = true ->
  Js.parseInt (String c s) = Js.to_double (Js.digits_value (String c s) 0).
Proof.
  destruct c as [[] [] [] [] [] [] [] []]; intros Hc;
    first [discriminate Hc | reflexivity].
Qed.

(** What [parseInt] reads from the decimal digits of a number is the
    number. *)
Lemma parseInt_show_nat n : 0 <= n < 2 ^ 53 -> Js.parseInt (Js.show_nat n) = Js.Fin n.
Proof.
  intros Hn. pose proof (show_nat_starts n) as Hs.
  destruct (Js.show_nat n) as [|c s] eqn:Hshow; [done|]. simpl in Hs.
  rewrite parseInt_digits by done. rewrite <- Hshow. unfold Js.show_nat.
  rewrite digits_value_show.
  - cbn [Js.digits_value]. unfold Js.to_double.
    rewrite Z.abs_eq by lia. by replace (n <? 2 ^ 53) with true by (symmetry; apply Z.ltb_lt; lia).
  - split; [lia|]. destruct (decide (n = 0)) as [->|Hne]; [done|].
    pose proof (Z.log2_spec n ltac:(lia)) as [_ Hlog].
    rewrite Nat2Z.inj_succ, Z2Nat.id by apply Z.log2_nonneg.
    eapply Z.lt_le_trans; [exact Hlog|].
    apply Z.pow_le_mono_l. pose proof (Z.log2_nonneg n). lia.
Qed.

(** X4. The hour is not held to 0 to 23. For every hour [h] that a
    Number holds exactly, [convertTo12Hour] of [h:minutes] is [h % 12],
    or 12 for 0, with PM from 12 on: "24:00" gives "12:00 PM" and
    "99:30" gives "3:30 PM". *)
Theorem convertTo12Hour_any_hour (h : Z) (minutes : string) :
  0 <= h < 2 ^ 53 ->
  Js.contains Js.colon minutes = false ->
  convertTo12Hour (Js.show_nat h +:+ ":" +:+ minutes) = Spec.convertTo12Hour h minutes.
Proof.
  intros Hh Hm. rewrite convertTo12Hour_parts; [|by apply show_digits_contains|done].
  rewrite parseInt_show_nat by done.
  unfold Spec.convertTo12Hour, Spec.hour12, Spec.period.
  cbn [Js.rem12 Js.ge12]. rewrite Z.rem_mod_nonneg by lia.
  pose proof (Z.mod_pos_bound h 12 ltac:(lia)) as Hb.
  destruct (h mod 12) as [|p|p] eqn:Hr; [done| |lia].
  cbn [Js.or12 Js.Number_toString]. unfold Js.show_int.
  replace (Z.pos p <? 0) with false by (symmetry; apply Z.ltb_ge; lia).
  by replace (Z.pos p =? 0) with false by (symmetry; apply Z.eqb_neq; lia).
Qed.

(** ** Times that are in 12-hour format already *)

Lemma language_nullable r : nullable r = true -> "" ∈ language r.
Proof.
  induction r as [| |r1 IH1 r2 IH2|r1 IH1 r2 IH2|r IH| |]; simpl; try done.
  - intros [H1 H2]%andb_true_iff. apply list_elem_of_bind. exists "".
    split; [|by apply IH1]. apply list_elem_of_fmap. exists "". split; [done|by apply IH2].
  - intros [H1|H2]%orb_true_iff; apply elem_of_app; [left|right]; auto.
  - intros _. by left.
  - intros _. by left.
Qed.

Lemma language_deriv c r s : s ∈ language (deriv c r) -> String c s ∈ language r.
Proof.
  revert s. induction r as [a|lo hi|r1 IH1 r2 IH2|r1 IH1 r2 IH2|r IH| |]; intros s; simpl.
  - destruct (Ascii.eqb a c) eqn:Hc; simpl; [|by intros ?%elem_of_nil].
    apply Ascii.eqb_eq in Hc as ->. intros ->%list_elem_of_singleton. by left.
  - destruct ((Js.code lo <=? Js.code c)%N && (Js.code c <=? Js.code hi)%N) eqn:Hc; simpl;
      [|by intros ?%elem_of_nil].
    intros ->%list_elem_of_singleton. apply andb_true_iff in Hc as [Hlo Hhi].
    apply N.leb_le in Hlo, Hhi. unfold Js.code in *.
    apply list_elem_of_fmap. exists (Ascii.nat_of_ascii c).
    split; [by rewrite Ascii.ascii_nat_embedding|].
    apply elem_of_seq. unfold Ascii.nat_of_ascii. lia.
  - assert (Hseq : forall x, x ∈ language (Seq (deriv c r1) r2) ->
                             String c x ∈ language (Seq r1 r2)).
    { simpl. intros x (u & Hx & Hu)%list_elem_of_bind.
      apply list_elem_of_fmap in Hx as (v & -> & Hv).
      apply list_elem_of_bind. exists (String c u). split; [|by apply IH1].
      apply list_elem_of_fmap. by exists v. }
    destruct (nullable r1) eqn:Hn; [|apply Hseq].
    simpl. intros [Hl|Hr]%elem_of_app; [by apply Hseq|].
    apply list_elem_of_bind. exists "". split; [|by apply language_nullable].
    apply list_elem_of_fmap. exists (String c s). split; [done|by apply IH2].
  - intros [Hl|Hr]%elem_of_app; apply elem_of_app; [left|right]; auto.
  - intros Hs. right. by apply IH.
  - by intros ?%elem_of_nil.
  - by intros ?%elem_of_nil.
Qed.

(** What the matcher accepts is in the list. *)
Lemma regex_test_language r s : regex_test r s = true -> s ∈ language r.
Proof.
  revert r. induction s as [|c s IH]; intros r; simpl.
  - apply language_nullable.
  - intros Ht. by apply language_deriv, IH.
Qed.

Lemma twelve_hour_all_refused :
  forallb (fun s => negb (regex_test time_pattern (convertTo12Hour s)))
    (language time_pattern) = true.
Proof. vm_compute. reflexivity. Qed.

(** X5. A time that is in 12-hour format already is never accepted:
    whatever string matches the pattern of the schema, its conversion
    does not. So no request can hand a write the format that the store
    keeps. *)
Theorem twelve_hour_input_refused (t : string) :
  regex_test time_pattern t = true ->
  regex_test time_pattern (convertTo12Hour t) = false.
Proof.
  intros Ht%regex_test_language%list_elem_of_In.
  pose proof twelve_hour_all_refused as Hall. rewrite forallb_forall in Hall.
  by apply negb_true_iff, Hall.
Qed.

(** ** [normalizeDate] on every input *)

Module NormalizeFacts.
Import JsDate DateFacts.

Lemma DayWithinYear_range t : 0 <= DayWithinYear t < DaysInYear (YearFromTime t).
Proof.
  unfold DayWithinYear, YearFromTime.
  pose proof (YearFromDay_spec (Day t)). pose proof (DaysInYear_spec (YearFromDay (Day t))).
  lia.
Qed.

Lemma InLeapYear_spec t :
  (InLeapYear t = 1 /\ DaysInYear (YearFromTime t) = 366) \/
  (InLeapYear t = 0 /\ DaysInYear (YearFromTime t) = 365).
Proof.
  unfold InLeapYear. destruct (DaysInYear (YearFromTime t) =? 366) eqn:Hl.
  - left. by apply Z.eqb_eq in Hl.
  - right. apply Z.eqb_neq in Hl. split; [done|].
    unfold DaysInYear in *. repeat case_match; lia.
Qed.

(** The date within the month runs from 1 to 31. *)
Lemma DateFromTime_range t : 1 <= DateFromTime t <= 31.
Proof.
  pose proof (DayWithinYear_range t) as Hd.
  unfold DateFromTime, MonthFromTime.
  destruct (InLeapYear_spec t) as [[-> Hy]|[-> Hy]]; rewrite Hy in Hd;
    repeat case_match; simpl; lia.
Qed.

Lemma month_start_nonneg m leap : 0 <= leap -> 0 <= month_start m leap.
Proof. intros Hl. unfold month_start. repeat case_match; lia. Qed.

Lemma normalized_eq t :
  normalized t
  = MakeDay (MakeFullYear (YearFromTime t)) (MonthFromTime t) (DateFromTime t) * msPerDay.
Proof. reflexivity. Qed.

Lemma normalize_Some t t' :
  normalize (Some t) = Some t' -> t' = normalized t /\ TimeClip t' = Some t'.
Proof.
  unfold normalize, getUTCFullYear, getUTCMonth, getUTCDate, normalized.
  cbn [fmap option_fmap option_map UTC]. unfold MakeDate, MakeTime.
  rewrite !Z.mul_0_l, !Z.add_0_r. unfold of_number.
  destruct (TimeClip _) as [x|] eqn:Hx; [|done]. cbn.
  intros Hc. pose proof (TimeClip_Some _ _ Hc) as ->.
  pose proof (TimeClip_Some _ _ Hx) as <-. done.
Qed.

Lemma YearFromTime_eq t : YearFromTime t = YearFromDay (Day t).
Proof. reflexivity. Qed.

Lemma MakeFullYear_cases y :
  (0 <= y <= 99 /\ MakeFullYear y = 1900 + y) \/
  (~ (0 <= y <= 99) /\ MakeFullYear y = y).
Proof.
  unfold MakeFullYear. destruct ((0 <=? y) && (y <=? 99)) eqn:Hc.
  - apply andb_true_iff in Hc as [H0 H99]. apply Z.leb_le in H0, H99. left. lia.
  - apply andb_false_iff in Hc. rewrite !Z.leb_gt in Hc. right. lia.
Qed.

Lemma MakeDay_month y m dt :
  0 <= m <= 11 ->
  MakeDay y m dt
  = DayFromYear y + month_start m (if DaysInYear y =? 366 then 1 else 0) + dt - 1.
Proof.
  intros Hm. unfold MakeDay.
  rewrite (Z.div_small m 12), (Z.mod_small m 12) by lia. by rewrite Z.add_0_r.
Qed.

(** The day that [normalize] makes of an instant. *)
Lemma normalized_day t :
  Day (normalized t)
  = MakeDay (MakeFullYear (YearFromTime t)) (MonthFromTime t) (DateFromTime t).
Proof. unfold normalized. apply Day_midnight. Qed.

Lemma normalized_midnight t : Day (normalized t) * msPerDay = normalized t.
Proof. rewrite normalized_day. unfold normalized. reflexivity. Qed.

Lemma DaysInYear_1900 y : 1 <= y <= 99 -> DaysInYear (1900 + y) = DaysInYear y.
Proof.
  intros Hy. unfold DaysInYear.
  assert (H4 : (1900 + y) mod 4 = y mod 4) by (Z.div_mod_to_equations; lia).
  assert (H100 : (1900 + y) mod 100 = y mod 100) by (Z.div_mod_to_equations; lia).
  assert (Hy100 : y mod 100 <> 0) by (Z.div_mod_to_equations; lia).
  rewrite H4, H100. apply Z.eqb_neq in Hy100. rewrite Hy100. simpl.
  by destruct (y mod 4 =? 0).
Qed.

Lemma InLeapYear_eq t :
  InLeapYear t = if DaysInYear (YearFromTime t) =? 366 then 1 else 0.
Proof. reflexivity. Qed.

Lemma DayWithinYear_eq t : DayWithinYear t = Day t - DayFromYear (YearFromTime t).
Proof. reflexivity. Qed.

Lemma DateFromTime_eq t :
  DateFromTime t = DayWithinYear t - month_start (MonthFromTime t) (InLeapYear t) + 1.
Proof. reflexivity. Qed.

Lemma MonthFromTime_eq t :
  MonthFromTime t =
  let d := DayWithinYear t in
  let leap := InLeapYear t in
  if d <? 31 then 0
  else if d <? 59 + leap then 1
  else if d <? 90 + leap then 2
  else if d <? 120 + leap then 3
  else if d <? 151 + leap then 4
  else if d <? 181 + leap then 5
  else if d <? 212 + leap then 6
  else if d <? 243 + leap then 7
  else if d <? 273 + leap then 8
  else if d <? 304 + leap then 9
  else if d <? 334 + leap then 10
  else 11.
Proof. reflexivity. Qed.

Lemma msPerDay_eq : msPerDay = 86400000.
Proof. reflexivity. Qed.

Lemma DayFromYear_1900 : DayFromYear 1900 = -25567.
Proof. reflexivity. Qed.

Lemma DayFromYear_2000 : DayFromYear 2000 = 10957.
Proof. reflexivity. Qed.

(** In the years 1 to 99 the day moves by the days of 1900 years. *)
Lemma shifted_day t :
  1 <= YearFromTime t <= 99 ->
  Day (normalized t) = DayFromYear (1900 + YearFromTime t) + DayWithinYear t.
Proof.
  intros Hy. rewrite normalized_day.
  destruct (MakeFullYear_cases (YearFromTime t)) as [[_ ->]|[Hn _]]; [|lia].
  rewrite MakeDay_month by apply MonthFromTime_range.
  rewrite DaysInYear_1900, <- InLeapYear_eq, DateFromTime_eq by done. lia.
Qed.

(** [normalize] returns what it computes when that is a time value. *)
Lemma normalize_intro t :
  TimeClip (normalized t) = Some (normalized t) ->
  normalize (Some t) = Some (normalized t).
Proof.
  intros Hc. unfold normalize, getUTCFullYear, getUTCMonth, getUTCDate.
  cbn [fmap option_fmap option_map UTC]. unfold MakeDate, MakeTime.
  rewrite !Z.mul_0_l, !Z.add_0_r. rewrite normalized_eq in Hc.
  rewrite normalized_eq, Hc. cbn. exact Hc.
Qed.

Lemma DayFromYear_100_1900 : DayFromYear 100 < DayFromYear 1900.
Proof. reflexivity. Qed.

(** The year of what [normalize] makes is never one of 0 to 99. *)
Lemma normalized_year t :
  ~ (0 <= YearFromTime (normalized t) <= 99).
Proof.
  rewrite (YearFromTime_eq (normalized t)), normalized_day.
  destruct (MakeFullYear_cases (YearFromTime t)) as [[Hy ->]|[Hy ->]].
  - rewrite MakeDay_month by apply MonthFromTime_range.
    pose proof (DateFromTime_range t) as Hd.
    pose proof (month_start_nonneg (MonthFromTime t)
                  (if DaysInYear (1900 + YearFromTime t) =? 366 then 1 else 0)
                  ltac:(case_match; lia)) as Hms.
    intros Hr.
    match type of Hr with
    | 0 <= YearFromDay ?d <= 99 => pose proof (YearFromDay_spec d) as Hs
    end.
    match type of Hr with
    | 0 <= ?yd <= 99 => pose proof (DayFromYear_mono (yd + 1) 100 ltac:(lia)) as H1
    end.
    pose proof (DayFromYear_mono 1900 (1900 + YearFromTime t) ltac:(lia)) as H2.
    pose proof DayFromYear_100_1900. lia.
  - rewrite MakeDay_of_fields, <- YearFromTime_eq. done.
Qed.

(** What [normalize] returns lies at the start of a day. *)
Lemma normalize_within_day d t' : normalize d = Some t' -> TimeWithinDay t' = 0.
Proof.
  destruct d as [t|]; [|done]. intros [-> _]%normalize_Some.
  rewrite normalized_eq. unfold TimeWithinDay. by apply Z.mod_mul.
Qed.

End NormalizeFacts.

(** X6. Whatever date [normalizeDate] returns is a UTC midnight within
    the range of time values, for every input, the years 0 to 99
    included; and an Invalid Date stays one. *)
Theorem normalize_gives_midnight (d : option Z) (t' : Z) :
  normalize None = None /\
  (normalize d = Some t' ->
   JsDate.TimeWithinDay t' = 0 /\ JsDate.HourFromTime t' = 0 /\
   JsDate.Day t' * JsDate.msPerDay = t' /\ JsDate.TimeClip t' = Some t').
Proof.
  split; [done|]. destruct d as [t|]; [|done].
  intros [-> Hc]%NormalizeFacts.normalize_Some. split_and!; [| | |done].
  - unfold JsDate.TimeWithinDay, normalized. apply Z.mod_mul. done.
  - unfold JsDate.HourFromTime, normalized, JsDate.msPerDay, JsDate.msPerHour.
    replace (_ * 86400000) with ((JsDate.MakeDay (JsDate.MakeFullYear (JsDate.YearFromTime t))
      (JsDate.MonthFromTime t) (JsDate.DateFromTime t) * 24) * 3600000) by lia.
    rewrite Z.div_mul by done. apply Z.mod_mul. done.
  - apply NormalizeFacts.normalized_midnight.
Qed.

(** X7. [normalizeDate] is idempotent: a date that it has returned is
    returned as it is. *)
Theorem normalize_idempotent (d : option Z) :
  normalize (normalize d) = normalize d.
Proof.
  destruct (normalize d) as [t'|] eqn:Hn; [|done].
  destruct d as [t|]; [|done].
  apply NormalizeFacts.normalize_Some in Hn as [-> Hc].
  rewrite DateFacts.normalize_midnight; [|done|apply NormalizeFacts.normalized_year].
  by rewrite NormalizeFacts.normalized_midnight.
Qed.

(** X8. What becomes of a date of the years 1 to 99: [normalizeDate]
    returns the UTC midnight of the same month and day 1900 years
    later, the time value that [Date.UTC] gives for the year plus 1900,
    the month and the day. *)
Theorem normalize_first_century (t : Z) :
  1 <= JsDate.YearFromTime t <= 99 ->
  exists t', normalize (Some t) = Some t' /\
    t' = JsDate.MakeDay (1900 + JsDate.YearFromTime t) (JsDate.MonthFromTime t)
           (JsDate.DateFromTime t) * JsDate.msPerDay /\
    JsDate.TimeWithinDay t' = 0 /\
    JsDate.YearFromTime t' = 1900 + JsDate.YearFromTime t /\
    JsDate.MonthFromTime t' = JsDate.MonthFromTime t /\
    JsDate.DateFromTime t' = JsDate.DateFromTime t.
Proof.
  intros Hy.
  pose proof (NormalizeFacts.shifted_day t Hy) as Hd.
  pose proof (NormalizeFacts.DaysInYear_1900 _ Hy) as Hleap.
  pose proof (NormalizeFacts.DayWithinYear_range t) as Hw.
  assert (Hyear : JsDate.YearFromTime (normalized t)
                  = 1900 + JsDate.YearFromTime t).
  { rewrite NormalizeFacts.YearFromTime_eq, Hd. apply DateFacts.YearFromDay_unique.
    pose proof (DateFacts.DaysInYear_spec (1900 + JsDate.YearFromTime t)). lia. }
  assert (Hwithin : JsDate.DayWithinYear (normalized t)
                    = JsDate.DayWithinYear t).
  { rewrite (NormalizeFacts.DayWithinYear_eq (normalized t)), Hyear, Hd. lia. }
  assert (Hin : JsDate.InLeapYear (normalized t) = JsDate.InLeapYear t).
  { rewrite !NormalizeFacts.InLeapYear_eq. by rewrite Hyear, Hleap. }
  assert (Hfull : JsDate.MakeFullYear (JsDate.YearFromTime t)
                  = 1900 + JsDate.YearFromTime t).
  { destruct (NormalizeFacts.MakeFullYear_cases (JsDate.YearFromTime t))
      as [[_ Hf]|[Hn _]]; [exact Hf|lia]. }
  exists (normalized t). split_and!.
  - apply NormalizeFacts.normalize_intro.
    unfold JsDate.TimeClip. case_match eqn:Hlt; [|done]. exfalso.
    apply Z.ltb_lt in Hlt.
    rewrite <- NormalizeFacts.normalized_midnight, Hd in Hlt.
    pose proof (DateFacts.DayFromYear_mono 1900 (1900 + JsDate.YearFromTime t) ltac:(lia)).
    pose proof (DateFacts.DayFromYear_mono (1900 + JsDate.YearFromTime t) 2000 ltac:(lia)).
    pose proof NormalizeFacts.DayFromYear_1900. pose proof NormalizeFacts.DayFromYear_2000.
    assert (JsDate.DaysInYear (JsDate.YearFromTime t) <= 366)
      by (unfold JsDate.DaysInYear; repeat case_match; lia).
    pose proof NormalizeFacts.msPerDay_eq as Hms. rewrite Hms in Hlt. lia.
  - rewrite NormalizeFacts.normalized_eq, Hfull. reflexivity.
  - rewrite NormalizeFacts.normalized_eq. unfold JsDate.TimeWithinDay. by apply Z.mod_mul.
  - exact Hyear.
  - rewrite !NormalizeFacts.MonthFromTime_eq. by rewrite Hwithin, Hin.
  - rewrite !NormalizeFacts.DateFromTime_eq, !NormalizeFacts.MonthFromTime_eq.
    by rewrite Hwithin, Hin.
Qed.

(** ** The date that [toJSON] writes *)

Lemma pad_length_4 n : 0 <= n <= 9999 -> String.length (JsDate.pad 4 n) = 4%nat.
Proof.
  intros Hn. pose proof DateFacts.pad_width_all as Hall.
  apply andb_true_iff in Hall as [Hall _]. rewrite forallb_forall in Hall.
  specialize (Hall n). rewrite <- list_elem_of_In, elem_of_seqZ in Hall.
  specialize (Hall ltac:(lia)). apply andb_true_iff in Hall as [Hall _].
  by apply Nat.eqb_eq in Hall.
Qed.

Lemma pad_length_2 n : 0 <= n <= 99 -> String.length (JsDate.pad 2 n) = 2%nat.
Proof.
  intros Hn. pose proof DateFacts.pad_width_all as Hall.
  apply andb_true_iff in Hall as [_ Hall]. rewrite forallb_forall in Hall.
  specialize (Hall n). rewrite <- list_elem_of_In, elem_of_seqZ in Hall.
  specialize (Hall ltac:(lia)). apply andb_true_iff in Hall as [Hall _].
  by apply Nat.eqb_eq in Hall.
Qed.

(** Up to the year 9999 the ISO date has ten characters. *)
Lemma iso_date_length t :
  0 <= JsDate.YearFromTime t <= 9999 -> String.length (JsDate.iso_date t) = 10%nat.
Proof.
  intros Hy. unfold JsDate.iso_date, JsDate.iso_year.
  replace ((0 <=? JsDate.YearFromTime t) && (JsDate.YearFromTime t <=? 9999)) with true
    by (symmetry; apply andb_true_iff; rewrite !Z.leb_le; lia).
  pose proof (DateFacts.MonthFromTime_range t). pose proof (NormalizeFacts.DateFromTime_range t).
  rewrite !length_append, pad_length_4, !pad_length_2 by lia. reflexivity.
Qed.

(** X9. [toJSON] throws exactly on a document without a date. On any
    other it copies every field but the date, of which it writes the ISO
    date of the stored instant: ten characters, YYYY-MM-DD, up to the
    year 9999. *)
Theorem toJSON_outcome `{Collaborators} (d : Doc) (ev : option Event) :
  match date (doc d) with
  | None => toJSON (d, ev) = inl TypeError
  | Some t =>
      exists j, toJSON (d, ev) = inr j /\
        json_date j = JsDate.iso_date t /\
        (0 <= JsDate.YearFromTime t <= 9999 -> String.length (json_date j) = 10%nat) /\
        (json_id j, json_eventId j, json_startTime j, json_endTime j, json_purpose j,
         json_status j, json_bookedBy j, json_createdBy j)
        = (doc_id d, ev, startTime (doc d), endTime (doc d), purpose (doc d),
           status (doc d), bookedBy (doc d), createdBy (doc d))
  end.
Proof.
  unfold toJSON. destruct (date (doc d)) as [t|]; [|done]. simpl.
  eexists. split; [done|]. simpl. rewrite DateFacts.iso_string_date. simpl.
  split_and!; [done| |done]. apply iso_date_length.
Qed.

(** ** [trim] *)

Lemma append_nil_r (s : string) : s +:+ "" = s.
Proof.
  induction s as [|c s IH]; [done|]. change (String c (s +:+ "") = String c s). by rewrite IH.
Qed.

Lemma rev_string_app s acc : Js.rev_string s acc = Js.rev_string s "" +:+ acc.
Proof.
  revert acc. induction s as [|c s IH]; intros acc; [done|]. simpl.
  rewrite (IH (String c acc)), (IH (String c "")). by rewrite append_assoc.
Qed.

Lemma rev_string_append a b :
  Js.rev_string (a +:+ b) "" = Js.rev_string b "" +:+ Js.rev_string a "".
Proof.
  induction a as [|c a IH]; [by rewrite append_nil_r|].
  change (Js.rev_string (a +:+ b) (String c "") = Js.rev_string b "" +:+ Js.rev_string a (String c "")).
  rewrite rev_string_app, IH, (rev_string_app a (String c "")). by rewrite append_assoc.
Qed.

Lemma rev_string_involutive s : Js.rev_string (Js.rev_string s "") "" = s.
Proof.
  induction s as [|c s IH]; [done|]. simpl.
  rewrite (rev_string_app s), rev_string_append, IH. done.
Qed.

Lemma drop_white_starts s : starts_black (Js.drop_white s).
Proof.
  induction s as [|c s IH]; [done|]. simpl. by destruct (Js.is_white c) eqn:Hc.
Qed.

Lemma drop_white_id s : starts_black s -> Js.drop_white s = s.
Proof. destruct s as [|c s]; [done|]. simpl. by intros ->. Qed.

(** What [drop_white] leaves is what follows a run of white space. *)
Lemma drop_white_suffix s : exists w, s = w +:+ Js.drop_white s.
Proof.
  induction s as [|c s [w IH]]; [by exists ""|]. simpl.
  destruct (Js.is_white c); [|by exists ""].
  exists (String c w). change (String c s = String c (w +:+ Js.drop_white s)). by rewrite <- IH.
Qed.

Lemma starts_black_append a b : a <> "" -> starts_black (a +:+ b) -> starts_black a.
Proof. by destruct a. Qed.

Lemma starts_black_prefix a b : starts_black a -> a <> "" -> starts_black (a +:+ b).
Proof. by destruct a. Qed.

(** A trimmed string has no white space left at either end: trimming it
    again changes nothing. *)
Lemma trim_idempotent s : Js.trim (Js.trim s) = Js.trim s.
Proof.
  unfold Js.trim.
  set (u := Js.drop_white s).
  set (v := Js.drop_white (Js.rev_string u "")).
  assert (Hv : starts_black v) by apply drop_white_starts.
  assert (Hrv : starts_black (Js.rev_string v "")).
  { destruct (drop_white_suffix (Js.rev_string u "")) as [w Hw]. fold v in Hw.
    apply (f_equal (fun x => Js.rev_string x "")) in Hw.
    rewrite rev_string_involutive, rev_string_append in Hw.
    destruct (Js.rev_string v "") as [|c r] eqn:Hr; [done|].
    pose proof (drop_white_starts s) as Hu. fold u in Hu. rewrite Hw in Hu.
    by apply starts_black_append in Hu. }
  rewrite (drop_white_id _ Hrv), rev_string_involutive. by rewrite (drop_white_id _ Hv).
Qed.

(** * Further properties of the handlers *)

Section Operations.
Context `{Collaborators}.

Ltac run_handler :=
  unfold perform, create, update, remove, book, cancel, handle, respond,
    send_slot, when_truthy, Event_findById, Slot_findById, Slot_findById_populate,
    save, deleteOne, bind, ret, throw, record, get_slots, get_events, put_slots in *;
  simpl in *.

(** What a delete does, to the record of the calls as well. *)
Lemma remove_cases_full req (st : Store) :
  match castObjectId (params_id req) ≫= (fun i => (fun s => (i, s)) <$> slots st !! i) with
  | None =>
      remove req st
      = (not_found,
         {| slots := slots st; events := events st;
            log := log st ++ [Slot_find (params_id req)] |})
  | Some (i, s) =>
      remove req st
      = ({| code := 200; payload := Message "Slot removed successfully" |},
         {| slots := delete i (slots st); events := events st;
            log := (log st ++ [Slot_find (params_id req)]) ++ [Slot_delete i] |})
  end.
Proof.
  unfold remove, not_found. run_handler.
  destruct (castObjectId (params_id req)) as [i|]; simpl; [|done].
  by destruct (slots st !! i) as [s|].
Qed.

(** Every operation either leaves the slots as they are and answers 400,
    404 or 500, or stores one slot under the identifier it is aimed at
    and answers with that slot, or deletes the slot it is aimed at. *)
Lemma perform_cases op (st : Store) :
  (slots (perform op st).2 = slots st /\
   (code (perform op st).1 = 400 \/ code (perform op st).1 = 404 \/
    code (perform op st).1 = 500))
  \/
  (exists i s', target op = Some i /\ written op st i s' /\ validate s' = true /\
     slots (perform op st).2 = <[i := s']> (slots st) /\
     exists j, toJSON (populate (events st) (i, s')) = inr j /\
       (perform op st).1 = {| code := success_code op; payload := Json (Some j) |})
  \/
  (exists req i s, op = Remove req /\ castObjectId (params_id req) = Some i /\
     slots st !! i = Some s /\
     slots (perform op st).2 = delete i (slots st) /\
     (perform op st).1 = {| code := 200; payload := Message "Slot removed successfully" |}).
Proof.
  destruct op as [env req|req|req|env req|req]; simpl.
  - destruct (create_cases env req st) as [_ [(Hc1 & Hc2 & Hsl)|Hok]].
    + left. split; [done|]. revert Hc1 Hc2. unfold create.
      repeat case_match; try (simpl; by auto).
      run_handler. repeat case_match; simplify_eq; simpl; auto.
      all: intros; try done; auto.
    + destruct Hok as (e & d & a & b & p & eid & ev & t & He & Hd & Ha & Hb & Hp & Hcast & Hev
                       & Hn & Hnone & Hok).
      simpl in Hok. destruct Hok as (Hv & Hsl & j & Hj & Hr).
      right; left. eexists (new_id env), _.
      split; [done|]. split; [|split; [exact Hv|split; [exact Hsl|]]].
      * split; [done|]. by exists e, d, a, b, p, eid, ev, t.
      * exists j. split; [|done]. unfold populate. simpl. by rewrite Hev.
  - destruct (update_cases req st) as [_ Hcases].
    destruct (castObjectId (params_id req)) as [i|] eqn:Hcast;
      [|left; destruct Hcases as [-> ->]; by auto].
    destruct (slots st !! i) as [s|] eqn:Hs;
      [|left; destruct Hcases as [-> ->]; by auto].
    destruct (validate (updated req s)) eqn:Hv;
      [|left; destruct Hcases as [-> ->]; by auto].
    destruct Hcases as (Hsl & j & Hj & Hr).
    right; left. exists i, (updated req s).
    split; [done|]. split; [by exists s|]. split; [done|]. split; [done|]. by exists j.
  - pose proof (remove_cases_full req st) as Hcases.
    destruct (castObjectId (params_id req)) as [i|] eqn:Hcast; simpl in Hcases;
      [|left; rewrite Hcases; by auto].
    destruct (slots st !! i) as [s|] eqn:Hs; simpl in Hcases;
      [|left; rewrite Hcases; by auto].
    right; right. exists req, i, s. rewrite Hcases. done.
  - destruct (book_cases env req st) as [_ Hcases].
    destruct (truthy (body req !! "name")) as [n|] eqn:Hn;
      [|left; rewrite Hcases; by auto].
    destruct (truthy (body req !! "email")) as [e|] eqn:He;
      [|left; rewrite Hcases; by auto].
    destruct (truthy (body req !! "enrollment")) as [en|] eqn:Hen;
      [|left; rewrite Hcases; by auto].
    destruct (castObjectId (params_id req)) as [i|] eqn:Hcast;
      [|left; destruct Hcases as [-> ->]; by auto].
    destruct (slots st !! i) as [s|] eqn:Hs;
      [|left; destruct Hcases as [-> ->]; by auto].
    destruct (status s) eqn:Hst; [|left; destruct Hcases as [-> ->]; by auto].
    simpl in Hcases. destruct (validate s) eqn:Hv;
      [|left; destruct Hcases as [-> ->]; by auto].
    destruct Hcases as (Hsl & j & Hj & Hr).
    right; left. eexists i, _.
    split; [done|]. split; [by exists s, n, e, en|].
    split; [by rewrite validate_with_booking|]. split; [exact Hsl|]. by exists j.
  - destruct (cancel_cases req st) as [_ Hcases].
    destruct (castObjectId (params_id req)) as [i|] eqn:Hcast;
      [|left; destruct Hcases as [-> ->]; by auto].
    destruct (slots st !! i) as [s|] eqn:Hs;
      [|left; destruct Hcases as [-> ->]; by auto].
    destruct (status s) eqn:Hst; [left; destruct Hcases as [-> ->]; by auto|].
    simpl in Hcases. destruct (validate s) eqn:Hv;
      [|left; destruct Hcases as [-> ->]; by auto].
    destruct Hcases as (Hsl & j & Hj & Hr).
    right; left. eexists i, _.
    split; [done|]. split; [by exists s|].
    split; [by rewrite validate_with_booking|]. split; [exact Hsl|]. by exists j.
Qed.


(** X11. The statuses of each route, as long as the store itself does
    not fail: a create answers 201, 400, 404 or 500 and never 200; an
    update 200, 404 or 500, so that a time or a date that the schema
    refuses is answered as a server error and not as a bad request; a
    delete 200 or 404; a book and a cancel 200, 400, 404 or 500. *)
Theorem response_code_allowed op (st : Store) :
  code (perform op st).1 ∈ allowed_codes op.
Proof.
  destruct op as [env req|req|req|env req|req]; simpl.
  - destruct (perform_cases (Create env req) st) as [[_ Hc]|[Hw|Hd]]; simpl in *.
    + destruct Hc as [-> | [-> | ->]]; set_solver.
    + destruct Hw as (i & s' & _ & _ & _ & _ & j & _ & ->). set_solver.
    + by destruct Hd as (r & i & s & ? & _).
  - destruct (update_cases req st) as [_ Hcases].
    destruct (castObjectId (params_id req)) as [i|];
      [|destruct Hcases as [-> _]; set_solver].
    destruct (slots st !! i) as [s|]; [|destruct Hcases as [-> _]; set_solver].
    destruct (validate (updated req s)); [|destruct Hcases as [-> _]; set_solver].
    destruct Hcases as (_ & j & _ & ->). set_solver.
  - pose proof (remove_cases_full req st) as Hcases.
    destruct (castObjectId (params_id req) ≫= _) as [[i s]|]; rewrite Hcases; set_solver.
  - destruct (perform_cases (Book env req) st) as [[_ Hc]|[Hw|Hd]]; simpl in *.
    + destruct Hc as [-> | [-> | ->]]; set_solver.
    + destruct Hw as (i & s' & _ & _ & _ & _ & j & _ & ->). set_solver.
    + by destruct Hd as (r & i & s & ? & _).
  - destruct (perform_cases (Cancel req) st) as [[_ Hc]|[Hw|Hd]]; simpl in *.
    + destruct Hc as [-> | [-> | ->]]; set_solver.
    + destruct Hw as (i & s' & _ & _ & _ & _ & j & _ & ->). set_solver.
    + by destruct Hd as (r & i & s & ? & _).
Qed.

(** X12. An operation touches no slot but the one it is aimed at: the
    one that the path names, or the new one of a create. *)
Theorem operation_frame op (st : Store) (k : N) :
  target op <> Some k ->
  slots (perform op st).2 !! k = slots st !! k.
Proof.
  intros Hk. destruct (perform_cases op st) as [[-> _]|[Hw|Hd]]; [done|..].
  - destruct Hw as (i & s' & Ht & _ & _ & -> & _).
    rewrite lookup_insert_ne; [done|]. intros ->. by rewrite Ht in Hk.
  - destruct Hd as (req & i & s & -> & Hc & _ & -> & _). simpl in Hk.
    rewrite lookup_delete_ne; [done|]. intros ->. by rewrite Hc in Hk.
Qed.

(** A slot that is in the store before and after an operation, and what
    the operation has made of it. *)
Lemma perform_same_slot op (st : Store) i s s' :
  slots st !! i = Some s -> slots (perform op st).2 !! i = Some s' ->
  s' = s \/ (target op = Some i /\ written op st i s').
Proof.
  intros Hs Hs'. destruct (perform_cases op st) as [[Hsl _]|[Hw|Hd]].
  - rewrite Hsl in Hs'. left. by simplify_eq.
  - destruct Hw as (k & x & Ht & Hw & _ & Hsl & _). rewrite Hsl in Hs'.
    destruct (decide (k = i)) as [->|Hne].
    + rewrite lookup_insert_eq in Hs'. simplify_eq. by right.
    + rewrite lookup_insert_ne in Hs' by done. left. by simplify_eq.
  - destruct Hd as (req & k & x & _ & _ & _ & Hsl & _). rewrite Hsl in Hs'.
    apply lookup_delete_Some in Hs' as [_ Hs']. left. by simplify_eq.
Qed.

(** X13. What no route changes. The event and the creator of a slot stay
    what the create made them; an update leaves the status and the
    booking alone; a book and a cancel leave the date, the times and the
    purpose alone; a create never overwrites a slot. *)
Theorem fields_kept op (st : Store) i s s' :
  slots st !! i = Some s ->
  slots (perform op st).2 !! i = Some s' ->
  eventId s' = eventId s /\ createdBy s' = createdBy s /\
  match op with
  | Update _ => status s' = status s /\ bookedBy s' = bookedBy s
  | Book _ _ | Cancel _ =>
      date s' = date s /\ startTime s' = startTime s /\ endTime s' = endTime s /\
      purpose s' = purpose s
  | Create _ _ | Remove _ => s' = s
  end.
Proof.
  intros Hs Hs'. destruct (perform_same_slot op st i s s' Hs Hs') as [->|[_ Hw]];
    [by destruct op|].
  destruct op as [env req|req|req|env req|req]; simpl in Hw.
  - destruct Hw as [Hnone _]. by rewrite Hnone in Hs.
  - destruct Hw as (s0 & Hs0 & ->). by simplify_eq.
  - done.
  - destruct Hw as (s0 & n & e & en & Hs0 & _ & _ & _ & _ & ->). by simplify_eq.
  - destruct Hw as (s0 & Hs0 & _ & ->). by simplify_eq.
Qed.

(** ** What every stored slot satisfies *)

Lemma validate_purpose s : validate s = true -> purpose s <> "".
Proof.
  unfold validate, required_string. intros Hv.
  repeat (apply andb_true_iff in Hv as [Hv ?]). intros Heq. by rewrite Heq in *.
Qed.

Lemma written_well_formed op (st : Store) i s' :
  (forall s, slots st !! i = Some s -> well_formed (events st) s) ->
  written op st i s' -> validate s' = true ->
  well_formed (events st) s'.
Proof.
  intros Hold Hw Hv. pose proof (validate_purpose _ Hv) as Hp.
  pose proof (validate_date _ Hv) as [t Ht].
  destruct op as [env req|req|req|env req|req]; simpl in Hw.
  - destruct Hw as (_ & e & d & a & b & p & eid & ev & t0 & _ & _ & _ & _ & _ & _ & Hev & Hn & ->).
    simpl in *. unfold well_formed; simpl. split_and!; try done.
    + exists eid. by rewrite Hev.
    + exists t0. split; [done|]. by eapply NormalizeFacts.normalize_within_day.
    + apply trim_idempotent.
  - destruct Hw as (s0 & Hs0 & ->).
    destruct (Hold _ Hs0) as (Hev & (t0 & Ht0 & Hmid) & Hcb & Hp0 & Htr & Hbk).
    unfold well_formed, updated in *; simpl in *. split_and!; try done.
    + exists t. split; [done|].
      destruct (truthy (body req !! "date")) as [d|].
      * by eapply NormalizeFacts.normalize_within_day.
      * by simplify_eq.
    + unfold trimmed. destruct (truthy (body req !! "purpose")) as [p|]; [|done].
      apply trim_idempotent.
  - done.
  - destruct Hw as (s0 & n & e & en & Hs0 & _ & _ & _ & _ & ->).
    destruct (Hold _ Hs0) as (Hev & Hdt & Hcb & Hp0 & Htr & Hbk).
    unfold well_formed; simpl. split_and!; try done.
    intros b [= <-]. simpl. unfold trimmed. by rewrite !trim_idempotent.
  - destruct Hw as (s0 & Hs0 & _ & ->).
    destruct (Hold _ Hs0) as (Hev & Hdt & Hcb & Hp0 & Htr & Hbk).
    unfold well_formed; simpl. split_and!; done.
Qed.

Lemma reachable_all_well_formed (st : Store) :
  reachable st -> forall i s, slots st !! i = Some s -> well_formed (events st) s.
Proof.
  induction 1 as [es|op st Hst IH]; intros i s Hs.
  - cbn in Hs. by rewrite lookup_empty in Hs.
  - rewrite perform_events.
    destruct (perform_cases op st) as [[Hsl _]|[Hw|Hd]].
    + rewrite Hsl in Hs. eauto.
    + destruct Hw as (k & x & _ & Hw & Hv & Hsl & _). rewrite Hsl in Hs.
      destruct (decide (k = i)) as [->|Hne].
      * rewrite lookup_insert_eq in Hs. simplify_eq.
        eapply written_well_formed; eauto.
      * rewrite lookup_insert_ne in Hs by done. eauto.
    + destruct Hd as (req & k & x & _ & _ & _ & Hsl & _). rewrite Hsl in Hs.
      apply lookup_delete_Some in Hs as [_ Hs]. eauto.
Qed.

(** X14. In every store that the operations reach, each slot names an
    event that exists (no operation here removes an event), has a date
    that is a UTC midnight, has a creator and a purpose that is not
    empty and carries no white space at its ends; and the name, the
    enrollment and the email of a booking carry none either. *)
Theorem reachable_well_formed (st : Store) i s :
  reachable st -> slots st !! i = Some s ->
  (exists e ev, eventId s = Some e /\ events st !! e = Some ev) /\
  (exists t, date s = Some t /\ JsDate.TimeWithinDay t = 0) /\
  is_Some (createdBy s) /\
  purpose s <> "" /\ Js.trim (purpose s) = purpose s /\
  (forall b, bookedBy s = Some b ->
     Js.trim (name b) = name b /\ Js.trim (enrollment b) = enrollment b /\
     Js.trim (email b) = email b).
Proof.
  intros Hreach Hs.
  destruct (reachable_all_well_formed st Hreach i s Hs)
    as ((e & He & [ev Hev]) & Hdt & Hcb & Hp & Htr & Hbk).
  split_and!; try done. by exists e, ev.
Qed.

(** ** Reading *)

Lemma toJSON_dated (d : Doc) (ev : option Event) t :
  date (doc d) = Some t ->
  toJSON (d, ev)
  = inr {| json_id := doc_id d; json_eventId := ev; json_date := JsDate.iso_date t;
           json_startTime := startTime (doc d); json_endTime := endTime (doc d);
           json_purpose := purpose (doc d); json_status := status (doc d);
           json_bookedBy := bookedBy (doc d); json_createdBy := createdBy (doc d) |}.
Proof.
  intros Ht. unfold toJSON. rewrite Ht. simpl. by rewrite DateFacts.iso_string_date.
Qed.

Lemma toJSON_id p j : toJSON p = inr j -> json_id j = doc_id p.1.
Proof.
  destruct p as [d ev]. unfold toJSON.
  destruct (JsDate.toISOString (date (doc d))); [|done]. by intros [= <-].
Qed.

(** X15. Reading one slot of a store that the operations have reached:
    404 when the identifier is no ObjectId or names no slot, and never
    500; otherwise 200 with the slot, its event in the place of
    [eventId] and the ISO date of its stored date as [date]. *)
Theorem get_by_id_outcome req (st : Store) :
  reachable st ->
  match castObjectId (params_id req) ≫= (fun i => (fun s => (i, s)) <$> slots st !! i) with
  | None => get_by_id req st = not_found
  | Some (i, s) =>
      exists ev t,
        eventId s ≫= (events st !!.) = Some ev /\ date s = Some t /\
        get_by_id req st
        = {| code := 200;
             payload := Json (Some
               {| json_id := i; json_eventId := Some ev;
                  json_date := JsDate.iso_date t;
                  json_startTime := startTime s; json_endTime := endTime s;
                  json_purpose := purpose s; json_status := status s;
                  json_bookedBy := bookedBy s; json_createdBy := createdBy s |}) |}
  end.
Proof.
  intros Hreach. unfold get_by_id.
  destruct (castObjectId (params_id req)) as [i|]; [|done]. cbn [mbind option_bind].
  destruct (slots st !! i) as [s|] eqn:Hs; [|done]. cbn [fmap option_fmap option_map].
  destruct (reachable_all_well_formed st Hreach i s Hs)
    as ((e & He & [ev Hev]) & (t & Ht & _) & _).
  exists ev, t. split; [by rewrite He|]. split; [done|].
  unfold populate. cbn [fst snd]. rewrite (toJSON_dated _ _ t) by done.
  cbn [doc doc_id]. rewrite He. cbn [mbind option_bind]. by rewrite Hev.
Qed.

(** X16. A read after a write. When an operation has answered 200 or
    201, reading the slot it was aimed at gives 404 after a delete and
    otherwise 200 with the very body that the operation has sent. *)
Theorem read_after_write op (st : Store) r i :
  target op = Some i ->
  castObjectId (params_id r) = Some i ->
  code (perform op st).1 = 200 \/ code (perform op st).1 = 201 ->
  get_by_id r (perform op st).2
  = match op with
    | Remove _ => not_found
    | _ => {| code := 200; payload := payload (perform op st).1 |}
    end.
Proof.
  intros Ht Hr Hcode. unfold get_by_id. rewrite Hr, perform_events.
  destruct (perform_cases op st) as [[_ Hc]|[Hw|Hd]]; [lia|..].
  - destruct Hw as (k & s' & Hk & Hw & _ & Hsl & j & Hj & Hresp).
    rewrite Ht in Hk. injection Hk as <-.
    rewrite Hsl, lookup_insert_eq, Hj, Hresp. by destruct op.
  - destruct Hd as (req & k & s & -> & Hk & _ & Hsl & _). simpl in Ht.
    rewrite Ht in Hk. injection Hk as <-. by rewrite Hsl, lookup_delete_eq.
Qed.

(** X17. A slot that a delete has removed is gone for every route: an
    update, a second delete, a cancel and a book that carries its three
    fields answer 404 and change nothing. *)
Theorem deleted_slot_is_gone req (st : Store) op :
  code (remove req st).1 = 200 ->
  target op = castObjectId (params_id req) ->
  match op with
  | Create _ _ => True
  | Book _ r =>
      is_Some (truthy (body r !! "name")) -> is_Some (truthy (body r !! "email")) ->
      is_Some (truthy (body r !! "enrollment")) ->
      (perform op (remove req st).2).1 = not_found /\
      slots (perform op (remove req st).2).2 = slots (remove req st).2
  | _ =>
      (perform op (remove req st).2).1 = not_found /\
      slots (perform op (remove req st).2).2 = slots (remove req st).2
  end.
Proof.
  intros Hcode Ht. pose proof (remove_cases_full req st) as Hrem.
  destruct (castObjectId (params_id req)) as [i|] eqn:Hi; simpl in Hrem;
    [|by rewrite Hrem in Hcode].
  destruct (slots st !! i) as [s|] eqn:Hs; simpl in Hrem; [|by rewrite Hrem in Hcode].
  assert (Hgone : slots (remove req st).2 !! i = None)
    by (rewrite Hrem; simpl; apply lookup_delete_eq).
  destruct op as [env r|r|r|env r|r]; simpl in *; [done|..].
  - destruct (update_cases r (remove req st).2) as [_ Hc].
    by rewrite Ht, Hgone in Hc.
  - pose proof (remove_cases_full r (remove req st).2) as Hc.
    rewrite Ht in Hc. simpl in Hc. rewrite Hgone in Hc. simpl in Hc. by rewrite Hc.
  - intros [n Hn] [e He] [en Hen]. destruct (book_cases env r (remove req st).2) as [_ Hc].
    by rewrite Hn, He, Hen, Ht, Hgone in Hc.
  - destruct (cancel_cases r (remove req st).2) as [_ Hc].
    by rewrite Ht, Hgone in Hc.
Qed.

Lemma toJSON_all_Forall2 ps js :
  toJSON_all ps = inr js <-> Forall2 (fun p j => toJSON p = inr j) ps js.
Proof.
  revert js. induction ps as [|p ps IH]; intros js; simpl.
  - split; [by intros [= <-]; constructor|]. by inversion 1.
  - split.
    + destruct (toJSON p) as [e|j] eqn:Hp; [done|].
      destruct (toJSON_all ps) as [e|js'] eqn:Hps; [done|].
      intros [= <-]. constructor; [done|]. by apply IH.
    + inversion 1 as [|? j ? js' Hj Hjs']; subst. rewrite Hj.
      apply IH in Hjs'. by rewrite Hjs'.
Qed.

(** The listing of documents that all have a date. *)
Lemma send_slots_dated (es : gmap N Event) (l : list (N * Slot)) :
  (forall p, p ∈ l -> is_Some (date p.2)) ->
  exists js,
    send_slots (populate es <$> l) = {| list_code := 200; list_payload := Slots js |} /\
    json_id <$> js = l.*1 /\
    (forall j, j ∈ js <-> exists p, p ∈ l /\ toJSON (populate es p) = inr j).
Proof.
  intros Hl. unfold send_slots.
  assert (Hall : exists js, Forall2 (fun p j => toJSON p = inr j) (populate es <$> l) js).
  { induction l as [|p l IH]; [by exists []|].
    destruct IH as [js Hjs]; [intros q Hq; apply Hl; by right|].
    destruct (Hl p ltac:(by left)) as [t Ht].
    eexists (_ :: js). simpl. constructor; [|done].
    by apply (toJSON_dated _ _ t). }
  destruct Hall as [js Hjs]. exists js.
  pose proof (proj2 (toJSON_all_Forall2 _ _) Hjs) as ->. split; [done|].
  clear Hl. revert js Hjs. induction l as [|p l IH]; intros js Hjs.
  - inversion Hjs; subst. split; [done|]. intros j. split; [by intros ?%elem_of_nil|].
    by intros (p & ?%elem_of_nil & _).
  - simpl in Hjs. inversion Hjs as [|? j ? js' Hj Hjs']; subst.
    destruct (IH _ Hjs') as [Hids Hmem]. split.
    + rewrite !fmap_cons, Hids, (toJSON_id _ _ Hj). done.
    + intros j'. rewrite elem_of_cons, Hmem. split.
      * intros [->|(q & Hq & Hqj)]; [exists p; split; [by left|done]|].
        exists q. split; [by right|done].
      * intros (q & [->|Hq]%elem_of_cons & Hqj); [left; congruence|].
        right. by exists q.
Qed.

Lemma get_all_reachable (st : Store) :
  reachable st ->
  exists js,
    get_all st = {| list_code := 200; list_payload := Slots js |} /\
    length js = size (slots st) /\
    NoDup (json_id <$> js) /\
    (forall j, j ∈ js <->
       exists i s, slots st !! i = Some s /\
         toJSON (populate (events st) (i, s)) = inr j).
Proof.
  intros Hreach. unfold get_all.
  destruct (send_slots_dated (events st) (map_to_list (slots st))) as (js & -> & Hids & Hmem).
  { intros [i s] Hp%elem_of_map_to_list.
    destruct (reachable_all_well_formed st Hreach i s Hp) as (_ & (t & Ht & _) & _).
    by exists t. }
  exists js. split_and!; [done| | |].
  - rewrite <- (length_fmap json_id), Hids, length_fmap. apply length_map_to_list.
  - rewrite Hids. apply NoDup_fst_map_to_list.
  - intros j. rewrite Hmem. split.
    + intros ([i s] & Hp%elem_of_map_to_list & Hj). by exists i, s.
    + intros (i & s & Hs & Hj). exists (i, s). by rewrite elem_of_map_to_list.
Qed.

(** X18. Listing the slots of a store that the operations have reached
    answers 200 with every slot of the store once, each as a read of it
    alone gives it. *)
Theorem get_all_lists_every_slot (st : Store) :
  reachable st ->
  exists js,
    get_all st = {| list_code := 200; list_payload := Slots js |} /\
    length js = size (slots st) /\
    NoDup (json_id <$> js) /\
    (forall j, j ∈ js <->
       exists i s, slots st !! i = Some s /\
         toJSON (populate (events st) (i, s)) = inr j).
Proof. apply get_all_reachable. Qed.

(** X19. A write shows in the listing. After an operation on a store
    that the operations have reached has answered 200 or 201, the list
    of all slots holds the slot that the operation has sent, and after
    a delete it holds no slot with the identifier that was deleted. *)
Theorem listing_after_write op (st : Store) i :
  reachable st ->
  target op = Some i ->
  code (perform op st).1 = 200 \/ code (perform op st).1 = 201 ->
  exists js,
    get_all (perform op st).2 = {| list_code := 200; list_payload := Slots js |} /\
    match op with
    | Remove _ => forall j, j ∈ js -> json_id j <> i
    | _ => exists j, payload (perform op st).1 = Json (Some j) /\ j ∈ js
    end.
Proof.
  intros Hreach Ht Hcode.
  destruct (get_all_reachable (perform op st).2 (reachable_perform op st Hreach))
    as (js & Hg & _ & _ & Hmem).
  exists js. split; [exact Hg|]. rewrite perform_events in Hmem.
  destruct (perform_cases op st) as [[_ Hc]|[Hw|Hd]]; [lia|..].
  - destruct Hw as (k & s' & Hk & Hw & _ & Hsl & j & Hj & Hresp).
    rewrite Ht in Hk. injection Hk as <-.
    assert (Hin : j ∈ js).
    { apply Hmem. exists i, s'. by rewrite Hsl, lookup_insert_eq. }
    destruct op; simpl in Hw; try done; exists j; by rewrite Hresp.
  - destruct Hd as (req & k & s & -> & Hk & _ & Hsl & _). simpl in Ht.
    rewrite Ht in Hk. injection Hk as <-.
    intros j (k & x & Hx & Hj)%Hmem Heq.
    apply toJSON_id in Hj. simpl in Hj. rewrite Hj in Heq. subst k.
    by rewrite Hsl, Heq, lookup_delete_eq in Hx.
Qed.

(** X20. Listing by event. An identifier that is no ObjectId is answered
    with 500, not with 404 and not with an empty list. Otherwise, on a
    store that the operations have reached, the answer is 200 with the
    slots of that event and no other, each once. *)
Theorem get_by_event_outcome (event_id : string) (st : Store) :
  match castObjectId event_id with
  | None =>
      get_by_event event_id st
      = {| list_code := 500;
           list_payload := ListFailure "Server error" CastError_ObjectId |}
  | Some e =>
      reachable st ->
      exists js,
        get_by_event event_id st = {| list_code := 200; list_payload := Slots js |} /\
        NoDup (json_id <$> js) /\
        (forall j, j ∈ js <->
           exists i s, slots st !! i = Some s /\ eventId s = Some e /\
             toJSON (populate (events st) (i, s)) = inr j)
  end.
Proof.
  unfold get_by_event. destruct (castObjectId event_id) as [e|]; [|done].
  intros Hreach.
  destruct (send_slots_dated (events st)
              (map_to_list (filter (fun p => eventId p.2 = Some e) (slots st))))
    as (js & -> & Hids & Hmem).
  { intros [i s] [Hp _]%elem_of_map_to_list%map_lookup_filter_Some.
    destruct (reachable_all_well_formed st Hreach i s Hp) as (_ & (t & Ht & _) & _).
    by exists t. }
  exists js. split_and!; [done| |].
  - rewrite Hids. apply NoDup_fst_map_to_list.
  - intros j. rewrite Hmem. split.
    + intros ([i s] & [Hp He]%elem_of_map_to_list%map_lookup_filter_Some & Hj).
      by exists i, s.
    + intros (i & s & Hs & He & Hj). exists (i, s).
      by rewrite elem_of_map_to_list, map_lookup_filter_Some.
Qed.

(** ** Operations one after the other *)

(** X21. Booking a slot and then cancelling the booking: the cancel is
    answered with 200; the slot, which was available, is available
    again and without [bookedBy]; its event, date, times, purpose and
    creator are what they were before the booking; and every other slot
    is as it was. *)
Theorem book_then_cancel_frees_slot env req req' (st : Store) :
  code (book env req st).1 = 200 ->
  castObjectId (params_id req') = castObjectId (params_id req) ->
  code (cancel req' (book env req st).2).1 = 200 /\
  exists i s s',
    castObjectId (params_id req) = Some i /\
    slots st !! i = Some s /\
    slots (cancel req' (book env req st).2).2 !! i = Some s' /\
    status s = available /\ status s' = available /\ bookedBy s' = None /\
    (eventId s', date s', startTime s', endTime s', purpose s', createdBy s')
    = (eventId s, date s, startTime s, endTime s, purpose s, createdBy s) /\
    forall k, k <> i ->
      slots (cancel req' (book env req st).2).2 !! k = slots st !! k.
Proof.
  intros Hcode Hid.
  destruct (perform_cases (Book env req) st) as [[_ Hc]|[Hw|Hd]]; simpl in *; [lia| |].
  - destruct Hw as (i & s' & Hi & (s & n & e & en & Hs & Hst & _ & _ & _ & ->) & Hv & Hsl & _).
    destruct (cancel_cases req' (book env req st).2) as [_ Hcases].
    rewrite Hid, Hi, Hsl, lookup_insert_eq in Hcases. simpl in Hcases.
    rewrite validate_with_booking in Hcases. rewrite validate_with_booking in Hv.
    rewrite Hv in Hcases. destruct Hcases as (Hsl' & j & _ & Hr).
    rewrite Hr. split; [done|]. eexists i, s, _. rewrite Hsl'.
    split; [done|]. split; [done|]. split; [apply lookup_insert_eq|].
    split; [done|]. split; [done|]. split; [done|]. split; [done|].
    intros k Hk. by rewrite !lookup_insert_ne.
  - by destruct Hd as (r & i & s & ? & _).
Qed.

(** X22. A slot that has been booked cannot be booked again: whatever
    the second request carries, it is answered with 400 and the first
    booking stays. *)
Theorem booked_slot_refuses_booking env req env' req' (st : Store) :
  code (book env req st).1 = 200 ->
  castObjectId (params_id req') = castObjectId (params_id req) ->
  code (book env' req' (book env req st).2).1 = 400 /\
  slots (book env' req' (book env req st).2).2 = slots (book env req st).2.
Proof.
  intros Hcode Hid.
  destruct (perform_cases (Book env req) st) as [[_ Hc]|[Hw|Hd]]; simpl in *; [lia| |].
  - destruct Hw as (i & s' & Hi & (s & n & e & en & Hs & Hst & _ & _ & _ & ->) & Hv & Hsl & _).
    destruct (book_cases env' req' (book env req st).2) as [_ Hcases].
    destruct (truthy (body req' !! "name")); [|by rewrite Hcases].
    destruct (truthy (body req' !! "email")); [|by rewrite Hcases].
    destruct (truthy (body req' !! "enrollment")); [|by rewrite Hcases].
    rewrite Hid, Hi, Hsl, lookup_insert_eq in Hcases. simpl in Hcases.
    destruct Hcases as [Hr Hsl']. by rewrite Hr, Hsl', Hsl.
  - by destruct Hd as (r & i & s & ? & _).
Qed.

Lemma updated_twice req s : updated req (updated req s) = updated req s.
Proof. unfold updated; simpl. f_equal; by case_match. Qed.

(** X23. An update is idempotent: sending the same request a second
    time gets the same answer and leaves the slots as the first has
    left them. *)
Theorem update_idempotent req (st : Store) :
  (update req (update req st).2).1 = (update req st).1 /\
  slots (update req (update req st).2).2 = slots (update req st).2.
Proof.
  destruct (update_cases req st) as [Hev Hcases].
  destruct (update_cases req (update req st).2) as [_ Hcases2].
  destruct (castObjectId (params_id req)) as [i|].
  - destruct (slots st !! i) as [s|] eqn:Hs.
    + destruct (validate (updated req s)) eqn:Hv.
      * destruct Hcases as (Hsl & j & Hj & Hr).
        rewrite Hsl, lookup_insert_eq, updated_twice, Hv in Hcases2.
        destruct Hcases2 as (Hsl2 & j2 & Hj2 & Hr2).
        rewrite Hev in Hj2. assert (j2 = j) as -> by (simpl in *; congruence).
        rewrite Hr2, Hr, Hsl2, Hsl. split; [done|]. apply insert_insert_eq.
      * destruct Hcases as [Hr Hsl]. rewrite Hsl, Hs, Hv in Hcases2.
        destruct Hcases2 as [Hr2 Hsl2]. by rewrite Hr2, Hr, Hsl2, Hsl.
    + destruct Hcases as [Hr Hsl]. rewrite Hsl, Hs in Hcases2.
      destruct Hcases2 as [Hr2 Hsl2]. by rewrite Hr2, Hr, Hsl2, Hsl.
  - destruct Hcases as [Hr Hsl]. destruct Hcases2 as [Hr2 Hsl2].
    by rewrite Hr2, Hr, Hsl2, Hsl.
Qed.

(** X24. A create whose five fields are present but whose event is not
    found: one call to the store, the lookup of the event, and then 404
    when there is no such event and 500 when the identifier is no
    ObjectId; no slot is written. *)
Theorem create_unknown_event env req (st : Store) e d a b p :
  truthy (body req !! "eventId") = Some e ->
  truthy (body req !! "date") = Some d ->
  truthy (body req !! "startTime") = Some a ->
  truthy (body req !! "endTime") = Some b ->
  truthy (body req !! "purpose") = Some p ->
  castObjectId e ≫= (events st !!.) = None ->
  create env req st
  = (match castObjectId e with
     | Some _ => {| code := 404; payload := Message "Event not found" |}
     | None => server_error CastError_ObjectId
     end,
     {| slots := slots st; events := events st; log := log st ++ [Event_find e] |}).
Proof.
  intros He Hd Ha Hb Hp Hev. unfold create. rewrite He, Hd, Ha, Hb, Hp.
  run_handler. destruct (castObjectId e) as [eid|]; simpl in *; [|done].
  by rewrite Hev.
Qed.

(** X25. A create that finds its event but whose date is invalid, whose
    start or end time the pattern refuses after the conversion, or whose
    purpose is white space only, is answered with 500 and the validation
    error, not with 400; the slot is not written. *)
Theorem create_validation_failure env req (st : Store) e d a b p ev :
  truthy (body req !! "eventId") = Some e ->
  truthy (body req !! "date") = Some d ->
  truthy (body req !! "startTime") = Some a ->
  truthy (body req !! "endTime") = Some b ->
  truthy (body req !! "purpose") = Some p ->
  castObjectId e ≫= (events st !!.) = Some ev ->
  normalizeDate d = None \/
  regex_test time_pattern (convertTo12Hour a) = false \/
  regex_test time_pattern (convertTo12Hour b) = false \/
  Js.trim p = "" ->
  create env req st
  = (server_error ValidationError,
     {| slots := slots st; events := events st;
        log := (log st ++ [Event_find e]) ++ [Slot_save (new_id env)] |}).
Proof.
  intros He Hd Ha Hb Hp Hev Hbad. unfold create. rewrite He, Hd, Ha, Hb, Hp.
  run_handler. destruct (castObjectId e) as [eid|]; simpl in *; [|done].
  rewrite Hev. simpl.
  match goal with |- context [validate ?x] => assert (validate x = false) as -> end; [|done].
  unfold validate, required_string, match_validator. simpl.
  destruct Hbad as [Hbad|[Hbad|[Hbad|Hbad]]]; rewrite Hbad; simpl.
  - by rewrite ?andb_false_r.
  - destruct (String.eqb (convertTo12Hour a) ""); simpl; by rewrite ?andb_false_r.
  - destruct (String.eqb (convertTo12Hour b) ""); simpl; by rewrite ?andb_false_r.
  - by rewrite ?andb_false_r.
Qed.

(** X26. No request makes more than three calls to the store, and what
    a request records is added after what was recorded before. *)
Theorem store_calls_bounded op (st : Store) :
  exists calls,
    log (perform op st).2 = log st ++ calls /\ (length calls <= 3)%nat.
Proof.
  destruct op as [env req|req|req|env req|req]; run_handler;
    repeat case_match; simpl; simplify_eq; simpl;
    eexists; (split; [rewrite <- ?app_assoc; try reflexivity; by rewrite app_nil_r
                     |simpl; lia]).
Qed.

(** ** The create and the delete that succeed *)

Lemma matching_not_empty v : regex_test time_pattern v = true -> String.eqb v "" = false.
Proof. intros Hv. apply String.eqb_neq. by intros ->. Qed.

(** X27. When a create succeeds, and what it stores. With the five
    fields present, the event found, a date that parses, times that the
    pattern accepts after the conversion, a purpose that is not white
    space only and a fresh identifier, the answer is 201 with the new
    slot: the event, the normalized date, the converted times, the
    trimmed purpose, the status available, no booking, and the
    administrator of the request as creator; that slot is stored, after
    the lookup of the event and before the read that the answer is
    built from. *)
Theorem create_outcome env req (st : Store) e d a b p eid ev t :
  truthy (body req !! "eventId") = Some e ->
  truthy (body req !! "date") = Some d ->
  truthy (body req !! "startTime") = Some a ->
  truthy (body req !! "endTime") = Some b ->
  truthy (body req !! "purpose") = Some p ->
  castObjectId e = Some eid ->
  events st !! eid = Some ev ->
  normalizeDate d = Some t ->
  regex_test time_pattern (convertTo12Hour a) = true ->
  regex_test time_pattern (convertTo12Hour b) = true ->
  Js.trim p <> "" ->
  slots st !! new_id env = None ->
  create env req st
  = ({| code := 201;
        payload := Json (Some
          {| json_id := new_id env; json_eventId := Some ev;
             json_date := JsDate.iso_date t;
             json_startTime := convertTo12Hour a; json_endTime := convertTo12Hour b;
             json_purpose := Js.trim p; json_status := available;
             json_bookedBy := None; json_createdBy := Some (user_id req) |}) |},
     {| slots := <[new_id env :=
                    {| eventId := Some eid; date := Some t;
                       startTime := convertTo12Hour a; endTime := convertTo12Hour b;
                       purpose := Js.trim p; status := available; bookedBy := None;
                       createdBy := Some (user_id req) |}]> (slots st);
        events := events st;
        log := ((log st ++ [Event_find e]) ++ [Slot_save (new_id env)])
               ++ [Slot_reload (new_id env)] |}).
Proof.
  intros He Hd Ha Hb Hp Hcast Hev Hn Hta Htb Htrim Hfresh.
  unfold create. rewrite He, Hd, Ha, Hb, Hp. run_handler.
  rewrite Hcast. simpl. rewrite Hev. simpl.
  match goal with |- context [validate ?x] => assert (validate x = true) as -> end.
  { unfold validate, required_string, match_validator. simpl.
    rewrite Hn, Hta, Htb, !matching_not_empty by done. simpl.
    apply String.eqb_neq in Htrim. by rewrite Htrim. }
  simpl. rewrite Hfresh. simpl. rewrite lookup_insert_eq. simpl.
  rewrite Hn. simpl. rewrite DateFacts.iso_string_date. simpl. by rewrite Hev.
Qed.

(** X28. What a delete does. When the identifier of the path is no
    ObjectId or names no slot, the answer is 404 and the slots are as
    they were. Otherwise the slot is removed, whatever its status, a
    booking with it: it is the only one that goes, and the answer is
    200 with the message of removal. *)
Theorem delete_outcome req (st : Store) :
  match castObjectId (params_id req) ≫= (slots st !!.) with
  | None => (remove req st).1 = not_found /\ slots (remove req st).2 = slots st
  | Some s =>
      exists i,
        castObjectId (params_id req) = Some i /\
        (remove req st).1
        = {| code := 200; payload := Message "Slot removed successfully" |} /\
        slots (remove req st).2 = delete i (slots st) /\
        slots (remove req st).2 !! i = None /\
        (forall k, k <> i -> slots (remove req st).2 !! k = slots st !! k) /\
        S (size (slots (remove req st).2)) = size (slots st)
  end.
Proof.
  pose proof (remove_cases_full req st) as Hcases.
  destruct (castObjectId (params_id req)) as [i|]; simpl in *; [|by rewrite Hcases].
  destruct (slots st !! i) as [s|] eqn:Hs; simpl in *; [|by rewrite Hcases].
  exists i. rewrite Hcases. simpl. split_and!; try done.
  - apply lookup_delete_eq.
  - intros k Hk. by apply lookup_delete_ne.
  - rewrite <- (insert_delete_id (slots st) i s Hs) at 2.
    rewrite map_size_insert_None; [done|]. apply lookup_delete_eq.
Qed.

End Operations.

(** ** The further properties at work *)

Lemma converted_time_accepted_witness :
  Js.contains Js.colon "99" = false /\ Js.contains Js.colon "30" = false /\
  regex_test time_pattern (convertTo12Hour "99:30") = true.
Proof.
  split; [reflexivity|]. split; [reflexivity|].
  exact (converted_time_accepted "99" "30" eq_refl eq_refl).
Defined.

Lemma convertTo12Hour_drops_third_segment_witness :
  Js.contains Js.colon "14" = false /\ Js.contains Js.colon "30" = false /\
  convertTo12Hour "14:30:45" = convertTo12Hour "14:30".
Proof.
  split; [reflexivity|]. split; [reflexivity|].
  exact (convertTo12Hour_drops_third_segment "14" "30" "45" eq_refl eq_refl).
Defined.

Lemma convertTo12Hour_any_hour_witness :
  0 <= 99 < 2 ^ 53 /\ Js.contains Js.colon "30" = false /\
  convertTo12Hour "99:30" = "3:30 PM".
Proof.
  assert (Hh : 0 <= 99 < 2 ^ 53) by (split; [lia|reflexivity]).
  split; [exact Hh|]. split; [reflexivity|].
  exact (convertTo12Hour_any_hour 99 "30" Hh eq_refl).
Defined.

Lemma convertTo12Hour_without_colon_witness :
  Js.contains Js.colon "1430" = false /\
  convertTo12Hour "1430" = "2:undefined PM" /\
  regex_test time_pattern (convertTo12Hour "1430") = false.
Proof.
  split; [reflexivity|]. exact (convertTo12Hour_without_colon "1430" eq_refl).
Defined.

Lemma twelve_hour_input_refused_witness :
  regex_test time_pattern "11:05 AM" = true /\
  regex_test time_pattern (convertTo12Hour "11:05 AM") = false.
Proof.
  assert (Ht : regex_test time_pattern "11:05 AM" = true) by reflexivity.
  split; [exact Ht|]. exact (twelve_hour_input_refused "11:05 AM" Ht).
Defined.

Lemma normalize_gives_midnight_witness :
  normalize (Some 1709303400000) = Some 1709251200000 /\
  JsDate.TimeWithinDay 1709251200000 = 0.
Proof.
  assert (Hn : normalize (Some 1709303400000) = Some 1709251200000)
    by (vm_compute; reflexivity).
  split; [exact Hn|].
  exact (proj1 (proj2 (normalize_gives_midnight (Some 1709303400000) 1709251200000) Hn)).
Defined.

Lemma normalize_first_century_witness :
  1 <= JsDate.YearFromTime (-60575040000000) <= 99 /\
  normalize (Some (-60575040000000)) = Some (-616896000000) /\
  exists t', normalize (Some (-60575040000000)) = Some t' /\
    t' = JsDate.MakeDay (1900 + JsDate.YearFromTime (-60575040000000))
           (JsDate.MonthFromTime (-60575040000000))
           (JsDate.DateFromTime (-60575040000000)) * JsDate.msPerDay /\
    JsDate.TimeWithinDay t' = 0 /\
    JsDate.YearFromTime t' = 1900 + JsDate.YearFromTime (-60575040000000) /\
    JsDate.MonthFromTime t' = JsDate.MonthFromTime (-60575040000000) /\
    JsDate.DateFromTime t' = JsDate.DateFromTime (-60575040000000).
Proof.
  assert (Hy : 1 <= JsDate.YearFromTime (-60575040000000) <= 99).
  { assert (JsDate.YearFromTime (-60575040000000) = 50) as -> by (vm_compute; reflexivity).
    lia. }
  split; [exact Hy|]. split; [vm_compute; reflexivity|].
  exact (normalize_first_century _ Hy).
Defined.

Lemma toJSON_outcome_witness :
  0 <= JsDate.YearFromTime 1709251200000 <= 9999 /\
  exists j, toJSON Cases.doc7 = inr j /\
    json_date j = JsDate.iso_date 1709251200000 /\
    String.length (json_date j) = 10%nat.
Proof.
  assert (Hy : 0 <= JsDate.YearFromTime 1709251200000 <= 9999).
  { assert (JsDate.YearFromTime 1709251200000 = 2024) as -> by (vm_compute; reflexivity).
    lia. }
  split; [exact Hy|].
  pose proof (toJSON_outcome Cases.doc7.1 Cases.doc7.2) as Hj.
  cbv beta iota delta [Cases.doc7 Sample.slot7 date doc fst snd] in Hj.
  destruct Hj as (j & Hj & Hd & Hlen & _). exists j. split; [exact Hj|].
  split; [exact Hd|]. exact (Hlen Hy).
Defined.


Lemma operation_frame_witness :
  @target Sample.collaborators (Book Sample.env1 Sample.book_req) <> Some 8%N /\
  is_Some (slots Cases.store_two !! 8%N) /\
  slots (book Sample.env1 Sample.book_req Cases.store_two).2 !! 8%N
  = slots Cases.store_two !! 8%N.
Proof.
  assert (Ht : @target Sample.collaborators (Book Sample.env1 Sample.book_req) <> Some 8%N)
    by (vm_compute; intros [=]).
  split; [exact Ht|]. split; [vm_compute; by eexists|].
  exact (operation_frame (Book Sample.env1 Sample.book_req) Cases.store_two 8 Ht).
Defined.

Lemma fields_kept_witness :
  slots Sample.store1 !! 7%N = Some Sample.slot7 /\
  slots (book Sample.env1 Sample.book_req Sample.store1).2 !! 7%N
  = Some Sample.slot7_booked /\
  eventId Sample.slot7_booked = eventId Sample.slot7 /\
  createdBy Sample.slot7_booked = createdBy Sample.slot7 /\
  date Sample.slot7_booked = date Sample.slot7 /\
  startTime Sample.slot7_booked = startTime Sample.slot7 /\
  endTime Sample.slot7_booked = endTime Sample.slot7 /\
  purpose Sample.slot7_booked = purpose Sample.slot7.
Proof.
  split; [exact SampleFacts.store1_slot7|]. split; [exact SampleFacts.store2_slot7|].
  exact (fields_kept (Book Sample.env1 Sample.book_req) Sample.store1 7
           Sample.slot7 Sample.slot7_booked SampleFacts.store1_slot7
           SampleFacts.store2_slot7).
Defined.

Lemma reachable_well_formed_witness :
  reachable Sample.store2 /\
  slots Sample.store2 !! 7%N = Some Sample.slot7_booked /\
  (exists t, date Sample.slot7_booked = Some t /\ JsDate.TimeWithinDay t = 0) /\
  Js.trim (purpose Sample.slot7_booked) = purpose Sample.slot7_booked.
Proof.
  split; [exact SampleFacts.store2_reachable|]. split; [exact SampleFacts.store2_slot7|].
  destruct (reachable_well_formed Sample.store2 7 Sample.slot7_booked
              SampleFacts.store2_reachable SampleFacts.store2_slot7)
    as (_ & Hd & _ & _ & Ht & _).
  split; [exact Hd|exact Ht].
Defined.

Lemma get_by_id_outcome_witness :
  reachable Sample.store1 /\
  code (get_by_id Cases.slot7_req Sample.store1) = 200 /\
  match payload (get_by_id Cases.slot7_req Sample.store1) with
  | Json (Some j) => json_eventId j = Some "Orientation" /\ json_startTime j = "2:30 PM"
  | _ => False
  end.
Proof.
  split; [exact SampleFacts.store1_reachable|].
  pose proof (get_by_id_outcome Cases.slot7_req Sample.store1
                SampleFacts.store1_reachable) as Hg.
  replace (@castObjectId Sample.collaborators (params_id Cases.slot7_req)
           ≫= (fun i => (fun s => (i, s)) <$> slots Sample.store1 !! i))
    with (Some (7%N, Sample.slot7)) in Hg by (vm_compute; reflexivity).
  destruct Hg as (ev & t & Hev & _ & Hr). rewrite Hr.
  replace (eventId Sample.slot7 ≫= (events Sample.store1 !!.))
    with (Some "Orientation") in Hev by (vm_compute; reflexivity).
  injection Hev as <-. split; [reflexivity|]. split; reflexivity.
Defined.

Lemma read_after_write_witness :
  @target Sample.collaborators (Create Sample.env1 Sample.create_req) = Some 7%N /\
  @castObjectId Sample.collaborators (params_id Cases.slot7_req) = Some 7%N /\
  code (create Sample.env1 Sample.create_req Sample.store0).1 = 201 /\
  get_by_id Cases.slot7_req (create Sample.env1 Sample.create_req Sample.store0).2
  = {| code := 200;
       payload := payload (create Sample.env1 Sample.create_req Sample.store0).1 |}.
Proof.
  assert (Ht : @target Sample.collaborators (Create Sample.env1 Sample.create_req)
               = Some 7%N) by reflexivity.
  assert (Hi : @castObjectId Sample.collaborators (params_id Cases.slot7_req) = Some 7%N)
    by (vm_compute; reflexivity).
  assert (Hc : code (create Sample.env1 Sample.create_req Sample.store0).1 = 201)
    by (vm_compute; reflexivity).
  split; [exact Ht|]. split; [exact Hi|]. split; [exact Hc|].
  exact (read_after_write (Create Sample.env1 Sample.create_req) Sample.store0
           Cases.slot7_req 7 Ht Hi (or_intror Hc)).
Defined.

Lemma deleted_slot_is_gone_witness :
  code (remove Cases.slot7_req Sample.store1).1 = 200 /\
  (update Sample.update_req_minutes (remove Cases.slot7_req Sample.store1).2).1
  = not_found /\
  slots (update Sample.update_req_minutes (remove Cases.slot7_req Sample.store1).2).2
  = slots (remove Cases.slot7_req Sample.store1).2.
Proof.
  assert (Hc : code (remove Cases.slot7_req Sample.store1).1 = 200)
    by (vm_compute; reflexivity).
  split; [exact Hc|].
  exact (deleted_slot_is_gone Cases.slot7_req Sample.store1
           (Update Sample.update_req_minutes) Hc eq_refl).
Defined.

Lemma get_all_lists_every_slot_witness :
  reachable Sample.store1 /\
  exists js,
    get_all Sample.store1 = {| list_code := 200; list_payload := Slots js |} /\
    length js = size (slots Sample.store1).
Proof.
  split; [exact SampleFacts.store1_reachable|].
  destruct (get_all_lists_every_slot Sample.store1 SampleFacts.store1_reachable)
    as (js & Hg & Hl & _).
  exists js. split; [exact Hg|exact Hl].
Defined.

Lemma get_by_event_outcome_witness :
  reachable Sample.store1 /\
  (exists js,
     get_by_event "1" Sample.store1 = {| list_code := 200; list_payload := Slots js |} /\
     NoDup (json_id <$> js)) /\
  list_code (get_by_event "one" Sample.store1) = 500.
Proof.
  split; [exact SampleFacts.store1_reachable|]. split.
  - pose proof (get_by_event_outcome "1" Sample.store1) as Hg.
    replace (@castObjectId Sample.collaborators "1") with (Some 1%N) in Hg by (vm_compute; reflexivity).
    destruct (Hg SampleFacts.store1_reachable) as (js & Hr & Hn & _).
    exists js. split; [exact Hr|exact Hn].
  - pose proof (get_by_event_outcome "one" Sample.store1) as Hg.
    replace (@castObjectId Sample.collaborators "one") with (@None N) in Hg by (vm_compute; reflexivity).
    rewrite Hg. reflexivity.
Defined.

Lemma book_then_cancel_frees_slot_witness :
  code (book Sample.env1 Sample.book_req Sample.store1).1 = 200 /\
  code (cancel Sample.cancel_req (book Sample.env1 Sample.book_req Sample.store1).2).1
  = 200 /\
  exists s',
    slots (cancel Sample.cancel_req
             (book Sample.env1 Sample.book_req Sample.store1).2).2 !! 7%N = Some s' /\
    status s' = available /\ bookedBy s' = None /\
    startTime s' = startTime Sample.slot7 /\ purpose s' = purpose Sample.slot7.
Proof.
  assert (Hc : code (book Sample.env1 Sample.book_req Sample.store1).1 = 200)
    by (vm_compute; reflexivity).
  split; [exact Hc|].
  destruct (book_then_cancel_frees_slot Sample.env1 Sample.book_req Sample.cancel_req
              Sample.store1 Hc eq_refl)
    as (Hcode & i & s & s' & Hi & Hs & Hs' & _ & Hst & Hb & Hfields & _).
  replace (@castObjectId Sample.collaborators (params_id Sample.book_req))
    with (Some 7%N) in Hi by (vm_compute; reflexivity).
  injection Hi as <-. rewrite SampleFacts.store1_slot7 in Hs. injection Hs as <-.
  split; [exact Hcode|]. exists s'. split; [exact Hs'|]. split; [exact Hst|].
  split; [exact Hb|]. injection Hfields as _ _ Ha _ Hp _. split; [exact Ha|exact Hp].
Defined.

Lemma booked_slot_refuses_booking_witness :
  code (book Sample.env1 Sample.book_req Sample.store1).1 = 200 /\
  code (book Cases.env2 Sample.book_req
          (book Sample.env1 Sample.book_req Sample.store1).2).1 = 400 /\
  slots (book Cases.env2 Sample.book_req
           (book Sample.env1 Sample.book_req Sample.store1).2).2
  = slots (book Sample.env1 Sample.book_req Sample.store1).2.
Proof.
  assert (Hc : code (book Sample.env1 Sample.book_req Sample.store1).1 = 200)
    by (vm_compute; reflexivity).
  split; [exact Hc|].
  exact (booked_slot_refuses_booking Sample.env1 Sample.book_req Cases.env2
           Sample.book_req Sample.store1 Hc eq_refl).
Defined.

Lemma create_unknown_event_witness :
  @castObjectId Sample.collaborators "2" ≫= (events Sample.store0 !!.) = None /\
  code (create Sample.env1 Cases.create_req_no_event Sample.store0).1 = 404 /\
  slots (create Sample.env1 Cases.create_req_no_event Sample.store0).2
  = slots Sample.store0.
Proof.
  assert (Hev : @castObjectId Sample.collaborators "2" ≫= (events Sample.store0 !!.) = None)
    by (vm_compute; reflexivity).
  split; [exact Hev|].
  rewrite (create_unknown_event Sample.env1 Cases.create_req_no_event Sample.store0
             "2" "2024-03-01" "14:30" "15:00" "Advising"
             ltac:(vm_compute; reflexivity) ltac:(vm_compute; reflexivity)
             ltac:(vm_compute; reflexivity) ltac:(vm_compute; reflexivity)
             ltac:(vm_compute; reflexivity) Hev).
  replace (@castObjectId Sample.collaborators "2") with (Some 2%N) by (vm_compute; reflexivity).
  split; reflexivity.
Defined.

Lemma create_validation_failure_witness :
  regex_test time_pattern (convertTo12Hour "9:75") = false /\
  code (create Sample.env1 Cases.create_req_minutes Sample.store0).1 = 500 /\
  slots (create Sample.env1 Cases.create_req_minutes Sample.store0).2
  = slots Sample.store0.
Proof.
  assert (Hbad : regex_test time_pattern (convertTo12Hour "9:75") = false)
    by (vm_compute; reflexivity).
  split; [exact Hbad|].
  rewrite (create_validation_failure Sample.env1 Cases.create_req_minutes Sample.store0
             "1" "2024-03-01" "9:75" "15:00" "Advising" "Orientation"
             ltac:(vm_compute; reflexivity) ltac:(vm_compute; reflexivity)
             ltac:(vm_compute; reflexivity) ltac:(vm_compute; reflexivity)
             ltac:(vm_compute; reflexivity) ltac:(vm_compute; reflexivity)
             (or_intror (or_introl Hbad))).
  split; reflexivity.
Defined.

Lemma listing_after_write_witness :
  reachable Sample.store0 /\
  code (create Sample.env1 Sample.create_req Sample.store0).1 = 201 /\
  exists js,
    get_all (create Sample.env1 Sample.create_req Sample.store0).2
    = {| list_code := 200; list_payload := Slots js |} /\
    exists j,
      payload (create Sample.env1 Sample.create_req Sample.store0).1 = Json (Some j) /\
      j ∈ js.
Proof.
  assert (Hr : reachable Sample.store0) by (unfold Sample.store0; apply reachable_empty).
  assert (Hc : code (create Sample.env1 Sample.create_req Sample.store0).1 = 201)
    by (vm_compute; reflexivity).
  split; [exact Hr|]. split; [exact Hc|].
  exact (listing_after_write (Create Sample.env1 Sample.create_req) Sample.store0 7
           Hr eq_refl (or_intror Hc)).
Defined.

Lemma create_outcome_witness :
  slots Sample.store0 !! new_id Sample.env1 = None /\
  code (create Sample.env1 Sample.create_req Sample.store0).1 = 201 /\
  slots (create Sample.env1 Sample.create_req Sample.store0).2
  = <[7%N := Sample.slot7]> (slots Sample.store0).
Proof.
  assert (Hf : slots Sample.store0 !! new_id Sample.env1 = None)
    by (vm_compute; reflexivity).
  split; [exact Hf|].
  rewrite (create_outcome Sample.env1 Sample.create_req Sample.store0
             "1" "2024-03-01" "14:30" "15:00" "Advising" 1 "Orientation" 1709251200000
             ltac:(vm_compute; reflexivity) ltac:(vm_compute; reflexivity)
             ltac:(vm_compute; reflexivity) ltac:(vm_compute; reflexivity)
             ltac:(vm_compute; reflexivity) ltac:(vm_compute; reflexivity)
             ltac:(vm_compute; reflexivity) ltac:(vm_compute; reflexivity)
             ltac:(vm_compute; reflexivity) ltac:(vm_compute; reflexivity)
             ltac:(vm_compute; discriminate) Hf).
  split; [reflexivity|]. vm_compute. reflexivity.
Defined.

Lemma delete_outcome_witness :
  status Sample.slot7_booked = booked /\
  slots Sample.store2 !! 7%N = Some Sample.slot7_booked /\
  code (remove Cases.slot7_req Sample.store2).1 = 200 /\
  slots (remove Cases.slot7_req Sample.store2).2 !! 7%N = None.
Proof.
  split; [reflexivity|]. split; [exact SampleFacts.store2_slot7|].
  pose proof (delete_outcome Cases.slot7_req Sample.store2) as Hd.
  replace (@castObjectId Sample.collaborators (params_id Cases.slot7_req)
           ≫= (slots Sample.store2 !!.))
    with (Some Sample.slot7_booked) in Hd by (vm_compute; reflexivity).
  destruct Hd as (i & Hi & Hr & _ & Hgone & _).
  replace (@castObjectId Sample.collaborators (params_id Cases.slot7_req))
    with (Some 7%N) in Hi by (vm_compute; reflexivity).
  injection Hi as <-. split; [by rewrite Hr|exact Hgone].
Defined.
